(** * Infinity Assistant Python SDK: request executor and streaming decoder

    A shallow embedding of [infinity_assistant/exceptions.py],
    [infinity_assistant/client.py] and [infinity_assistant/async_client.py].

    - Python values are a first-order datatype ([pyval]); a [dict] is an
      insertion-ordered association list whose keys are strings.
    - Effects are explicit: a computation produces the trace of what it did
      (HTTP calls issued, sleeps, chunks yielded) and ends by returning,
      by raising, or by running out of simulated network replies.
    - What the SDK calls in the Python runtime and in its HTTP libraries
      ([json.loads], [int], [bytes.decode], [urlencode]) is a parameter
      ([PyLib]); the network is a script of replies, one per attempt. *)

From Stdlib Require Import ZArith List String Ascii Bool Lia.
From Stdlib Require Import Floats.PrimFloat Floats.SpecFloat Floats.FloatOps.
Import ListNotations.

Set Warnings "-register-all".
Local Open Scope string_scope.
Local Open Scope list_scope.
Local Open Scope Z_scope.

(** ** Python values *)

Inductive pyval : Type :=
| PyNone
| PyBool (b : bool)
| PyInt (n : Z)
| PyFloat (x : float)
| PyStr (s : string)
| PyList (items : list pyval)
| PyDict (items : list (string * pyval)).

(** Truth value testing, as [if v:] and [v or w] use it. *)
Definition truthy (v : pyval) : bool :=
  match v with
  | PyNone => false
  | PyBool b => b
  | PyInt n => negb (n =? 0)
  | PyFloat x => negb (PrimFloat.eqb x 0%float)
  | PyStr s => negb (String.eqb s EmptyString)
  | PyList items => match items with [] => false | _ :: _ => true end
  | PyDict items => match items with [] => false | _ :: _ => true end
  end.

(** [a or b] *)
Definition py_or (a b : pyval) : pyval := if truthy a then a else b.

(** [v == "s"] for a string literal on the right. *)
Definition eq_str (v : pyval) (s : string) : bool :=
  match v with
  | PyStr t => String.eqb t s
  | _ => false
  end.

Fixpoint lookup (key : string) (items : list (string * pyval)) : option pyval :=
  match items with
  | [] => None
  | (k, v) :: rest => if String.eqb key k then Some v else lookup key rest
  end.

(** [d[key] = v]: an existing key keeps its position. *)
Fixpoint dict_set (key : string) (v : pyval) (items : list (string * pyval))
  : list (string * pyval) :=
  match items with
  | [] => [(key, v)]
  | (k, w) :: rest =>
      if String.eqb key k then (k, v) :: rest else (k, w) :: dict_set key v rest
  end.

Definition is_dict (v : pyval) : bool :=
  match v with
  | PyDict _ => true
  | _ => false
  end.

(** ** Numbers used as durations

    [retry_delay] is whatever number the caller configured (a [float] by
    default), [int(retry_after)] is an [int], and the backoff multiplies a
    duration by an [int].  The model is generic in the number type. *)

Class PyNumber (N : Type) := {
  of_int : Z -> N;             (* an [int] used as a duration *)
  mul_int : N -> Z -> N;       (* [x * n] for an [int] n *)
  is_negative : N -> bool      (* [x < 0] *)
}.

#[export] Instance PyNumber_Z : PyNumber Z := {
  of_int n := n;
  mul_int x n := x * n;
  is_negative x := x <? 0
}.

(** Python's [float] is binary64; an [int] converts to it with rounding to
    nearest, ties to even. *)
Definition float_of_int (n : Z) : float :=
  SF2Prim (binary_normalize prec emax n 0 false).

#[export] Instance PyNumber_float : PyNumber float := {
  of_int n := float_of_int n;
  mul_int x n := PrimFloat.mul x (float_of_int n);
  is_negative x := PrimFloat.ltb x 0%float
}.

(** ** Exceptions *)

(** Classes of the exceptions the libraries and the interpreter raise, as far
    as the [except] clauses of the SDK tell them apart.  [TimeoutExc] is
    [requests.exceptions.Timeout] for the blocking client and
    [asyncio.TimeoutError] for the non-blocking one; [TransportExc] is any
    other [requests.exceptions.RequestException], respectively
    [aiohttp.ClientError]. *)
Inductive exn_class : Type :=
| TimeoutExc
| TransportExc
| JSONDecodeError
| AttributeError
| ValueError
| UnicodeDecodeError
| OtherExc.

Module Exceptions.

(** exceptions.py: one class and three subclasses that only fix [code] and
    [status_code]. *)
Inductive error_class : Type :=
| BaseError
| RateLimitError
| TimeoutError
| NetworkError.

Record sdk_error : Type := mk_error {
  cls : error_class;
  message : pyval;
  code : pyval;
  status_code : pyval;
  response : pyval
}.

Definition InfinityAssistantError (message code status_code response : pyval) : sdk_error :=
  mk_error BaseError message code status_code response.

Definition InfinityAssistantRateLimitError (message : string) : sdk_error :=
  mk_error RateLimitError (PyStr message) (PyStr "RATE_LIMIT") (PyInt 429) PyNone.

Definition InfinityAssistantTimeoutError (message : string) : sdk_error :=
  mk_error TimeoutError (PyStr message) (PyStr "TIMEOUT") (PyInt 408) PyNone.

Definition InfinityAssistantNetworkError (message : string) : sdk_error :=
  mk_error NetworkError (PyStr message) (PyStr "NETWORK_ERROR") (PyInt 0) PyNone.

End Exceptions.
Import Exceptions.

Inductive exn : Type :=
| Sdk (e : sdk_error)
| Lib (c : exn_class) (text : string).

(** [str(e)] of a library exception. *)
Definition exn_text (e : exn) : string :=
  match e with
  | Lib _ text => text
  | Sdk _ => EmptyString
  end.

(** [InfinityAssistantError.__str__], which the three subclasses inherit:
    [f"{self.code}: {self.message}"] when [self.code] is truthy, else
    [self.message].  [format] is what an f-string field does to a value (the
    built-in [format] with an empty format specification: the value itself for
    a [str]); a [__str__] that returns something that is not a [str] makes
    [str(e)] raise [TypeError]. *)
Definition __str__ (format : pyval -> string) (self : sdk_error) : string + exn :=
  if truthy (code self) then
    inl (format (code self) ++ ": " ++ format (message self))%string
  else
    match message self with
    | PyStr s => inl s
    | _ => inr (Lib OtherExc "TypeError: __str__ returned non-string")
    end.

(** ** The effect monad: a trace and an outcome *)

Record http_call : Type := mk_call {
  call_method : string;
  call_url : string;
  call_headers : list (string * string);
  call_params : pyval;
  call_json : pyval;
  call_timeout : option Z;
  call_stream : bool
}.

Inductive event (N : Type) : Type :=
| Request (call : http_call)
| Sleep (seconds : N)
| Yield (chunk : pyval).
Arguments Request {N} call.
Arguments Sleep {N} seconds.
Arguments Yield {N} chunk.

Inductive outcome (A : Type) : Type :=
| Return (a : A)
| Raise (e : exn)
| Starved.
Arguments Return {A} a.
Arguments Raise {A} e.
Arguments Starved {A}.

Definition M (N A : Type) : Type := (list (event N) * outcome A)%type.

Definition ret {N A} (a : A) : M N A := ([], Return a).
Definition raise {N A} (e : exn) : M N A := ([], Raise e).
Definition starved {N A} : M N A := ([], Starved).
Definition tell {N} (ev : event N) : M N unit := ([ev], Return tt).

Definition bind {N A B} (m : M N A) (k : A -> M N B) : M N B :=
  match m with
  | (t, Return a) => let (t', o) := k a in (t ++ t', o)
  | (t, Raise e) => (t, Raise e)
  | (t, Starved) => (t, Starved)
  end.

(** [try: body  except ...: handler]; the handler re-raises what no clause
    matches. *)
Definition try_except {N A} (body : M N A) (handler : exn -> M N A) : M N A :=
  match body with
  | (t, Raise e) => let (t', o) := handler e in (t ++ t', o)
  | other => other
  end.

Declare Scope py_scope.
Delimit Scope py_scope with py.
Notation "x <- c1 ;; c2" := (bind c1 (fun x => c2))
  (at level 61, c1 at next level, right associativity) : py_scope.
Notation "c1 ;; c2" := (bind c1 (fun _ => c2))
  (at level 61, right associativity) : py_scope.
Local Open Scope py_scope.

Definition trace_of {N A} (m : M N A) : list (event N) := fst m.
Definition outcome_of {N A} (m : M N A) : outcome A := snd m.

Fixpoint yields {N} (t : list (event N)) : list pyval :=
  match t with
  | [] => []
  | Yield c :: rest => c :: yields rest
  | _ :: rest => yields rest
  end.

Fixpoint sleeps {N} (t : list (event N)) : list N :=
  match t with
  | [] => []
  | Sleep d :: rest => d :: sleeps rest
  | _ :: rest => sleeps rest
  end.

Fixpoint requests {N} (t : list (event N)) : list http_call :=
  match t with
  | [] => []
  | Request c :: rest => c :: requests rest
  | _ :: rest => requests rest
  end.

(** ** What the SDK calls in the runtime and its libraries

    A [bytes] value is the string of its bytes and a [str] the string of its
    UTF-8 bytes: [startswith("data: ")], [[6:]] and [== "[DONE]"] compare and
    cut ASCII text, which is the same on code points and on bytes. *)

Record PyLib : Type := mk_lib {
  json_loads : string -> option pyval;     (* json.loads; None: JSONDecodeError *)
  int_of_str : string -> option Z;         (* int(s); None: ValueError *)
  bytes_decode : string -> option string;  (* line.decode("utf-8"); None: UnicodeDecodeError *)
  urlencode : pyval -> string              (* urllib.parse.urlencode *)
}.

(** [v.get(key)], [v.get(key, default)], [v[key]] for a value that came out of
    [json.loads]: only a dict has [get]. *)
Definition py_get {N} (v : pyval) (key : string) (default : pyval) : M N pyval :=
  match v with
  | PyDict items =>
      ret (match lookup key items with Some x => x | None => default end)
  | _ => raise (Lib AttributeError "object has no attribute 'get'")
  end.

Definition py_getitem {N} (v : pyval) (key : string) : M N pyval :=
  match v with
  | PyDict items =>
      match lookup key items with
      | Some x => ret x
      | None => raise (Lib OtherExc "KeyError")
      end
  | _ => raise (Lib OtherExc "TypeError")
  end.

(** ** HTTP responses and the simulated network *)

Module Http.

(** What [response.json()] does: the parsed body, or the exception it raises. *)
Inductive json_result : Type :=
| JsonValue (v : pyval)
| JsonFails (e : exn).

(** A response as the session hands it to the SDK, after whatever the
    transport does on its own: redirects and, for the blocking client, the
    retries of the [urllib3] strategy that [__init__] mounts on the session.
    [lines] is what iterating the body yields ([response.iter_lines()],
    [response.content]) and [lines_end] how that iteration ends: [None] at the
    end of the body, [Some e] when the transport fails first. *)
Record Response : Type := mk_response {
  status_code : Z;
  headers : list (string * string);
  json : json_result;
  lines : list string;
  lines_end : option exn
}.

(** One attempt on the network: the session returns a response or raises. *)
Inductive reply : Type :=
| Responds (r : Response)
| Fails (e : exn).

Definition lower (c : ascii) : ascii :=
  let n := nat_of_ascii c in
  if ((65 <=? n) && (n <=? 90))%nat then ascii_of_nat (n + 32) else c.

Fixpoint lowercase (s : string) : string :=
  match s with
  | EmptyString => EmptyString
  | String c rest => String (lower c) (lowercase rest)
  end.

(** [response.headers.get(name)]: header names compare without case. *)
Fixpoint headers_get (name : string) (hs : list (string * string)) : option string :=
  match hs with
  | [] => None
  | (k, v) :: rest =>
      if String.eqb (lowercase name) (lowercase k) then Some v else headers_get name rest
  end.

(** [requests]: [response.iter_lines()] yields the body split at line
    boundaries ([bytes.splitlines]: LF, CR or CR LF), terminators removed. *)
Fixpoint splitlines (body : string) (current : string) : list string :=
  match body with
  | EmptyString =>
      match current with
      | EmptyString => []
      | _ => [current]
      end
  | String c rest =>
      if Ascii.eqb c (ascii_of_nat 10) then current :: splitlines rest EmptyString
      else if Ascii.eqb c (ascii_of_nat 13) then
        match rest with
        | String c' rest' =>
            if Ascii.eqb c' (ascii_of_nat 10)
            then current :: splitlines rest' EmptyString
            else current :: splitlines rest EmptyString
        | EmptyString => [current]
        end
      else splitlines rest (current ++ String c EmptyString)
  end.

Definition iter_lines (body : string) : list string := splitlines body EmptyString.

(** [aiohttp]: iterating [response.content] is [readline()] until the end of
    the body; every line keeps its LF, the last one may lack it. *)
Fixpoint readlines (body : string) (current : string) : list string :=
  match body with
  | EmptyString =>
      match current with
      | EmptyString => []
      | _ => [current]
      end
  | String c rest =>
      if Ascii.eqb c (ascii_of_nat 10)
      then (current ++ String c EmptyString)%string :: readlines rest EmptyString
      else readlines rest (current ++ String c EmptyString)
  end.

Definition content_lines (body : string) : list string := readlines body EmptyString.

End Http.
Import Http.

(** ** Strings *)

(** [s.rstrip("/")] *)
Fixpoint rstrip_slash (s : string) : string :=
  match s with
  | EmptyString => EmptyString
  | String c rest =>
      match rstrip_slash rest with
      | EmptyString => if Ascii.eqb c "/" then EmptyString else String c EmptyString
      | kept => String c kept
      end
  end.

(** [s[n:]] *)
Fixpoint drop (n : nat) (s : string) : string :=
  match n, s with
  | O, _ => s
  | S _, EmptyString => EmptyString
  | S n', String _ rest => drop n' rest
  end.

(** [s.startswith(p)] *)
Definition startswith (s p : string) : bool := String.prefix p s.

Definition nonempty (s : string) : bool := negb (String.eqb s EmptyString).

(** The chunks [chat_stream] yields. *)
Definition chunk_done : pyval := PyDict [("type", PyStr "done")].
Definition chunk_error (e : pyval) : pyval := PyDict [("type", PyStr "error"); ("error", e)].
Definition chunk_text (c : pyval) : pyval := PyDict [("type", PyStr "text"); ("content", c)].
Definition chunk_metadata (m : pyval) : pyval :=
  PyDict [("type", PyStr "metadata"); ("metadata", m)].

(** The body substituted for an error response that is not JSON. *)
Definition unknown_error : pyval := PyDict [("error", PyStr "Unknown error")].

(** How one iteration of the [for line in ...] loop ends. *)
Inductive flow : Type :=
| Next
| Break.

(** ** The blocking client (client.py) *)

Module Client.

(** [urllib3.util.retry.Retry], as [__init__] configures it. *)
Record Retry (N : Type) : Type := mk_retry {
  total : Z;
  backoff_factor : N;
  status_forcelist : list Z
}.
Arguments mk_retry {N}.

Record InfinityAssistantClient (N : Type) : Type := mk_client {
  api_key : option string;
  base_url : string;
  timeout : Z;
  max_retries : Z;
  retry_delay : N;
  session_retry : Retry N   (* mounted on the session for http:// and https:// *)
}.
Arguments mk_client {N}.
Arguments api_key {N}.
Arguments base_url {N}.
Arguments timeout {N}.
Arguments max_retries {N}.
Arguments retry_delay {N}.
Arguments session_retry {N}.

Definition __init__ {N} (api_key : option string) (base_url : string)
    (timeout max_retries : Z) (retry_delay : N) : InfinityAssistantClient N :=
  mk_client api_key (rstrip_slash base_url) timeout max_retries retry_delay
    (mk_retry max_retries retry_delay [429; 500; 502; 503; 504]).

Definition set_api_key {N} (self : InfinityAssistantClient N) (key : string)
  : InfinityAssistantClient N :=
  mk_client (Some key) (base_url self) (timeout self) (max_retries self)
    (retry_delay self) (session_retry self).

Definition get_api_key {N} (self : InfinityAssistantClient N) : option string :=
  api_key self.

Definition _get_headers {N} (self : InfinityAssistantClient N) : list (string * string) :=
  let headers := [("Content-Type", "application/json")] in
  match api_key self with
  | Some key => if nonempty key then headers ++ [("X-API-Key", key)] else headers
  | None => headers
  end.

(** [requests.Response.ok]: [raise_for_status] raises for
    [400 <= status_code < 600]. *)
Definition ok (r : Response) : bool :=
  negb ((400 <=? status_code r) && (status_code r <? 600)).

Section Run.
Context {N : Type} `{PyNumber N} (lib : PyLib).

(** [time.sleep(seconds)] refuses a negative duration. *)
Definition time_sleep (seconds : N) : M N unit :=
  if is_negative seconds
  then raise (Lib ValueError "sleep length must be non-negative")
  else tell (Sleep seconds).

(** [self.session.request(...)] and [self.session.post(...)] *)
Definition session_request (call : http_call) (o : reply) : M N Response :=
  tell (Request call) ;;
  match o with
  | Responds r => ret r
  | Fails e => raise e
  end.

Definition response_json (r : Response) : M N pyval :=
  match json r with
  | JsonValue v => ret v
  | JsonFails e => raise e
  end.

(** [try: error_data = response.json()  except: error_data = {...}] *)
Definition error_body (r : Response) : pyval :=
  match json r with
  | JsonValue v => v
  | JsonFails _ => unknown_error
  end.

(** [raise InfinityAssistantError(error_data.get("message") or
    error_data.get("error") or "Request failed", code=error_data.get("code"),
    status_code=response.status_code, response=error_data)] *)
Definition raise_api_error {A} (r : Response) : M N A :=
  let error_data := error_body r in
  msg <- py_get error_data "message" PyNone ;;
  msg <- (if truthy msg then ret msg
          else err <- py_get error_data "error" PyNone ;;
               ret (py_or err (PyStr "Request failed"))) ;;
  c <- py_get error_data "code" PyNone ;;
  raise (Sdk (InfinityAssistantError msg c (PyInt (status_code r)) error_data)).

(** [int(retry_after) if retry_after else self.retry_delay] *)
Definition retry_after_delay (self : InfinityAssistantClient N) (r : Response) : M N N :=
  match headers_get "Retry-After" (headers r) with
  | Some retry_after =>
      if nonempty retry_after then
        match int_of_str lib retry_after with
        | Some n => ret (of_int n)
        | None => raise (Lib ValueError "invalid literal for int()")
        end
      else ret (retry_delay self)
  | None => ret (retry_delay self)
  end.

(** The arguments of [self.session.request(method=, url=, headers=, json=,
    timeout=)]: the query string is appended to the URL when [params] is
    truthy. *)
Definition request_call (self : InfinityAssistantClient N) (method endpoint : string)
    (params data : pyval) : http_call :=
  let url := (base_url self ++ endpoint)%string in
  let url := if truthy params then (url ++ "?" ++ urlencode lib params)%string else url in
  mk_call method url (_get_headers self) PyNone data (Some (timeout self)) false.

(** The arguments of [self.session.post(url, headers=, json=kwargs, timeout=,
    stream=True)] after [kwargs["stream"] = True]. *)
Definition stream_call (self : InfinityAssistantClient N) (kwargs : list (string * pyval))
  : http_call :=
  let url := (base_url self ++ "/chat")%string in
  let kwargs := dict_set "stream" (PyBool true) kwargs in
  mk_call "POST" url (_get_headers self) PyNone (PyDict kwargs) (Some (timeout self)) true.

(** The [except] clauses of [_request], for [requests.exceptions.Timeout] and
    [requests.exceptions.RequestException]; any other exception propagates. *)
Definition except_clauses (self : InfinityAssistantClient N) (retry_count : Z)
    (again : M N pyval) (e : exn) : M N pyval :=
  match e with
  | Lib TimeoutExc _ =>
      raise (Sdk (InfinityAssistantTimeoutError "Request timeout"))
  | Lib TransportExc text =>
      if retry_count <? max_retries self then
        time_sleep (mul_int (retry_delay self) (retry_count + 1)) ;; again
      else
        raise (Sdk (InfinityAssistantNetworkError ("Network error: " ++ text)))
  | _ => raise e
  end.

(** The body of [_request] for one attempt; [again] is the recursive call
    [self._request(method, endpoint, params, data, retry_count + 1)]. *)
Definition attempt (self : InfinityAssistantClient N) (method endpoint : string)
    (params data : pyval) (retry_count : Z) (o : reply) (again : M N pyval)
  : M N pyval :=
  try_except
    (response <- session_request (request_call self method endpoint params data) o ;;
     if status_code response =? 429 then
       delay <- retry_after_delay self response ;;
       if retry_count <? max_retries self then
         time_sleep delay ;; again
       else
         raise (Sdk (InfinityAssistantRateLimitError
                       "Rate limit exceeded. Please try again later."))
     else if negb (ok response) then
       raise_api_error response
     else
       response_json response)
    (except_clauses self retry_count again).

(** [_request]: [net] scripts the network, one reply per attempt. *)
Fixpoint _request (self : InfinityAssistantClient N) (method endpoint : string)
    (params data : pyval) (retry_count : Z) (net : list reply) : M N pyval :=
  match net with
  | [] => starved
  | o :: net' =>
      attempt self method endpoint params data retry_count o
        (_request self method endpoint params data (retry_count + 1) net')
  end.

(** One iteration of the loop over [response.iter_lines()]. *)
Definition on_line (line : string) : M N flow :=
  if negb (nonempty line) then ret Next
  else
    line_str <- match bytes_decode lib line with
                | Some s => ret s
                | None => raise (Lib UnicodeDecodeError "invalid utf-8")
                end ;;
    if startswith line_str "data: " then
      let data := drop 6 line_str in
      if String.eqb data "[DONE]" then
        tell (Yield chunk_done) ;; ret Break
      else
        try_except
          (parsed <- match json_loads lib data with
                     | Some v => ret v
                     | None => raise (Lib JSONDecodeError "invalid JSON")
                     end ;;
           ty <- py_get parsed "type" PyNone ;;
           if eq_str ty "error" then
             err <- py_get parsed "error" (PyStr "Unknown error") ;;
             tell (Yield (chunk_error err)) ;; ret Break
           else
             content <- py_get parsed "content" PyNone ;;
             (if truthy content then
                c <- py_getitem parsed "content" ;; tell (Yield (chunk_text c))
              else ret tt) ;;
             metadata <- py_get parsed "metadata" PyNone ;;
             (if truthy metadata then
                m <- py_getitem parsed "metadata" ;; tell (Yield (chunk_metadata m))
              else ret tt) ;;
             ret Next)
          (fun e =>
             match e with
             | Lib JSONDecodeError _ => ret Next
             | _ => raise e
             end)
    else ret Next.

(** [for line in response.iter_lines(): ...]; [finish] is how the iterator
    ends. *)
Fixpoint for_lines (ls : list string) (finish : option exn) : M N unit :=
  match ls with
  | [] =>
      match finish with
      | None => ret tt
      | Some e => raise e
      end
  | line :: rest =>
      f <- on_line line ;;
      match f with
      | Next => for_lines rest finish
      | Break => ret tt
      end
  end.

(** The [except] clauses of [chat_stream]. *)
Definition stream_except_clauses (e : exn) : M N unit :=
  match e with
  | Lib TimeoutExc _ =>
      raise (Sdk (InfinityAssistantTimeoutError "Request timeout"))
  | Lib TransportExc text =>
      raise (Sdk (InfinityAssistantNetworkError ("Network error: " ++ text)))
  | _ => raise e
  end.

(** [chat_stream], run until the generator is exhausted: the chunks are the
    [Yield] events of the trace. *)
Definition chat_stream (self : InfinityAssistantClient N)
    (kwargs : list (string * pyval)) (o : reply) : M N unit :=
  try_except
    (response <- session_request (stream_call self kwargs) o ;;
     if negb (ok response) then
       raise_api_error response
     else
       for_lines (lines response) (lines_end response) ;;
       tell (Yield chunk_done))
    stream_except_clauses.

(** The operations: each is one call of [_request] with [retry_count = 0]. *)
Definition chat (self : InfinityAssistantClient N) (kwargs : list (string * pyval)) :=
  _request self "POST" "/chat" PyNone (PyDict kwargs) 0.

Definition search_knowledge (self : InfinityAssistantClient N) (kwargs : list (string * pyval)) :=
  _request self "POST" "/knowledge/search" PyNone (PyDict kwargs) 0.

Definition store_memory (self : InfinityAssistantClient N) (key : string) (value ttl : pyval) :=
  _request self "POST" "/memory/store" PyNone
    (PyDict [("key", PyStr key); ("value", value); ("ttl", ttl)]) 0.

Definition retrieve_memory (self : InfinityAssistantClient N) (key : string) :=
  _request self "GET" "/memory/retrieve" (PyDict [("key", PyStr key)]) PyNone 0.

Definition research (self : InfinityAssistantClient N) (kwargs : list (string * pyval)) :=
  _request self "POST" "/research" PyNone (PyDict kwargs) 0.

Definition list_api_keys (self : InfinityAssistantClient N) :=
  _request self "GET" "/api-keys" PyNone PyNone 0.

Definition create_api_key (self : InfinityAssistantClient N) (name : string) :=
  _request self "POST" "/api-keys" PyNone (PyDict [("name", PyStr name)]) 0.

Definition delete_api_key (self : InfinityAssistantClient N) (key_id : string) :=
  _request self "DELETE" "/api-keys" (PyDict [("id", PyStr key_id)]) PyNone 0.

Definition list_webhooks (self : InfinityAssistantClient N) :=
  _request self "GET" "/webhooks" PyNone PyNone 0.

Definition create_webhook (self : InfinityAssistantClient N) (url : string)
    (events : list string) :=
  _request self "POST" "/webhooks" PyNone
    (PyDict [("url", PyStr url); ("events", PyList (map PyStr events))]) 0.

Definition delete_webhook (self : InfinityAssistantClient N) (webhook_id : string) :=
  _request self "DELETE" "/webhooks" (PyDict [("id", PyStr webhook_id)]) PyNone 0.

Definition health (self : InfinityAssistantClient N) :=
  _request self "GET" "/health" PyNone PyNone 0.

End Run.
End Client.

(** ** The non-blocking client (async_client.py)

    Awaiting is sequencing here: one task runs from its call to its result, and
    what it does at each suspension point is in its trace. *)

Module AsyncClient.

Record AsyncInfinityAssistantClient (N : Type) : Type := mk_client {
  api_key : option string;
  base_url : string;
  timeout : Z;          (* aiohttp.ClientTimeout(total=timeout), set on the session *)
  max_retries : Z;
  retry_delay : N
}.
Arguments mk_client {N}.
Arguments api_key {N}.
Arguments base_url {N}.
Arguments timeout {N}.
Arguments max_retries {N}.
Arguments retry_delay {N}.

Definition __init__ {N} (api_key : option string) (base_url : string)
    (timeout max_retries : Z) (retry_delay : N) : AsyncInfinityAssistantClient N :=
  mk_client api_key (rstrip_slash base_url) timeout max_retries retry_delay.

Definition set_api_key {N} (self : AsyncInfinityAssistantClient N) (key : string)
  : AsyncInfinityAssistantClient N :=
  mk_client (Some key) (base_url self) (timeout self) (max_retries self) (retry_delay self).

Definition get_api_key {N} (self : AsyncInfinityAssistantClient N) : option string :=
  api_key self.

Definition _get_headers {N} (self : AsyncInfinityAssistantClient N)
  : list (string * string) :=
  let headers := [("Content-Type", "application/json")] in
  match api_key self with
  | Some key => if nonempty key then headers ++ [("X-API-Key", key)] else headers
  | None => headers
  end.

(** [aiohttp.ClientResponse.ok]: [400 > self.status]. *)
Definition ok (r : Response) : bool := status_code r <? 400.

Section Run.
Context {N : Type} `{PyNumber N} (lib : PyLib).

(** [await asyncio.sleep(seconds)] *)
Definition asyncio_sleep (seconds : N) : M N unit := tell (Sleep seconds).

(** [session.request(...)] and [session.post(...)] *)
Definition session_request (call : http_call) (o : reply) : M N Response :=
  tell (Request call) ;;
  match o with
  | Responds r => ret r
  | Fails e => raise e
  end.

Definition response_json (r : Response) : M N pyval :=
  match json r with
  | JsonValue v => ret v
  | JsonFails e => raise e
  end.

Definition error_body (r : Response) : pyval :=
  match json r with
  | JsonValue v => v
  | JsonFails _ => unknown_error
  end.

Definition raise_api_error {A} (r : Response) : M N A :=
  let error_data := error_body r in
  msg <- py_get error_data "message" PyNone ;;
  msg <- (if truthy msg then ret msg
          else err <- py_get error_data "error" PyNone ;;
               ret (py_or err (PyStr "Request failed"))) ;;
  c <- py_get error_data "code" PyNone ;;
  raise (Sdk (InfinityAssistantError msg c (PyInt (status_code r)) error_data)).

Definition retry_after_delay (self : AsyncInfinityAssistantClient N) (r : Response)
  : M N N :=
  match headers_get "Retry-After" (headers r) with
  | Some retry_after =>
      if nonempty retry_after then
        match int_of_str lib retry_after with
        | Some n => ret (of_int n)
        | None => raise (Lib ValueError "invalid literal for int()")
        end
      else ret (retry_delay self)
  | None => ret (retry_delay self)
  end.

(** The arguments of [session.request(method=, url=, headers=, params=,
    json=)]: [params] is handed to the library. *)
Definition request_call (self : AsyncInfinityAssistantClient N) (method endpoint : string)
    (params data : pyval) : http_call :=
  let url := (base_url self ++ endpoint)%string in
  mk_call method url (_get_headers self) params data None false.

(** The arguments of [session.post(url, headers=, json=kwargs)] after
    [kwargs["stream"] = True]. *)
Definition stream_call (self : AsyncInfinityAssistantClient N)
    (kwargs : list (string * pyval)) : http_call :=
  let url := (base_url self ++ "/chat")%string in
  let kwargs := dict_set "stream" (PyBool true) kwargs in
  mk_call "POST" url (_get_headers self) PyNone (PyDict kwargs) None false.

(** The [except] clauses of [_request], for [asyncio.TimeoutError] and
    [aiohttp.ClientError]; any other exception propagates. *)
Definition except_clauses (self : AsyncInfinityAssistantClient N) (retry_count : Z)
    (again : M N pyval) (e : exn) : M N pyval :=
  match e with
  | Lib TimeoutExc _ =>
      raise (Sdk (InfinityAssistantTimeoutError "Request timeout"))
  | Lib TransportExc text =>
      if retry_count <? max_retries self then
        asyncio_sleep (mul_int (retry_delay self) (retry_count + 1)) ;; again
      else
        raise (Sdk (InfinityAssistantNetworkError ("Network error: " ++ text)))
  | _ => raise e
  end.

(** The body of [_request] for one attempt; [again] is
    [await self._request(method, endpoint, params, data, retry_count + 1)]. *)
Definition attempt (self : AsyncInfinityAssistantClient N) (method endpoint : string)
    (params data : pyval) (retry_count : Z) (o : reply) (again : M N pyval)
  : M N pyval :=
  try_except
    (response <- session_request (request_call self method endpoint params data) o ;;
     if status_code response =? 429 then
       delay <- retry_after_delay self response ;;
       if retry_count <? max_retries self then
         asyncio_sleep delay ;; again
       else
         raise (Sdk (InfinityAssistantRateLimitError
                       "Rate limit exceeded. Please try again later."))
     else if negb (ok response) then
       raise_api_error response
     else
       response_json response)
    (except_clauses self retry_count again).

Fixpoint _request (self : AsyncInfinityAssistantClient N) (method endpoint : string)
    (params data : pyval) (retry_count : Z) (net : list reply) : M N pyval :=
  match net with
  | [] => starved
  | o :: net' =>
      attempt self method endpoint params data retry_count o
        (_request self method endpoint params data (retry_count + 1) net')
  end.

(** One iteration of [async for line in response.content]. *)
Definition on_line (line : string) : M N flow :=
  line_str <- match bytes_decode lib line with
              | Some s => ret s
              | None => raise (Lib UnicodeDecodeError "invalid utf-8")
              end ;;
  if startswith line_str "data: " then
    let data := drop 6 line_str in
    if String.eqb data "[DONE]" then
      tell (Yield chunk_done) ;; ret Break
    else
      try_except
        (parsed <- match json_loads lib data with
                   | Some v => ret v
                   | None => raise (Lib JSONDecodeError "invalid JSON")
                   end ;;
         ty <- py_get parsed "type" PyNone ;;
         if eq_str ty "error" then
           err <- py_get parsed "error" (PyStr "Unknown error") ;;
           tell (Yield (chunk_error err)) ;; ret Break
         else
           content <- py_get parsed "content" PyNone ;;
           (if truthy content then
              c <- py_getitem parsed "content" ;; tell (Yield (chunk_text c))
            else ret tt) ;;
           metadata <- py_get parsed "metadata" PyNone ;;
           (if truthy metadata then
              m <- py_getitem parsed "metadata" ;; tell (Yield (chunk_metadata m))
            else ret tt) ;;
           ret Next)
        (fun e =>
           match e with
           | Lib JSONDecodeError _ => ret Next
           | _ => raise e
           end)
  else ret Next.

Fixpoint for_lines (ls : list string) (finish : option exn) : M N unit :=
  match ls with
  | [] =>
      match finish with
      | None => ret tt
      | Some e => raise e
      end
  | line :: rest =>
      f <- on_line line ;;
      match f with
      | Next => for_lines rest finish
      | Break => ret tt
      end
  end.

(** The [except] clauses of [chat_stream]. *)
Definition stream_except_clauses (e : exn) : M N unit :=
  match e with
  | Lib TimeoutExc _ =>
      raise (Sdk (InfinityAssistantTimeoutError "Request timeout"))
  | Lib TransportExc text =>
      raise (Sdk (InfinityAssistantNetworkError ("Network error: " ++ text)))
  | _ => raise e
  end.

Definition chat_stream (self : AsyncInfinityAssistantClient N)
    (kwargs : list (string * pyval)) (o : reply) : M N unit :=
  try_except
    (response <- session_request (stream_call self kwargs) o ;;
     if negb (ok response) then
       raise_api_error response
     else
       for_lines (lines response) (lines_end response) ;;
       tell (Yield chunk_done))
    stream_except_clauses.

(** The operations: each is one call of [_request] with [retry_count = 0]. *)
Definition chat (self : AsyncInfinityAssistantClient N) (kwargs : list (string * pyval)) :=
  _request self "POST" "/chat" PyNone (PyDict kwargs) 0.

Definition search_knowledge (self : AsyncInfinityAssistantClient N)
    (kwargs : list (string * pyval)) :=
  _request self "POST" "/knowledge/search" PyNone (PyDict kwargs) 0.

Definition store_memory (self : AsyncInfinityAssistantClient N) (key : string)
    (value ttl : pyval) :=
  _request self "POST" "/memory/store" PyNone
    (PyDict [("key", PyStr key); ("value", value); ("ttl", ttl)]) 0.

Definition retrieve_memory (self : AsyncInfinityAssistantClient N) (key : string) :=
  _request self "GET" "/memory/retrieve" (PyDict [("key", PyStr key)]) PyNone 0.

Definition research (self : AsyncInfinityAssistantClient N) (kwargs : list (string * pyval)) :=
  _request self "POST" "/research" PyNone (PyDict kwargs) 0.

Definition list_api_keys (self : AsyncInfinityAssistantClient N) :=
  _request self "GET" "/api-keys" PyNone PyNone 0.

Definition create_api_key (self : AsyncInfinityAssistantClient N) (name : string) :=
  _request self "POST" "/api-keys" PyNone (PyDict [("name", PyStr name)]) 0.

Definition delete_api_key (self : AsyncInfinityAssistantClient N) (key_id : string) :=
  _request self "DELETE" "/api-keys" (PyDict [("id", PyStr key_id)]) PyNone 0.

Definition list_webhooks (self : AsyncInfinityAssistantClient N) :=
  _request self "GET" "/webhooks" PyNone PyNone 0.

Definition create_webhook (self : AsyncInfinityAssistantClient N) (url : string)
    (events : list string) :=
  _request self "POST" "/webhooks" PyNone
    (PyDict [("url", PyStr url); ("events", PyList (map PyStr events))]) 0.

Definition delete_webhook (self : AsyncInfinityAssistantClient N) (webhook_id : string) :=
  _request self "DELETE" "/webhooks" (PyDict [("id", PyStr webhook_id)]) PyNone 0.

Definition health (self : AsyncInfinityAssistantClient N) :=
  _request self "GET" "/health" PyNone PyNone 0.

End Run.

(** *** The session

    [self._session] is [None] or refers to an [aiohttp.ClientSession].  The
    sessions the client has created are a store, in the order of their
    creation; a session is open from its creation until its [close()]. *)

Record ClientSession : Type := mk_session {
  session_timeout : Z;      (* ClientTimeout(total=...) *)
  closed : bool
}.

Record session_state : Type := mk_state {
  store : list ClientSession;   (* every session created so far *)
  _session : option nat         (* [self._session]: a position in [store] *)
}.

(** [self._session = None], as [__init__] leaves it. *)
Definition no_session : session_state := mk_state [] None.

(** [self._session.closed] *)
Definition session_closed (st : session_state) (s : nat) : bool :=
  match nth_error (store st) s with
  | Some session => closed session
  | None => true
  end.

(** [self._session = aiohttp.ClientSession(timeout=self.timeout)] *)
Definition new_session {N} (self : AsyncInfinityAssistantClient N) (st : session_state)
  : nat * session_state :=
  let s := List.length (store st) in
  (s, mk_state (store st ++ [mk_session (timeout self) false]) (Some s)).

Definition _get_session {N} (self : AsyncInfinityAssistantClient N) (st : session_state)
  : nat * session_state :=
  match _session st with
  | None => new_session self st
  | Some s => if session_closed st s then new_session self st else (s, st)
  end.

(** [await session.close()] on the session at position [s]. *)
Fixpoint close_at (s : nat) (sessions : list ClientSession) : list ClientSession :=
  match sessions, s with
  | [], _ => []
  | session :: rest, O => mk_session (session_timeout session) true :: rest
  | session :: rest, S s' => session :: close_at s' rest
  end.

Definition close (st : session_state) : session_state :=
  match _session st with
  | Some s =>
      if negb (session_closed st s) then mk_state (close_at s (store st)) (Some s) else st
  | None => st
  end.

(** [async with client: ...]: [__aenter__] returns [self]; [__aexit__] closes,
    whatever exception, if any, left the block. *)
Definition __aenter__ (st : session_state) : session_state := st.

Definition __aexit__ (exc : option exn) (st : session_state) : session_state := close st.

(** What using the client does to its session: every attempt of [_request]
    and every [chat_stream] starts with [await self._get_session()], and
    [close()] closes. *)
Inductive session_use : Type :=
| Attempt
| Closing.

Fixpoint session_run {N} (self : AsyncInfinityAssistantClient N) (uses : list session_use)
    (st : session_state) : session_state :=
  match uses with
  | [] => st
  | Attempt :: rest => session_run self rest (snd (_get_session self st))
  | Closing :: rest => session_run self rest (close st)
  end.

(** The positions of the sessions of the store that are open. *)
Fixpoint open_from (s : nat) (sessions : list ClientSession) : list nat :=
  match sessions with
  | [] => []
  | session :: rest =>
      if closed session then open_from (S s) rest else s :: open_from (S s) rest
  end.

Definition open_sessions (st : session_state) : list nat := open_from 0 (store st).

End AsyncClient.

(** ** A reference runtime

    Executable stand-ins for the library functions of [PyLib], used to run the
    clients on concrete inputs.  [json_loads] covers JSON without fractions,
    exponents, [\u] escapes and the non-standard [NaN]/[Infinity] literals;
    [int_of_str] covers [int()] on ASCII text; [bytes_decode] checks UTF-8
    well-formedness and keeps the text in that encoding. *)

Module Ref.

Definition dquote : ascii := ascii_of_nat 34.
Definition backslash : ascii := ascii_of_nat 92.

Definition byte (c : ascii) : Z := Z.of_nat (nat_of_ascii c).
Definition between (lo hi : Z) (c : ascii) : bool := (lo <=? byte c) && (byte c <=? hi).

(** *** bytes.decode("utf-8") *)

Definition cont (c : ascii) : bool := between 128 191 c.

Fixpoint utf8_valid (s : string) : bool :=
  match s with
  | EmptyString => true
  | String b0 rest =>
      if byte b0 <? 128 then utf8_valid rest
      else
        match rest with
        | EmptyString => false
        | String b1 rest1 =>
            if between 194 223 b0 then cont b1 && utf8_valid rest1
            else
              match rest1 with
              | EmptyString => false
              | String b2 rest2 =>
                  if between 224 239 b0 then
                    (if byte b0 =? 224 then between 160 191 b1
                     else if byte b0 =? 237 then between 128 159 b1
                     else cont b1)
                    && cont b2 && utf8_valid rest2
                  else
                    match rest2 with
                    | EmptyString => false
                    | String b3 rest3 =>
                        between 240 244 b0
                        && (if byte b0 =? 240 then between 144 191 b1
                            else if byte b0 =? 244 then between 128 143 b1
                            else cont b1)
                        && cont b2 && cont b3 && utf8_valid rest3
                    end
              end
        end
  end.

Definition bytes_decode (line : string) : option string :=
  if utf8_valid line then Some line else None.

(** *** int() *)

Definition is_space (c : ascii) : bool :=
  between 9 13 c || (byte c =? 32).

Fixpoint lstrip (s : string) : string :=
  match s with
  | String c rest => if is_space c then lstrip rest else s
  | EmptyString => s
  end.

Fixpoint rstrip (s : string) : string :=
  match s with
  | EmptyString => EmptyString
  | String c rest =>
      match rstrip rest with
      | EmptyString => if is_space c then EmptyString else String c EmptyString
      | kept => String c kept
      end
  end.

Definition digit (c : ascii) : option Z :=
  if between 48 57 c then Some (byte c - 48) else None.

(** Decimal digits, single underscores allowed between two digits. *)
Fixpoint int_digits (s : string) (acc : Z) : option Z :=
  match s with
  | EmptyString => Some acc
  | String c rest =>
      match digit c with
      | Some d => int_digits rest (10 * acc + d)
      | None =>
          if Ascii.eqb c "_" then
            match rest with
            | String c' _ =>
                match digit c' with
                | Some _ => int_digits rest acc
                | None => None
                end
            | EmptyString => None
            end
          else None
      end
  end.

Definition int_unsigned (s : string) : option Z :=
  match s with
  | String c _ =>
      match digit c with
      | Some _ => int_digits s 0
      | None => None
      end
  | EmptyString => None
  end.

Definition int_of_str (s : string) : option Z :=
  match rstrip (lstrip s) with
  | String "-" rest => option_map Z.opp (int_unsigned rest)
  | String "+" rest => int_unsigned rest
  | body => int_unsigned body
  end.

(** *** json.loads *)

Definition json_space (c : ascii) : bool :=
  (byte c =? 32) || (byte c =? 9) || (byte c =? 10) || (byte c =? 13).

Fixpoint skip_ws (s : string) : string :=
  match s with
  | String c rest => if json_space c then skip_ws rest else s
  | EmptyString => s
  end.

(** The characters after an opening quote, up to the closing one. *)
Fixpoint parse_string (s : string) : option (string * string) :=
  match s with
  | EmptyString => None
  | String c rest =>
      if Ascii.eqb c dquote then Some (EmptyString, rest)
      else if Ascii.eqb c backslash then
        match rest with
        | String e rest' =>
            let unescaped :=
              if Ascii.eqb e dquote then Some dquote
              else if Ascii.eqb e backslash then Some backslash
              else if Ascii.eqb e "/" then Some "/"%char
              else if Ascii.eqb e "b" then Some (ascii_of_nat 8)
              else if Ascii.eqb e "f" then Some (ascii_of_nat 12)
              else if Ascii.eqb e "n" then Some (ascii_of_nat 10)
              else if Ascii.eqb e "r" then Some (ascii_of_nat 13)
              else if Ascii.eqb e "t" then Some (ascii_of_nat 9)
              else None in
            match unescaped, parse_string rest' with
            | Some u, Some (str, after) => Some (String u str, after)
            | _, _ => None
            end
        | EmptyString => None
        end
      else if byte c <? 32 then None
      else
        match parse_string rest with
        | Some (str, after) => Some (String c str, after)
        | None => None
        end
  end.

Fixpoint json_digits (s : string) (acc : Z) : Z * string :=
  match s with
  | String c rest =>
      match digit c with
      | Some d => json_digits rest (10 * acc + d)
      | None => (acc, s)
      end
  | EmptyString => (acc, s)
  end.

Definition starts_fraction (s : string) : bool :=
  match s with
  | String c _ => Ascii.eqb c "." || Ascii.eqb c "e" || Ascii.eqb c "E"
  | EmptyString => false
  end.

Definition parse_unsigned (s : string) : option (Z * string) :=
  match s with
  | String c rest =>
      match digit c with
      | Some d =>
          let (n, after) := if d =? 0 then (0, rest) else json_digits s 0 in
          if starts_fraction after then None else Some (n, after)
      | None => None
      end
  | EmptyString => None
  end.

Definition parse_number (s : string) : option (pyval * string) :=
  match s with
  | String "-" rest =>
      match parse_unsigned rest with
      | Some (n, after) => Some (PyInt (- n), after)
      | None => None
      end
  | _ =>
      match parse_unsigned s with
      | Some (n, after) => Some (PyInt n, after)
      | None => None
      end
  end.

Definition parse_atom (s : string) : option (pyval * string) :=
  if startswith s "null" then Some (PyNone, drop 4 s)
  else if startswith s "true" then Some (PyBool true, drop 4 s)
  else if startswith s "false" then Some (PyBool false, drop 5 s)
  else parse_number s.

Fixpoint parse_value (fuel : nat) (s : string) {struct fuel} : option (pyval * string) :=
  match fuel with
  | O => None
  | S f =>
      match s with
      | EmptyString => None
      | String c rest =>
          if Ascii.eqb c "{" then
            match skip_ws rest with
            | String "}" after => Some (PyDict [], after)
            | members => parse_members f members []
            end
          else if Ascii.eqb c "[" then
            match skip_ws rest with
            | String "]" after => Some (PyList [], after)
            | elements => parse_elements f elements []
            end
          else if Ascii.eqb c dquote then
            match parse_string rest with
            | Some (str, after) => Some (PyStr str, after)
            | None => None
            end
          else parse_atom s
      end
  end
with parse_elements (fuel : nat) (s : string) (acc : list pyval) {struct fuel}
  : option (pyval * string) :=
  match fuel with
  | O => None
  | S f =>
      match parse_value f s with
      | Some (v, after) =>
          match skip_ws after with
          | String "," more => parse_elements f (skip_ws more) (acc ++ [v])
          | String "]" more => Some (PyList (acc ++ [v]), more)
          | _ => None
          end
      | None => None
      end
  end
with parse_members (fuel : nat) (s : string) (acc : list (string * pyval)) {struct fuel}
  : option (pyval * string) :=
  match fuel with
  | O => None
  | S f =>
      match s with
      | String c rest =>
          if Ascii.eqb c dquote then
            match parse_string rest with
            | Some (key, after) =>
                match skip_ws after with
                | String ":" more =>
                    match parse_value f (skip_ws more) with
                    | Some (v, after') =>
                        match skip_ws after' with
                        | String "," more' =>
                            parse_members f (skip_ws more') (dict_set key v acc)
                        | String "}" more' => Some (PyDict (dict_set key v acc), more')
                        | _ => None
                        end
                    | None => None
                    end
                | _ => None
                end
            | None => None
            end
          else None
      | EmptyString => None
      end
  end.

Definition json_loads (s : string) : option pyval :=
  match parse_value (2 * String.length s + 2) (skip_ws s) with
  | Some (v, after) =>
      match skip_ws after with
      | EmptyString => Some v
      | _ => None
      end
  | None => None
  end.

(** *** urllib.parse.urlencode, for string and integer values *)

Definition hex_digit (n : Z) : ascii :=
  ascii_of_nat (Z.to_nat (if n <? 10 then 48 + n else 55 + n)).

Definition unreserved (c : ascii) : bool :=
  between 48 57 c || between 65 90 c || between 97 122 c
  || Ascii.eqb c "_" || Ascii.eqb c "." || Ascii.eqb c "-" || Ascii.eqb c "~".

Fixpoint quote_plus (s : string) : string :=
  match s with
  | EmptyString => EmptyString
  | String c rest =>
      if unreserved c then String c (quote_plus rest)
      else if byte c =? 32 then String "+" (quote_plus rest)
      else String "%" (String (hex_digit (byte c / 16))
                         (String (hex_digit (byte c mod 16)) (quote_plus rest)))
  end.

Fixpoint decimal (fuel : nat) (n : Z) (acc : string) : string :=
  match fuel with
  | O => acc
  | S f =>
      let acc' := String (hex_digit (n mod 10)) acc in
      if n <? 10 then acc' else decimal f (n / 10) acc'
  end.

Definition str_of (v : pyval) : string :=
  match v with
  | PyStr s => s
  | PyInt n =>
      if n <? 0 then String "-" (decimal (S (Z.to_nat (Z.log2 (- n)))) (- n) EmptyString)
      else decimal (S (Z.to_nat (Z.log2 n))) n EmptyString
  | _ => EmptyString
  end.

Fixpoint urlencode_items (items : list (string * pyval)) : string :=
  match items with
  | [] => EmptyString
  | [(k, v)] => (quote_plus k ++ "=" ++ quote_plus (str_of v))%string
  | (k, v) :: rest =>
      (quote_plus k ++ "=" ++ quote_plus (str_of v) ++ "&" ++ urlencode_items rest)%string
  end.

Definition urlencode (params : pyval) : string :=
  match params with
  | PyDict items => urlencode_items items
  | _ => EmptyString
  end.

Definition lib : PyLib := mk_lib json_loads int_of_str bytes_decode urlencode.

(** Text with double quotes in it. *)
Definition q (s : string) : string := (String dquote s ++ String dquote EmptyString)%string.

End Ref.

(** ** Vocabulary of the statements *)

(** A key of a dict, [None] when absent: [d.get(key)]. *)
Definition field (d : list (string * pyval)) (key : string) : pyval :=
  match lookup key d with
  | Some v => v
  | None => PyNone
  end.

(** The error raised for an error response whose body is the dict [d]. *)
Definition api_error (status : Z) (d : list (string * pyval)) : sdk_error :=
  InfinityAssistantError
    (py_or (field d "message") (py_or (field d "error") (PyStr "Request failed")))
    (field d "code") (PyInt status) (PyDict d).

(** The body of an error response is a JSON object [d], or it is not JSON and
    [d] is the substitute [{"error": "Unknown error"}]. *)
Definition error_object (r : Response) (d : list (string * pyval)) : Prop :=
  json r = JsonValue (PyDict d)
  \/ (exists e, json r = JsonFails e) /\ d = [("error", PyStr "Unknown error")].

(** [m] with the events [t] in front of its trace. *)
Definition after {N A} (t : list (event N)) (m : M N A) : M N A :=
  (t ++ trace_of m, outcome_of m).

(** A response that only carries a status, headers and a JSON body. *)
Definition json_response (status : Z) (hs : list (string * string)) (body : pyval)
  : Response :=
  mk_response status hs (JsonValue body) [] None.

(** A successful streaming response whose body iterates as [ls]. *)
Definition stream_response (ls : list string) : Response :=
  mk_response 200 [] (JsonFails (Lib JSONDecodeError "not a JSON body")) ls None.

(** The chunks a run yielded, in order. *)
Definition chunks {N A} (m : M N A) : list pyval := yields (trace_of m).

(** An exception class the [except] clauses of the executor catch. *)
Definition caught (c : exn_class) : bool :=
  match c with
  | TimeoutExc | TransportExc => true
  | _ => false
  end.

(** [m] raises nothing that the [except] clauses would catch. *)
Definition settled {N A} (m : M N A) : Prop :=
  forall c text, outcome_of m = Raise (Lib c text) -> caught c = false.


(** The error raised when a 429 finds the retries used up. *)
Definition rate_limit_error : exn :=
  Sdk (mk_error RateLimitError (PyStr "Rate limit exceeded. Please try again later.")
         (PyStr "RATE_LIMIT") (PyInt 429) PyNone).

(** [m] ends by returning or raising: the network script was long enough. *)
Definition answers {N A} (m : M N A) : Prop := outcome_of m <> Starved.

(** *** Lines of a stream *)


(** A line [data: <payload>] whose payload is not the sentinel and decodes, as
    JSON, to [v]. *)
Definition payload (lib : PyLib) (line : string) (v : pyval) : Prop :=
  line <> EmptyString
  /\ exists s,
      bytes_decode lib line = Some s
      /\ startswith s "data: " = true
      /\ drop 6 s <> "[DONE]"
      /\ json_loads lib (drop 6 s) = Some v.

(** A line [data: [DONE]]. *)
Definition sentinel (lib : PyLib) (line : string) : Prop :=
  line <> EmptyString
  /\ exists s,
      bytes_decode lib line = Some s
      /\ startswith s "data: " = true
      /\ drop 6 s = "[DONE]".

(** The chunks of a decoded object that is not an error: its content, then
    its metadata, each when truthy. *)
Definition data_chunks (d : list (string * pyval)) : list pyval :=
  (if truthy (field d "content") then [chunk_text (field d "content")] else [])
  ++ (if truthy (field d "metadata") then [chunk_metadata (field d "metadata")] else []).

(** The error a decoded object reports: its [error] key, with a default when
    the key is absent. *)
Definition reported_error (d : list (string * pyval)) : pyval :=
  match lookup "error" d with
  | Some e => e
  | None => PyStr "Unknown error"
  end.



(** The loop gets through these lines: each one ends with the next
    iteration. *)
Definition passes {N} (on_line : string -> M N flow) (ls : list string) : Prop :=
  Forall (fun line => outcome_of (on_line line) = Return Next) ls.

(** What the loop does on lines it gets through. *)
Definition trace_lines {N} (on_line : string -> M N flow) (ls : list string)
  : list (event N) :=
  flat_map (fun line => trace_of (on_line line)) ls.

(** *** Sample lines and responses *)

Definition newline : string := String (ascii_of_nat 10) EmptyString.

(** [data: {"content":"Hi"}] and [data: {"content":" there"}] *)
Definition hi_line : string :=
  "data: {" ++ Ref.q "content" ++ ":" ++ Ref.q "Hi" ++ "}".
Definition there_line : string :=
  "data: {" ++ Ref.q "content" ++ ":" ++ Ref.q " there" ++ "}".

(** [data: [DONE]] *)
Definition done_line : string := "data: [DONE]".

(** [data: {"type":"error","error":"boom"}] *)
Definition error_line : string :=
  "data: {" ++ Ref.q "type" ++ ":" ++ Ref.q "error" ++ ","
  ++ Ref.q "error" ++ ":" ++ Ref.q "boom" ++ "}".

Definition number_line : string := "data: 5".


(** A streamed body as the server sends it: every event is one line and an
    empty line, each ended by LF. *)
Definition sse_body : string :=
  hi_line ++ newline ++ newline
  ++ there_line ++ newline ++ newline
  ++ done_line ++ newline ++ newline.

(** A successful streaming response whose body is [body], as each client's
    library iterates it. *)
Definition sync_stream (body : string) : Response := stream_response (iter_lines body).
Definition async_stream (body : string) : Response := stream_response (content_lines body).


(** A 429 that asks for seven seconds, and one without [Retry-After]. *)
Definition rate_limited_seven : Response :=
  json_response 429 [("retry-after", "7")] (PyDict [("error", PyStr "Too many requests")]).
Definition rate_limited : Response :=
  json_response 429 [] (PyDict [("error", PyStr "Too many requests")]).

(** A 300 with a JSON body. *)
Definition multiple_choices : Response :=
  json_response 300 [] (PyDict [("message", PyStr "pick one")]).

(** A 404 with a JSON body. *)
Definition not_found : Response :=
  json_response 404 [] (PyDict [("error", PyStr "no such route"); ("code", PyStr "E404")]).

Definition health_ok : Response :=
  json_response 200 [] (PyDict [("status", PyStr "ok")]).

(** The blocking client with its default configuration
    ([retry_delay = 1.0]). *)
Definition default_client : Client.InfinityAssistantClient float :=
  Client.__init__ None "https://infinityassistant.io/api" 60 3 1%float.

(** The clients with their default configuration (the delay as an [int]) and
    a key. *)
Definition sample_client : Client.InfinityAssistantClient Z :=
  Client.__init__ (Some "ia_key") "https://infinityassistant.io/api" 60 3 1.

Definition sample_async_client : AsyncClient.AsyncInfinityAssistantClient Z :=
  AsyncClient.__init__ (Some "ia_key") "https://infinityassistant.io/api" 60 3 1.

(** *** Runs of the executor *)

(** An outcome that lets an exception of the transport through. *)
Definition leaks {A} (o : outcome A) : bool :=
  match o with
  | Raise (Lib c _) => caught c
  | _ => false
  end.

(** A trace with [call] in the place of every call. *)
Definition with_call {N} (call : http_call) (t : list (event N)) : list (event N) :=
  map (fun ev => match ev with Request _ => Request call | _ => ev end) t.


(** What one attempt of the executor comes to: it ends the run after its
    call, or, with retries left, it sleeps and hands over to the next
    attempt. *)
Inductive step_result {N} (call : http_call) (retries_left : Prop) (again : M N pyval)
  : M N pyval -> Prop :=
| step_final (out : outcome pyval) :
    out <> Starved -> step_result call retries_left again ([Request call], out)
| step_retry (delay : N) :
    retries_left ->
    step_result call retries_left again (after [Request call; Sleep delay] again).

(** *** Chunks of a stream *)

(** A text or metadata chunk as the decoder builds it: what it carries is
    truthy. *)
Definition data_chunk (c : pyval) : Prop :=
  exists x, truthy x = true /\ (c = chunk_text x \/ c = chunk_metadata x).

(** The chunk of a line that ends the loop. *)
Definition closing_chunk (c : pyval) : Prop :=
  c = chunk_done \/ exists e, c = chunk_error e.

(** What one line does to the loop. *)
Inductive line_result {N} : M N flow -> Prop :=
| line_data (cs : list pyval) :
    Forall data_chunk cs -> (List.length cs <= 2)%nat ->
    line_result (map Yield cs, Return Next)
| line_closes (c : pyval) :
    closing_chunk c -> line_result ([Yield c], Return Break)
| line_raises (e : exn) :
    line_result ([], Raise e).

(** What the loop over the lines does. *)
Inductive loop_result {N} : M N unit -> Prop :=
| loop_exhausted (cs : list pyval) :
    Forall data_chunk cs -> loop_result (map Yield cs, Return tt)
| loop_closed (cs : list pyval) (c : pyval) :
    Forall data_chunk cs -> closing_chunk c ->
    loop_result (map Yield (cs ++ [c]), Return tt)
| loop_raised (cs : list pyval) (e : exn) :
    Forall data_chunk cs -> loop_result (map Yield cs, Raise e).

(** The chunk sequences of a stream: text and metadata chunks, then at most
    one chunk that closed the loop, then [done]; text and metadata chunks only
    when the generator raises. *)
Inductive stream_grammar : outcome unit -> list pyval -> Prop :=
| grammar_exhausted (cs : list pyval) :
    Forall data_chunk cs -> stream_grammar (Return tt) (cs ++ [chunk_done])
| grammar_closed (cs : list pyval) (c : pyval) :
    Forall data_chunk cs -> closing_chunk c ->
    stream_grammar (Return tt) (cs ++ [c; chunk_done])
| grammar_raised (cs : list pyval) (e : exn) :
    Forall data_chunk cs -> stream_grammar (Raise e) cs.

(** A run of the generator seen from outside: its call, then its chunks. *)
Definition stream_shape {N} (call : http_call) (run : M N unit) : Prop :=
  trace_of run = Request call :: map Yield (chunks run)
  /\ stream_grammar (outcome_of run) (chunks run).

(** A line that ends the loop: the sentinel, or a payload that decodes to an
    object of type ["error"]. *)
Definition closing (lib : PyLib) (line : string) : Prop :=
  sentinel lib line
  \/ exists d, payload lib line (PyDict d) /\ eq_str (field d "type") "error" = true.

(** *** Sessions *)

(** The store of a client whose sessions were all made by [_get_session]:
    sessions that have been closed, then the one the client holds, each with
    the client's timeout. *)
Definition tidy {N} (self : AsyncClient.AsyncInfinityAssistantClient N)
    (st : AsyncClient.session_state) : Prop :=
  Forall (fun session => AsyncClient.session_timeout session = AsyncClient.timeout self)
    (AsyncClient.store st)
  /\ ((AsyncClient.store st = [] /\ AsyncClient._session st = None)
      \/ exists before held,
          AsyncClient.store st = before ++ [held]
          /\ Forall (fun session => AsyncClient.closed session = true) before
          /\ AsyncClient._session st = Some (List.length before)).


(** *** Text *)

(** [k] slashes. *)
Fixpoint slashes (k : nat) : string :=
  match k with
  | O => EmptyString
  | S k' => String "/" (slashes k')
  end.

(** [s.endswith("/")] *)
Fixpoint ends_with_slash (s : string) : bool :=
  match s with
  | EmptyString => false
  | String c EmptyString => Ascii.eqb c "/"
  | String _ rest => ends_with_slash rest
  end.

Definition is_str (v : pyval) : bool :=
  match v with
  | PyStr _ => true
  | _ => false
  end.

(** [data: {"content":"Hi","metadata":{"tokens":3},"id":7}] *)
Definition full_line : string :=
  "data: {" ++ Ref.q "content" ++ ":" ++ Ref.q "Hi" ++ ","
  ++ Ref.q "metadata" ++ ":{" ++ Ref.q "tokens" ++ ":3},"
  ++ Ref.q "id" ++ ":7}".



(** A 422 whose body is a JSON list of messages. *)
Definition validation_errors : Response :=
  json_response 422 [] (PyList [PyStr "name is required"]).

(** A 400 whose [error] is an object, as many APIs send it. *)
Definition nested_error : Response :=
  json_response 400 []
    (PyDict [("error", PyDict [("message", PyStr "Invalid key"); ("type", PyStr "auth")])]).

(** ** The monad *)

Lemma bind_ret {N A B} (a : A) (k : A -> M N B) : bind (ret a) k = k a.
Proof. unfold bind, ret. destruct (k a) as [t o]. reflexivity. Qed.

Lemma bind_raise {N A B} (e : exn) (k : A -> M N B) : bind (raise e) k = raise e.
Proof. reflexivity. Qed.

Lemma bind_tell {N B} (ev : event N) (k : unit -> M N B) :
  bind (tell ev) k = after [ev] (k tt).
Proof. unfold bind, tell, after. destruct (k tt) as [t o]. reflexivity. Qed.

Lemma after_nil {N A} (m : M N A) : after [] m = m.
Proof. destruct m. reflexivity. Qed.

Lemma after_after {N A} (t1 t2 : list (event N)) (m : M N A) :
  after t1 (after t2 m) = after (t1 ++ t2) m.
Proof. unfold after. cbn. rewrite app_assoc. reflexivity. Qed.

Lemma bind_after {N A B} (t : list (event N)) (m : M N A) (k : A -> M N B) :
  bind (after t m) k = after t (bind m k).
Proof.
  destruct m as [t' [a | e | ]]; unfold after, bind; cbn.
  - destruct (k a) as [t'' o]. cbn. rewrite app_assoc. reflexivity.
  - reflexivity.
  - reflexivity.
Qed.

Lemma try_after {N A} (t : list (event N)) (m : M N A) (h : exn -> M N A) :
  try_except (after t m) h = after t (try_except m h).
Proof.
  destruct m as [t' [a | e | ]]; unfold after, try_except; cbn; try reflexivity.
  destruct (h e) as [t'' o]. cbn. rewrite app_assoc. reflexivity.
Qed.

Lemma try_ret {N A} (a : A) (h : exn -> M N A) : try_except (ret a) h = ret a.
Proof. reflexivity. Qed.

Lemma try_raise {N A} (e : exn) (h : exn -> M N A) : try_except (raise e) h = h e.
Proof. unfold try_except, raise. destruct (h e). reflexivity. Qed.

Lemma yields_app {N} (t1 t2 : list (event N)) : yields (t1 ++ t2) = yields t1 ++ yields t2.
Proof.
  induction t1 as [| ev t1 IH]; [reflexivity |].
  destruct ev; cbn; rewrite IH; reflexivity.
Qed.

Lemma sleeps_app {N} (t1 t2 : list (event N)) : sleeps (t1 ++ t2) = sleeps t1 ++ sleeps t2.
Proof.
  induction t1 as [| ev t1 IH]; [reflexivity |].
  destruct ev; cbn; rewrite IH; reflexivity.
Qed.

(** ** The error raised for an error response *)

Lemma field_get {N} (d : list (string * pyval)) (key : string) :
  @py_get N (PyDict d) key PyNone = ret (field d key).
Proof. reflexivity. Qed.

Lemma error_object_body_sync (r : Response) d :
  error_object r d -> Client.error_body r = PyDict d.
Proof.
  unfold Client.error_body. intros [Hj | [[e Hj] ->]]; rewrite Hj; reflexivity.
Qed.

Lemma error_object_body_async (r : Response) d :
  error_object r d -> AsyncClient.error_body r = PyDict d.
Proof.
  unfold AsyncClient.error_body. intros [Hj | [[e Hj] ->]]; rewrite Hj; reflexivity.
Qed.

Lemma raise_api_error_sync {N A} (r : Response) d :
  error_object r d ->
  @Client.raise_api_error N A r = raise (Sdk (api_error (status_code r) d)).
Proof.
  intros Hd. unfold Client.raise_api_error.
  rewrite (error_object_body_sync r d Hd), !field_get, bind_ret.
  unfold api_error, py_or.
  destruct (truthy (field d "message")); rewrite ?bind_ret, ?field_get, ?bind_ret;
    reflexivity.
Qed.

Lemma raise_api_error_async {N A} (r : Response) d :
  error_object r d ->
  @AsyncClient.raise_api_error N A r = raise (Sdk (api_error (status_code r) d)).
Proof.
  intros Hd. unfold AsyncClient.raise_api_error.
  rewrite (error_object_body_async r d Hd), !field_get, bind_ret.
  unfold api_error, py_or.
  destruct (truthy (field d "message")); rewrite ?bind_ret, ?field_get, ?bind_ret;
    reflexivity.
Qed.

(** ** One attempt of the request executor *)

Section Attempts.
Context {N : Type} `{PyNumber N} (lib : PyLib).

Lemma session_request_responds_sync (call : http_call) (r : Response) :
  Client.session_request (N := N) call (Responds r) = after [Request call] (ret r).
Proof. reflexivity. Qed.

Lemma session_request_fails_sync (call : http_call) (e : exn) :
  Client.session_request (N := N) call (Fails e) = after [Request call] (raise e).
Proof. reflexivity. Qed.

Lemma session_request_responds_async (call : http_call) (r : Response) :
  AsyncClient.session_request (N := N) call (Responds r) = after [Request call] (ret r).
Proof. reflexivity. Qed.

Lemma session_request_fails_async (call : http_call) (e : exn) :
  AsyncClient.session_request (N := N) call (Fails e) = after [Request call] (raise e).
Proof. reflexivity. Qed.

Lemma attempt_error_sync (self : Client.InfinityAssistantClient N) method endpoint
    params data retry_count (r : Response) again d :
  status_code r <> 429 -> Client.ok r = false -> error_object r d ->
  Client.attempt lib self method endpoint params data retry_count (Responds r) again
  = after [Request (Client.request_call lib self method endpoint params data)]
      (raise (Sdk (api_error (status_code r) d))).
Proof.
  intros Hs Hok Hd. unfold Client.attempt.
  rewrite session_request_responds_sync, bind_after, bind_ret.
  apply Z.eqb_neq in Hs. rewrite Hs, Hok. cbn [negb].
  rewrite (raise_api_error_sync r d Hd), try_after, try_raise. reflexivity.
Qed.

Lemma attempt_error_async (self : AsyncClient.AsyncInfinityAssistantClient N) method
    endpoint params data retry_count (r : Response) again d :
  status_code r <> 429 -> AsyncClient.ok r = false -> error_object r d ->
  AsyncClient.attempt lib self method endpoint params data retry_count (Responds r) again
  = after [Request (AsyncClient.request_call self method endpoint params data)]
      (raise (Sdk (api_error (status_code r) d))).
Proof.
  intros Hs Hok Hd. unfold AsyncClient.attempt.
  rewrite session_request_responds_async, bind_after, bind_ret.
  apply Z.eqb_neq in Hs. rewrite Hs, Hok. cbn [negb].
  rewrite (raise_api_error_async r d Hd), try_after, try_raise. reflexivity.
Qed.

Lemma attempt_success_sync (self : Client.InfinityAssistantClient N) method endpoint
    params data retry_count (r : Response) again v :
  status_code r <> 429 -> Client.ok r = true -> json r = JsonValue v ->
  Client.attempt lib self method endpoint params data retry_count (Responds r) again
  = after [Request (Client.request_call lib self method endpoint params data)] (ret v).
Proof.
  intros Hs Hok Hj. unfold Client.attempt.
  rewrite session_request_responds_sync, bind_after, bind_ret.
  apply Z.eqb_neq in Hs. rewrite Hs, Hok. cbn [negb].
  unfold Client.response_json. rewrite Hj, try_after, try_ret. reflexivity.
Qed.

Lemma attempt_success_async (self : AsyncClient.AsyncInfinityAssistantClient N) method
    endpoint params data retry_count (r : Response) again v :
  status_code r <> 429 -> AsyncClient.ok r = true -> json r = JsonValue v ->
  AsyncClient.attempt lib self method endpoint params data retry_count (Responds r) again
  = after [Request (AsyncClient.request_call self method endpoint params data)] (ret v).
Proof.
  intros Hs Hok Hj. unfold AsyncClient.attempt.
  rewrite session_request_responds_async, bind_after, bind_ret.
  apply Z.eqb_neq in Hs. rewrite Hs, Hok. cbn [negb].
  unfold AsyncClient.response_json. rewrite Hj, try_after, try_ret. reflexivity.
Qed.


Lemma settled_after {A} (t : list (event N)) (m : M N A) : settled m -> settled (after t m).
Proof. intros Hm c text. cbn. apply Hm. Qed.

Lemma try_settled {A} (m : M N A) (h : exn -> M N A) :
  settled m ->
  (forall e, (forall c text, e = Lib c text -> caught c = false) -> h e = raise e) ->
  try_except m h = m.
Proof.
  intros Hm Hh. destruct m as [t [a | e | ]]; try reflexivity.
  unfold try_except. rewrite Hh.
  - cbn. rewrite app_nil_r. reflexivity.
  - intros c text ->. apply (Hm c text). reflexivity.
Qed.

Lemma except_clauses_pass_sync (self : Client.InfinityAssistantClient N) retry_count again e :
  (forall c text, e = Lib c text -> caught c = false) ->
  Client.except_clauses self retry_count again e = raise e.
Proof.
  intros He. destruct e as [s | c text]; [reflexivity |].
  specialize (He c text eq_refl). destruct c; try discriminate; reflexivity.
Qed.

Lemma except_clauses_pass_async (self : AsyncClient.AsyncInfinityAssistantClient N)
    retry_count again e :
  (forall c text, e = Lib c text -> caught c = false) ->
  AsyncClient.except_clauses self retry_count again e = raise e.
Proof.
  intros He. destruct e as [s | c text]; [reflexivity |].
  specialize (He c text eq_refl). destruct c; try discriminate; reflexivity.
Qed.

(** What an [except] clause of [_request] produces is settled when the retry
    is. *)
Lemma except_clauses_settled_sync (self : Client.InfinityAssistantClient N) retry_count
    again e :
  settled again -> settled (Client.except_clauses self retry_count again e).
Proof.
  intros Ha. destruct e as [s | c text].
  - intros c' text' Hr. discriminate Hr.
  - destruct c; cbn [Client.except_clauses];
      try (intros c' text' Hr; cbn in Hr; injection Hr as <- <-; reflexivity);
      try (intros c' text' Hr; discriminate Hr).
    destruct (retry_count <? Client.max_retries self).
    + unfold Client.time_sleep.
      destruct (is_negative _).
      * intros c' text' Hr. cbn in Hr. injection Hr as <- <-. reflexivity.
      * rewrite bind_tell. apply settled_after, Ha.
    + intros c' text' Hr. discriminate Hr.
Qed.

Lemma except_clauses_settled_async (self : AsyncClient.AsyncInfinityAssistantClient N)
    retry_count again e :
  settled again -> settled (AsyncClient.except_clauses self retry_count again e).
Proof.
  intros Ha. destruct e as [s | c text].
  - intros c' text' Hr. discriminate Hr.
  - destruct c; cbn [AsyncClient.except_clauses];
      try (intros c' text' Hr; cbn in Hr; injection Hr as <- <-; reflexivity);
      try (intros c' text' Hr; discriminate Hr).
    destruct (retry_count <? AsyncClient.max_retries self).
    + unfold AsyncClient.asyncio_sleep. rewrite bind_tell. apply settled_after, Ha.
    + intros c' text' Hr. discriminate Hr.
Qed.

Lemma try_except_settled {A} (m : M N A) (h : exn -> M N A) :
  (forall e, settled (h e)) -> settled (try_except m h).
Proof.
  intros Hh. destruct m as [t [a | e | ]].
  - intros c text Hr. discriminate Hr.
  - unfold try_except. specialize (Hh e). destruct (h e) as [t' o].
    intros c text Hr. apply (Hh c text). exact Hr.
  - intros c text Hr. discriminate Hr.
Qed.

(** [_request] never lets a timeout or a transport failure of the library
    escape: it retries, or raises an error of the SDK. *)
Lemma request_settled_sync (self : Client.InfinityAssistantClient N) method endpoint
    params data net :
  forall retry_count,
    settled (Client._request lib self method endpoint params data retry_count net).
Proof.
  induction net as [| o net IH]; intros retry_count.
  - intros c text Hr. discriminate Hr.
  - cbn [Client._request]. unfold Client.attempt.
    apply try_except_settled. intros e. apply except_clauses_settled_sync, IH.
Qed.

Lemma request_settled_async (self : AsyncClient.AsyncInfinityAssistantClient N) method
    endpoint params data net :
  forall retry_count,
    settled (AsyncClient._request lib self method endpoint params data retry_count net).
Proof.
  induction net as [| o net IH]; intros retry_count.
  - intros c text Hr. discriminate Hr.
  - cbn [AsyncClient._request]. unfold AsyncClient.attempt.
    apply try_except_settled. intros e. apply except_clauses_settled_async, IH.
Qed.

End Attempts.

(** ** Retries *)

Section Retries.
Context {N : Type} `{PyNumber N} (lib : PyLib).





Lemma attempt_timeout_sync (self : Client.InfinityAssistantClient N) method endpoint
    params data retry_count text again :
  Client.attempt lib self method endpoint params data retry_count
    (Fails (Lib TimeoutExc text)) again
  = after [Request (Client.request_call lib self method endpoint params data)]
      (raise (Sdk (InfinityAssistantTimeoutError "Request timeout"))).
Proof. reflexivity. Qed.

Lemma attempt_timeout_async (self : AsyncClient.AsyncInfinityAssistantClient N) method
    endpoint params data retry_count text again :
  AsyncClient.attempt lib self method endpoint params data retry_count
    (Fails (Lib TimeoutExc text)) again
  = after [Request (AsyncClient.request_call self method endpoint params data)]
      (raise (Sdk (InfinityAssistantTimeoutError "Request timeout"))).
Proof. reflexivity. Qed.

(** *** Status 429 *)









End Retries.

(** ** The request executor: classification of responses *)

(** C1 (amended).  A response the session hands back with a status from 400 up
    (below 600 for the blocking client) other than 429, whose body is a JSON
    object or not JSON at all, ends [_request] at once: one call, no sleep, no
    further attempt whatever [retry_count], [max_retries] and the rest of the
    network script are.  The error raised is an [InfinityAssistantError] whose
    message is [body.message] if truthy, else [body.error] if truthy, else
    ["Request failed"], whose code is [body.code], whose status is the
    response's and whose response is the body (the substitute
    [{"error": "Unknown error"}] when the body is not JSON). *)
Theorem error_status_raises_without_retry
    {N : Type} `{PyNumber N} (lib : PyLib)
    (self : Client.InfinityAssistantClient N)
    (aself : AsyncClient.AsyncInfinityAssistantClient N)
    (method endpoint : string) (params data : pyval) (retry_count : Z)
    (r : Response) (d : list (string * pyval)) (net : list reply) :
  400 <= status_code r ->
  status_code r <> 429 ->
  error_object r d ->
  let error :=
    InfinityAssistantError
      (py_or (field d "message") (py_or (field d "error") (PyStr "Request failed")))
      (field d "code") (PyInt (status_code r)) (PyDict d) in
  (status_code r < 600 ->
   Client._request lib self method endpoint params data retry_count (Responds r :: net)
   = ([Request (Client.request_call lib self method endpoint params data)],
      Raise (Sdk error)))
  /\ AsyncClient._request lib aself method endpoint params data retry_count
       (Responds r :: net)
     = ([Request (AsyncClient.request_call aself method endpoint params data)],
        Raise (Sdk error)).
Proof.
  intros Hlo H429 Hd error. split.
  - intros Hhi. cbn [Client._request].
    rewrite (attempt_error_sync lib self _ _ _ _ _ r _ d); try assumption.
    + reflexivity.
    + unfold Client.ok. apply negb_false_iff, andb_true_iff. split.
      * apply Z.leb_le. exact Hlo.
      * apply Z.ltb_lt. exact Hhi.
  - cbn [AsyncClient._request].
    rewrite (attempt_error_async lib aself _ _ _ _ _ r _ d); try assumption.
    + reflexivity.
    + unfold AsyncClient.ok. apply Z.ltb_ge. exact Hlo.
Qed.

(** C4 (amended).  Success is [response.ok], not the range [200,300): for a
    status other than 429 whose body parses, [_request] returns the parsed
    body unchanged after that one call whenever the status is below 400 (for
    the blocking client also from 600 up), and never returns when the status
    is from 400 up (below 600 for the blocking client). *)
Theorem ok_status_returns_body
    {N : Type} `{PyNumber N} (lib : PyLib)
    (self : Client.InfinityAssistantClient N)
    (aself : AsyncClient.AsyncInfinityAssistantClient N)
    (method endpoint : string) (params data : pyval) (retry_count : Z)
    (r : Response) (v : pyval) (net : list reply) :
  status_code r <> 429 ->
  json r = JsonValue v ->
  (status_code r < 400 \/ 600 <= status_code r ->
   Client._request lib self method endpoint params data retry_count (Responds r :: net)
   = ([Request (Client.request_call lib self method endpoint params data)], Return v))
  /\ (status_code r < 400 ->
      AsyncClient._request lib aself method endpoint params data retry_count
        (Responds r :: net)
      = ([Request (AsyncClient.request_call aself method endpoint params data)],
         Return v))
  /\ (400 <= status_code r < 600 ->
      exists e,
        outcome_of (Client._request lib self method endpoint params data retry_count
                      (Responds r :: net)) = Raise e)
  /\ (400 <= status_code r ->
      exists e,
        outcome_of (AsyncClient._request lib aself method endpoint params data
                      retry_count (Responds r :: net)) = Raise e).
Proof.
  intros H429 Hj.
  repeat split.
  - intros Hs. cbn [Client._request].
    rewrite (attempt_success_sync lib self _ _ _ _ _ r _ v); try assumption.
    + reflexivity.
    + unfold Client.ok. apply negb_true_iff, andb_false_iff.
      destruct Hs as [Hs | Hs]; [left; apply Z.leb_gt | right; apply Z.ltb_ge]; lia.
  - intros Hs. cbn [AsyncClient._request].
    rewrite (attempt_success_async lib aself _ _ _ _ _ r _ v); try assumption.
    + reflexivity.
    + unfold AsyncClient.ok. apply Z.ltb_lt. exact Hs.
  - intros [Hlo Hhi]. cbn [Client._request]. unfold Client.attempt.
    rewrite session_request_responds_sync, bind_after, bind_ret.
    apply Z.eqb_neq in H429. rewrite H429.
    assert (Hok : Client.ok r = false).
    { unfold Client.ok. apply negb_false_iff, andb_true_iff.
      split; [apply Z.leb_le | apply Z.ltb_lt]; assumption. }
    rewrite Hok. cbn [negb]. rewrite try_after.
    unfold Client.raise_api_error, Client.error_body. rewrite Hj.
    destruct v; try (eexists; reflexivity).
    rewrite !field_get, bind_ret.
    destruct (truthy (field items "message"));
      rewrite ?bind_ret, ?field_get, ?bind_ret; eexists; reflexivity.
  - intros Hlo. cbn [AsyncClient._request]. unfold AsyncClient.attempt.
    rewrite session_request_responds_async, bind_after, bind_ret.
    apply Z.eqb_neq in H429. rewrite H429.
    assert (Hok : AsyncClient.ok r = false).
    { unfold AsyncClient.ok. apply Z.ltb_ge. exact Hlo. }
    rewrite Hok. cbn [negb]. rewrite try_after.
    unfold AsyncClient.raise_api_error, AsyncClient.error_body. rewrite Hj.
    destruct v; try (eexists; reflexivity).
    rewrite !field_get, bind_ret.
    destruct (truthy (field items "message"));
      rewrite ?bind_ret, ?field_get, ?bind_ret; eexists; reflexivity.
Qed.

(** ** The request executor: transport failures *)


(** ** The streaming decoder, line by line *)

Section Lines.
Context {N : Type} `{PyNumber N} (lib : PyLib).

(** The blocking loop skips an empty line before decoding it; on any other
    line the two loops run the same code. *)
Lemma on_line_blank_sync : Client.on_line (N := N) lib EmptyString = ret Next.
Proof. reflexivity. Qed.

Lemma on_line_sync_async (line : string) :
  line <> EmptyString -> Client.on_line (N := N) lib line = AsyncClient.on_line lib line.
Proof.
  intros Hne. unfold Client.on_line, AsyncClient.on_line, nonempty.
  apply String.eqb_neq in Hne. rewrite Hne. reflexivity.
Qed.



Lemma on_line_sentinel_async (line : string) :
  sentinel lib line ->
  AsyncClient.on_line (N := N) lib line = ([Yield chunk_done], Return Break).
Proof.
  intros [_ [s [Hdec [Hpre Hdone]]]]. unfold AsyncClient.on_line.
  rewrite Hdec, bind_ret, Hpre, Hdone. reflexivity.
Qed.

Lemma on_line_nondict_async (line : string) (v : pyval) :
  payload lib line v -> is_dict v = false ->
  AsyncClient.on_line (N := N) lib line
  = raise (Lib AttributeError "object has no attribute 'get'").
Proof.
  intros [_ [s [Hdec [Hpre [Hdone Hjson]]]]] Hv. unfold AsyncClient.on_line.
  rewrite Hdec, bind_ret, Hpre. apply String.eqb_neq in Hdone. rewrite Hdone, Hjson.
  rewrite bind_ret. destruct v; try discriminate Hv; reflexivity.
Qed.

Lemma on_line_error_async (line : string) (d : list (string * pyval)) :
  payload lib line (PyDict d) -> eq_str (field d "type") "error" = true ->
  AsyncClient.on_line (N := N) lib line
  = ([Yield (chunk_error (reported_error d))], Return Break).
Proof.
  intros [_ [s [Hdec [Hpre [Hdone Hjson]]]]] Hty. unfold AsyncClient.on_line.
  rewrite Hdec, bind_ret, Hpre. apply String.eqb_neq in Hdone. rewrite Hdone, Hjson.
  rewrite bind_ret, field_get, bind_ret, Hty. reflexivity.
Qed.

Lemma getitem_truthy (d : list (string * pyval)) (key : string) :
  truthy (field d key) = true -> @py_getitem N (PyDict d) key = ret (field d key).
Proof.
  unfold field, py_getitem. destruct (lookup key d); [reflexivity | discriminate].
Qed.

Lemma on_line_data_async (line : string) (d : list (string * pyval)) :
  payload lib line (PyDict d) -> eq_str (field d "type") "error" = false ->
  AsyncClient.on_line (N := N) lib line = (map Yield (data_chunks d), Return Next).
Proof.
  intros [_ [s [Hdec [Hpre [Hdone Hjson]]]]] Hty. unfold AsyncClient.on_line.
  rewrite Hdec, bind_ret, Hpre. apply String.eqb_neq in Hdone. rewrite Hdone, Hjson.
  rewrite bind_ret, field_get, bind_ret, Hty, field_get, bind_ret. unfold data_chunks.
  destruct (truthy (field d "content")) eqn:Hc;
    rewrite ?(getitem_truthy d "content" Hc), ?bind_ret, ?bind_tell, field_get, bind_ret;
    destruct (truthy (field d "metadata")) eqn:Hm;
    rewrite ?(getitem_truthy d "metadata" Hm), ?bind_ret, ?bind_tell;
    reflexivity.
Qed.

Lemma payload_nonempty (line : string) (v : pyval) :
  payload lib line v -> line <> EmptyString.
Proof. intros [Hne _]. exact Hne. Qed.

Lemma on_line_sentinel_sync (line : string) :
  sentinel lib line ->
  Client.on_line (N := N) lib line = ([Yield chunk_done], Return Break).
Proof.
  intros Hs. rewrite on_line_sync_async by apply Hs. apply on_line_sentinel_async, Hs.
Qed.

Lemma on_line_nondict_sync (line : string) (v : pyval) :
  payload lib line v -> is_dict v = false ->
  Client.on_line (N := N) lib line
  = raise (Lib AttributeError "object has no attribute 'get'").
Proof.
  intros Hp Hv. rewrite on_line_sync_async by apply Hp.
  apply (on_line_nondict_async line v); assumption.
Qed.

Lemma on_line_error_sync (line : string) (d : list (string * pyval)) :
  payload lib line (PyDict d) -> eq_str (field d "type") "error" = true ->
  Client.on_line (N := N) lib line
  = ([Yield (chunk_error (reported_error d))], Return Break).
Proof.
  intros Hp Hty. rewrite on_line_sync_async by apply Hp.
  apply on_line_error_async; assumption.
Qed.

Lemma on_line_data_sync (line : string) (d : list (string * pyval)) :
  payload lib line (PyDict d) -> eq_str (field d "type") "error" = false ->
  Client.on_line (N := N) lib line = (map Yield (data_chunks d), Return Next).
Proof.
  intros Hp Hty. rewrite on_line_sync_async by apply Hp.
  apply on_line_data_async; assumption.
Qed.

(** *** The loop *)

Lemma for_lines_next_sync (line : string) (rest : list string) finish t :
  Client.on_line lib line = (t, Return Next) ->
  Client.for_lines (N := N) lib (line :: rest) finish
  = after t (Client.for_lines lib rest finish).
Proof.
  intros Hl. cbn [Client.for_lines]. rewrite Hl. unfold bind, after.
  destruct (Client.for_lines lib rest finish). reflexivity.
Qed.

Lemma for_lines_next_async (line : string) (rest : list string) finish t :
  AsyncClient.on_line lib line = (t, Return Next) ->
  AsyncClient.for_lines (N := N) lib (line :: rest) finish
  = after t (AsyncClient.for_lines lib rest finish).
Proof.
  intros Hl. cbn [AsyncClient.for_lines]. rewrite Hl. unfold bind, after.
  destruct (AsyncClient.for_lines lib rest finish). reflexivity.
Qed.

Lemma for_lines_break_sync (line : string) (rest : list string) finish t :
  Client.on_line lib line = (t, Return Break) ->
  Client.for_lines (N := N) lib (line :: rest) finish = (t, Return tt).
Proof.
  intros Hl. cbn [Client.for_lines]. rewrite Hl. cbn. rewrite app_nil_r. reflexivity.
Qed.

Lemma for_lines_break_async (line : string) (rest : list string) finish t :
  AsyncClient.on_line lib line = (t, Return Break) ->
  AsyncClient.for_lines (N := N) lib (line :: rest) finish = (t, Return tt).
Proof.
  intros Hl. cbn [AsyncClient.for_lines]. rewrite Hl. cbn. rewrite app_nil_r. reflexivity.
Qed.

Lemma for_lines_raise_sync (line : string) (rest : list string) finish t e :
  Client.on_line lib line = (t, Raise e) ->
  Client.for_lines (N := N) lib (line :: rest) finish = (t, Raise e).
Proof. intros Hl. cbn [Client.for_lines]. rewrite Hl. reflexivity. Qed.

Lemma for_lines_raise_async (line : string) (rest : list string) finish t e :
  AsyncClient.on_line lib line = (t, Raise e) ->
  AsyncClient.for_lines (N := N) lib (line :: rest) finish = (t, Raise e).
Proof. intros Hl. cbn [AsyncClient.for_lines]. rewrite Hl. reflexivity. Qed.

Lemma for_lines_passes_sync (pre ls : list string) finish :
  passes (Client.on_line (N := N) lib) pre ->
  Client.for_lines (N := N) lib (pre ++ ls) finish
  = after (trace_lines (Client.on_line lib) pre) (Client.for_lines lib ls finish).
Proof.
  induction 1 as [| line pre Hl _ IH]; cbn [app trace_lines flat_map].
  - rewrite after_nil. reflexivity.
  - destruct (Client.on_line lib line) as [t o] eqn:Hline. cbn in Hl. subst o.
    rewrite (for_lines_next_sync line _ finish t Hline), IH, after_after. reflexivity.
Qed.

Lemma for_lines_passes_async (pre ls : list string) finish :
  passes (AsyncClient.on_line (N := N) lib) pre ->
  AsyncClient.for_lines (N := N) lib (pre ++ ls) finish
  = after (trace_lines (AsyncClient.on_line lib) pre)
      (AsyncClient.for_lines lib ls finish).
Proof.
  induction 1 as [| line pre Hl _ IH]; cbn [app trace_lines flat_map].
  - rewrite after_nil. reflexivity.
  - destruct (AsyncClient.on_line lib line) as [t o] eqn:Hline. cbn in Hl. subst o.
    rewrite (for_lines_next_async line _ finish t Hline), IH, after_after. reflexivity.
Qed.

End Lines.

(** ** The streaming decoder, whole streams *)

Section Streams.
Context {N : Type} `{PyNumber N} (lib : PyLib).

Lemma chat_stream_ok_sync (self : Client.InfinityAssistantClient N) kwargs (r : Response) :
  Client.ok r = true ->
  Client.chat_stream lib self kwargs (Responds r)
  = after [Request (Client.stream_call self kwargs)]
      (try_except
         (Client.for_lines lib (lines r) (lines_end r) ;; tell (Yield chunk_done))
         Client.stream_except_clauses).
Proof.
  intros Hok. unfold Client.chat_stream.
  rewrite session_request_responds_sync, bind_after, bind_ret, Hok. cbn [negb].
  apply try_after.
Qed.

Lemma chat_stream_ok_async (self : AsyncClient.AsyncInfinityAssistantClient N) kwargs
    (r : Response) :
  AsyncClient.ok r = true ->
  AsyncClient.chat_stream lib self kwargs (Responds r)
  = after [Request (AsyncClient.stream_call self kwargs)]
      (try_except
         (AsyncClient.for_lines lib (lines r) (lines_end r) ;; tell (Yield chunk_done))
         AsyncClient.stream_except_clauses).
Proof.
  intros Hok. unfold AsyncClient.chat_stream.
  rewrite session_request_responds_async, bind_after, bind_ret, Hok. cbn [negb].
  apply try_after.
Qed.

(** [ok] looks at the status only. *)
Lemma ok_status_sync (r r' : Response) :
  status_code r = status_code r' -> Client.ok r = Client.ok r'.
Proof. unfold Client.ok. intros ->. reflexivity. Qed.

Lemma ok_status_async (r r' : Response) :
  status_code r = status_code r' -> AsyncClient.ok r = AsyncClient.ok r'.
Proof. unfold AsyncClient.ok. intros ->. reflexivity. Qed.





End Streams.


(** C10.  A line [data: <payload>] whose payload decodes to a JSON value that
    is not an object is not skipped: [parsed.get] raises [AttributeError],
    which no [except] clause of [chat_stream] handles.  The generator raises
    it after the chunks of the lines before, and the lines after are never
    read. *)
Theorem nonobject_payload_raises
    {N : Type} `{PyNumber N} (lib : PyLib) (line : string) (v : pyval) :
  payload lib line v ->
  is_dict v = false ->
  let error := Lib AttributeError "object has no attribute 'get'" in
  (Client.on_line (N := N) lib line = raise error
   /\ AsyncClient.on_line (N := N) lib line = raise error)
  /\ (forall (self : Client.InfinityAssistantClient N) kwargs (r : Response) pre rest,
        Client.ok r = true ->
        lines r = pre ++ line :: rest ->
        passes (Client.on_line (N := N) lib) pre ->
        Client.chat_stream lib self kwargs (Responds r)
        = (Request (Client.stream_call self kwargs)
             :: trace_lines (Client.on_line lib) pre,
           Raise error))
  /\ (forall (aself : AsyncClient.AsyncInfinityAssistantClient N) kwargs (r : Response)
             pre rest,
        AsyncClient.ok r = true ->
        lines r = pre ++ line :: rest ->
        passes (AsyncClient.on_line (N := N) lib) pre ->
        AsyncClient.chat_stream lib aself kwargs (Responds r)
        = (Request (AsyncClient.stream_call aself kwargs)
             :: trace_lines (AsyncClient.on_line lib) pre,
           Raise error)).
Proof.
  intros Hp Hv error.
  assert (Hs : Client.on_line (N := N) lib line = raise error)
    by (apply (on_line_nondict_sync lib line v); assumption).
  assert (Ha : AsyncClient.on_line (N := N) lib line = raise error)
    by (apply (on_line_nondict_async lib line v); assumption).
  repeat apply conj.
  - exact Hs.
  - exact Ha.
  - intros self kwargs r pre rest Hok Hlines Hpre.
    rewrite (chat_stream_ok_sync lib self kwargs r Hok), Hlines.
    rewrite (for_lines_passes_sync lib pre _ _ Hpre).
    rewrite (for_lines_raise_sync lib line rest _ [] error Hs).
    unfold after, bind, try_except. cbn. rewrite !app_nil_r. reflexivity.
  - intros aself kwargs r pre rest Hok Hlines Hpre.
    rewrite (chat_stream_ok_async lib aself kwargs r Hok), Hlines.
    rewrite (for_lines_passes_async lib pre _ _ Hpre).
    rewrite (for_lines_raise_async lib line rest _ [] error Ha).
    unfold after, bind, try_except. cbn. rewrite !app_nil_r. reflexivity.
Qed.

(** ** Streams that run to their end *)

Section Endings.
Context {N : Type} `{PyNumber N} (lib : PyLib).

Lemma yields_map (cs : list pyval) : yields (N := N) (map Yield cs) = cs.
Proof. induction cs as [| c cs IH]; [reflexivity | cbn; rewrite IH; reflexivity]. Qed.






(** Whenever the loop is left without an exception, by exhaustion or by
    [break], the [yield] after it runs: the last chunk is [done]. *)
Lemma loop_exit_yields_done_sync (self : Client.InfinityAssistantClient N) kwargs
    (r : Response) t :
  Client.ok r = true ->
  Client.for_lines lib (lines r) (lines_end r) = (t, Return tt) ->
  Client.chat_stream lib self kwargs (Responds r)
  = (Request (Client.stream_call self kwargs) :: t ++ [Yield chunk_done], Return tt).
Proof.
  intros Hok Hloop. rewrite (chat_stream_ok_sync lib self kwargs r Hok), Hloop.
  reflexivity.
Qed.

Lemma loop_exit_yields_done_async (self : AsyncClient.AsyncInfinityAssistantClient N)
    kwargs (r : Response) t :
  AsyncClient.ok r = true ->
  AsyncClient.for_lines lib (lines r) (lines_end r) = (t, Return tt) ->
  AsyncClient.chat_stream lib self kwargs (Responds r)
  = (Request (AsyncClient.stream_call self kwargs) :: t ++ [Yield chunk_done], Return tt).
Proof.
  intros Hok Hloop. rewrite (chat_stream_ok_async lib self kwargs r Hok), Hloop.
  reflexivity.
Qed.

(** The sentinel and an error object both leave the loop by [break], so the
    [yield] after the loop follows their chunk. *)
Lemma sentinel_then_done_sync (self : Client.InfinityAssistantClient N) kwargs
    (r : Response) pre line rest :
  Client.ok r = true ->
  lines r = pre ++ line :: rest ->
  passes (Client.on_line (N := N) lib) pre ->
  sentinel lib line ->
  Client.chat_stream lib self kwargs (Responds r)
  = (Request (Client.stream_call self kwargs)
       :: trace_lines (Client.on_line lib) pre ++ [Yield chunk_done; Yield chunk_done],
     Return tt).
Proof.
  intros Hok Hlines Hpre Hs.
  rewrite (loop_exit_yields_done_sync self kwargs r
             (trace_lines (Client.on_line lib) pre ++ [Yield chunk_done]) Hok).
  - rewrite <- app_assoc. reflexivity.
  - rewrite Hlines, (for_lines_passes_sync lib pre _ _ Hpre).
    rewrite (for_lines_break_sync lib line rest _ _ (on_line_sentinel_sync lib line Hs)).
    reflexivity.
Qed.

Lemma error_then_done_sync (self : Client.InfinityAssistantClient N) kwargs
    (r : Response) pre line rest d :
  Client.ok r = true ->
  lines r = pre ++ line :: rest ->
  passes (Client.on_line (N := N) lib) pre ->
  payload lib line (PyDict d) ->
  eq_str (field d "type") "error" = true ->
  Client.chat_stream lib self kwargs (Responds r)
  = (Request (Client.stream_call self kwargs)
       :: trace_lines (Client.on_line lib) pre
          ++ [Yield (chunk_error (reported_error d)); Yield chunk_done],
     Return tt).
Proof.
  intros Hok Hlines Hpre Hp Hty.
  rewrite (loop_exit_yields_done_sync self kwargs r
             (trace_lines (Client.on_line lib) pre
              ++ [Yield (chunk_error (reported_error d))]) Hok).
  - rewrite <- app_assoc. reflexivity.
  - rewrite Hlines, (for_lines_passes_sync lib pre _ _ Hpre).
    rewrite (for_lines_break_sync lib line rest _ _
               (on_line_error_sync lib line d Hp Hty)).
    reflexivity.
Qed.

Lemma sentinel_then_done_async (self : AsyncClient.AsyncInfinityAssistantClient N) kwargs
    (r : Response) pre line rest :
  AsyncClient.ok r = true ->
  lines r = pre ++ line :: rest ->
  passes (AsyncClient.on_line (N := N) lib) pre ->
  sentinel lib line ->
  AsyncClient.chat_stream lib self kwargs (Responds r)
  = (Request (AsyncClient.stream_call self kwargs)
       :: trace_lines (AsyncClient.on_line lib) pre
          ++ [Yield chunk_done; Yield chunk_done],
     Return tt).
Proof.
  intros Hok Hlines Hpre Hs.
  rewrite (loop_exit_yields_done_async self kwargs r
             (trace_lines (AsyncClient.on_line lib) pre ++ [Yield chunk_done]) Hok).
  - rewrite <- app_assoc. reflexivity.
  - rewrite Hlines, (for_lines_passes_async lib pre _ _ Hpre).
    rewrite (for_lines_break_async lib line rest _ _
               (on_line_sentinel_async lib line Hs)).
    reflexivity.
Qed.

Lemma error_then_done_async (self : AsyncClient.AsyncInfinityAssistantClient N) kwargs
    (r : Response) pre line rest d :
  AsyncClient.ok r = true ->
  lines r = pre ++ line :: rest ->
  passes (AsyncClient.on_line (N := N) lib) pre ->
  payload lib line (PyDict d) ->
  eq_str (field d "type") "error" = true ->
  AsyncClient.chat_stream lib self kwargs (Responds r)
  = (Request (AsyncClient.stream_call self kwargs)
       :: trace_lines (AsyncClient.on_line lib) pre
          ++ [Yield (chunk_error (reported_error d)); Yield chunk_done],
     Return tt).
Proof.
  intros Hok Hlines Hpre Hp Hty.
  rewrite (loop_exit_yields_done_async self kwargs r
             (trace_lines (AsyncClient.on_line lib) pre
              ++ [Yield (chunk_error (reported_error d))]) Hok).
  - rewrite <- app_assoc. reflexivity.
  - rewrite Hlines, (for_lines_passes_async lib pre _ _ Hpre).
    rewrite (for_lines_break_async lib line rest _ _
               (on_line_error_async lib line d Hp Hty)).
    reflexivity.
Qed.

End Endings.


(** ** The executor answers within [max_retries + 1] attempts *)

Section Termination.
Context {N : Type} `{PyNumber N} (lib : PyLib).

Lemma answers_ret {A} (a : A) : answers (N := N) (ret a).
Proof. discriminate. Qed.

Lemma answers_raise {A} (e : exn) : answers (N := N) (A := A) (raise e).
Proof. discriminate. Qed.

Lemma answers_tell (ev : event N) : answers (tell ev).
Proof. discriminate. Qed.

Lemma answers_bind {A B} (m : M N A) (k : A -> M N B) :
  answers m -> (forall a, answers (k a)) -> answers (bind m k).
Proof.
  intros Hm Hk. destruct m as [t [a | e | ]]; unfold answers, bind in *; cbn in *.
  - specialize (Hk a). destruct (k a) as [t' o]. exact Hk.
  - discriminate.
  - contradiction.
Qed.

Lemma answers_try {A} (m : M N A) (h : exn -> M N A) :
  answers m -> (forall e, answers (h e)) -> answers (try_except m h).
Proof.
  intros Hm Hh. destruct m as [t [a | e | ]]; unfold answers, try_except in *; cbn in *.
  - discriminate.
  - specialize (Hh e). destruct (h e) as [t' o]. exact Hh.
  - contradiction.
Qed.

Lemma answers_raise_api_error_sync {A} (r : Response) :
  answers (Client.raise_api_error (N := N) (A := A) r).
Proof.
  unfold Client.raise_api_error.
  destruct (Client.error_body r); try discriminate.
  repeat (apply answers_bind; [discriminate | intros ?]).
  apply answers_bind; [| intros ?; apply answers_bind; [discriminate | intros; discriminate]].
  destruct (truthy _); [discriminate |].
  apply answers_bind; [discriminate | intros; discriminate].
Qed.

Lemma answers_raise_api_error_async {A} (r : Response) :
  answers (AsyncClient.raise_api_error (N := N) (A := A) r).
Proof.
  unfold AsyncClient.raise_api_error.
  destruct (AsyncClient.error_body r); try discriminate.
  repeat (apply answers_bind; [discriminate | intros ?]).
  apply answers_bind; [| intros ?; apply answers_bind; [discriminate | intros; discriminate]].
  destruct (truthy _); [discriminate |].
  apply answers_bind; [discriminate | intros; discriminate].
Qed.

Lemma answers_attempt_sync (self : Client.InfinityAssistantClient N) method endpoint
    params data retry_count o again :
  (retry_count < Client.max_retries self -> answers again) ->
  answers (Client.attempt lib self method endpoint params data retry_count o again).
Proof.
  intros Hagain.
  assert (Hsleep : forall d, answers (Client.time_sleep d))
    by (intros d; unfold Client.time_sleep; destruct (is_negative d); discriminate).
  unfold Client.attempt. apply answers_try.
  - apply answers_bind; [destruct o; discriminate | intros r].
    destruct (status_code r =? 429).
    + apply answers_bind.
      * unfold Client.retry_after_delay.
        destruct (headers_get _ _) as [text |]; [| discriminate].
        destruct (nonempty text); [| discriminate].
        destruct (int_of_str lib text); discriminate.
      * intros delay. destruct (retry_count <? Client.max_retries self) eqn:Hlt.
        -- apply answers_bind; [apply Hsleep | intros _].
           apply Hagain, Z.ltb_lt, Hlt.
        -- discriminate.
    + destruct (negb (Client.ok r)).
      * apply answers_raise_api_error_sync.
      * unfold Client.response_json. destruct (json r); discriminate.
  - intros [e | c text]; [discriminate |].
    destruct c; try discriminate. cbn [Client.except_clauses].
    destruct (retry_count <? Client.max_retries self) eqn:Hlt; [| discriminate].
    apply answers_bind; [apply Hsleep | intros _]. apply Hagain, Z.ltb_lt, Hlt.
Qed.

Lemma answers_attempt_async (self : AsyncClient.AsyncInfinityAssistantClient N) method
    endpoint params data retry_count o again :
  (retry_count < AsyncClient.max_retries self -> answers again) ->
  answers (AsyncClient.attempt lib self method endpoint params data retry_count o again).
Proof.
  intros Hagain.
  unfold AsyncClient.attempt. apply answers_try.
  - apply answers_bind; [destruct o; discriminate | intros r].
    destruct (status_code r =? 429).
    + apply answers_bind.
      * unfold AsyncClient.retry_after_delay.
        destruct (headers_get _ _) as [text |]; [| discriminate].
        destruct (nonempty text); [| discriminate].
        destruct (int_of_str lib text); discriminate.
      * intros delay. destruct (retry_count <? AsyncClient.max_retries self) eqn:Hlt.
        -- apply answers_bind; [discriminate | intros _].
           apply Hagain, Z.ltb_lt, Hlt.
        -- discriminate.
    + destruct (negb (AsyncClient.ok r)).
      * apply answers_raise_api_error_async.
      * unfold AsyncClient.response_json. destruct (json r); discriminate.
  - intros [e | c text]; [discriminate |].
    destruct c; try discriminate. cbn [AsyncClient.except_clauses].
    destruct (retry_count <? AsyncClient.max_retries self) eqn:Hlt; [| discriminate].
    apply answers_bind; [discriminate | intros _]. apply Hagain, Z.ltb_lt, Hlt.
Qed.

(** A script of one reply, and one more per retry that remains, is enough for
    [_request] to return or raise: it makes at most
    [max_retries - retry_count + 1] attempts. *)
Lemma request_answers_sync (self : Client.InfinityAssistantClient N) method endpoint
    params data net :
  forall retry_count,
    Z.max 0 (Client.max_retries self - retry_count) < Z.of_nat (List.length net) ->
    answers (Client._request lib self method endpoint params data retry_count net).
Proof.
  induction net as [| o net IH]; intros retry_count Hlen.
  - cbn in Hlen. lia.
  - cbn [Client._request]. apply answers_attempt_sync. intros Hlt. apply IH.
    cbn [List.length] in Hlen. lia.
Qed.

Lemma request_answers_async (self : AsyncClient.AsyncInfinityAssistantClient N) method
    endpoint params data net :
  forall retry_count,
    Z.max 0 (AsyncClient.max_retries self - retry_count) < Z.of_nat (List.length net) ->
    answers (AsyncClient._request lib self method endpoint params data retry_count net).
Proof.
  induction net as [| o net IH]; intros retry_count Hlen.
  - cbn in Hlen. lia.
  - cbn [AsyncClient._request]. apply answers_attempt_async. intros Hlt. apply IH.
    cbn [List.length] in Hlen. lia.
Qed.

End Termination.

(** ** What every finished stream ends with *)

Section Finished.
Context {N : Type} `{PyNumber N} (lib : PyLib).

Lemma stream_except_clauses_raise_sync (e : exn) :
  exists e', Client.stream_except_clauses (N := N) e = raise e'.
Proof. destruct e as [s | c text]; [| destruct c]; eexists; reflexivity. Qed.

Lemma stream_except_clauses_raise_async (e : exn) :
  exists e', AsyncClient.stream_except_clauses (N := N) e = raise e'.
Proof. destruct e as [s | c text]; [| destruct c]; eexists; reflexivity. Qed.

(** A generator that is exhausted without raising has yielded [done] last,
    also after the sentinel and after an error object. *)
Lemma finished_stream_ends_with_done_sync (self : Client.InfinityAssistantClient N)
    kwargs (r : Response) :
  Client.ok r = true ->
  outcome_of (Client.chat_stream lib self kwargs (Responds r)) = Return tt ->
  exists cs, chunks (Client.chat_stream lib self kwargs (Responds r)) = cs ++ [chunk_done].
Proof.
  intros Hok. rewrite (chat_stream_ok_sync lib self kwargs r Hok).
  destruct (Client.for_lines lib (lines r) (lines_end r)) as [t [[] | e | ]].
  - intros _. exists (yields t). unfold chunks. cbn. rewrite yields_app. reflexivity.
  - destruct (stream_except_clauses_raise_sync e) as [e' He'].
    unfold try_except, bind, after. cbn. rewrite He'. discriminate.
  - discriminate.
Qed.

Lemma finished_stream_ends_with_done_async
    (self : AsyncClient.AsyncInfinityAssistantClient N) kwargs (r : Response) :
  AsyncClient.ok r = true ->
  outcome_of (AsyncClient.chat_stream lib self kwargs (Responds r)) = Return tt ->
  exists cs,
    chunks (AsyncClient.chat_stream lib self kwargs (Responds r)) = cs ++ [chunk_done].
Proof.
  intros Hok. rewrite (chat_stream_ok_async lib self kwargs r Hok).
  destruct (AsyncClient.for_lines lib (lines r) (lines_end r)) as [t [[] | e | ]].
  - intros _. exists (yields t). unfold chunks. cbn. rewrite yields_app. reflexivity.
  - destruct (stream_except_clauses_raise_async e) as [e' He'].
    unfold try_except, bind, after. cbn. rewrite He'. discriminate.
  - discriminate.
Qed.

(** On the same lines, none of them empty, the two loops do the same. *)
Lemma for_lines_same_lines (ls : list string) finish :
  Forall (fun line => line <> EmptyString) ls ->
  Client.for_lines (N := N) lib ls finish = AsyncClient.for_lines lib ls finish.
Proof.
  induction 1 as [| line ls Hne _ IH]; [reflexivity |].
  cbn [Client.for_lines AsyncClient.for_lines].
  rewrite (on_line_sync_async lib line Hne), IH. reflexivity.
Qed.

End Finished.

(** ** The request executor: status 429 *)

Section RateLimit.
Context {N : Type} `{PyNumber N} (lib : PyLib).





End RateLimit.


(** ** The calls the two clients issue *)

(** X23.  With the same key and base URL the two clients send the same
    method, headers and JSON body to the same endpoint; the blocking client appends
    the encoded query to the URL and passes a timeout with every call, the
    non-blocking one hands [params] to its library and sets the timeout on the
    session. *)
Lemma request_calls_correspond {N : Type} (lib : PyLib)
    (self : Client.InfinityAssistantClient N)
    (aself : AsyncClient.AsyncInfinityAssistantClient N)
    (method endpoint : string) (params data : pyval) :
  Client.api_key self = AsyncClient.api_key aself ->
  Client.base_url self = AsyncClient.base_url aself ->
  let sent := Client.request_call lib self method endpoint params data in
  let asent := AsyncClient.request_call aself method endpoint params data in
  call_method sent = call_method asent
  /\ call_headers sent = call_headers asent
  /\ call_json sent = call_json asent
  /\ call_url sent
     = (call_url asent
        ++ (if truthy params then "?" ++ urlencode lib params else EmptyString))%string
  /\ call_params sent = PyNone
  /\ call_params asent = params
  /\ call_timeout sent = Some (Client.timeout self)
  /\ call_timeout asent = None.
Proof.
  intros Hkey Hurl sent asent. subst sent asent.
  unfold Client.request_call, AsyncClient.request_call, Client._get_headers,
    AsyncClient._get_headers.
  cbn [call_method call_headers call_json call_url call_params call_timeout].
  rewrite Hkey, Hurl. repeat split.
  destruct (truthy params); [reflexivity |].
  induction (AsyncClient.base_url aself ++ endpoint)%string as [| c rest IH];
    [reflexivity | cbn; rewrite <- IH; reflexivity].
Qed.

(** ** The clients on concrete inputs *)

(** C1, as stated, fails on a 300: the status is outside [200,300) and is not
    429, yet no error is raised; both clients return the body. *)
Lemma multiple_choices_is_returned :
  status_code multiple_choices = 300
  /\ Client._request Ref.lib sample_client "GET" "/health" PyNone PyNone 0
       [Responds multiple_choices]
     = ([Request (Client.request_call Ref.lib sample_client "GET" "/health" PyNone PyNone)],
        Return (PyDict [("message", PyStr "pick one")]))
  /\ AsyncClient._request Ref.lib sample_async_client "GET" "/health" PyNone PyNone 0
       [Responds multiple_choices]
     = ([Request (AsyncClient.request_call sample_async_client "GET" "/health"
                    PyNone PyNone)],
        Return (PyDict [("message", PyStr "pick one")])).
Proof. repeat split. Qed.

(** C1 at a 404 whose body carries [error] and [code] but no [message]. *)
Lemma not_found_raises_api_error :
  Client._request Ref.lib sample_client "GET" "/health" PyNone PyNone 0
    [Responds not_found; Responds health_ok]
  = ([Request (Client.request_call Ref.lib sample_client "GET" "/health" PyNone PyNone)],
     Raise (Sdk (InfinityAssistantError (PyStr "no such route") (PyStr "E404") (PyInt 404)
                   (PyDict [("error", PyStr "no such route"); ("code", PyStr "E404")])))).
Proof.
  apply (proj1 (error_status_raises_without_retry Ref.lib sample_client
                  sample_async_client "GET" "/health" PyNone PyNone 0 not_found
                  [("error", PyStr "no such route"); ("code", PyStr "E404")]
                  [Responds health_ok]
                  ltac:(vm_compute; easy) ltac:(vm_compute; easy) (or_introl eq_refl))).
  vm_compute. reflexivity.
Defined.

(** C4, as stated, fails on a 300: a status outside [200,300) is treated as a
    success. *)
Lemma status_300_is_a_success :
  ((200 <=? status_code multiple_choices) && (status_code multiple_choices <? 300) = false)
  /\ outcome_of (Client._request Ref.lib sample_client "POST" "/research" PyNone
                   (PyDict [("query", PyStr "rocq")]) 0 [Responds multiple_choices])
     = Return (PyDict [("message", PyStr "pick one")])
  /\ outcome_of (AsyncClient._request Ref.lib sample_async_client "POST" "/research" PyNone
                   (PyDict [("query", PyStr "rocq")]) 0 [Responds multiple_choices])
     = Return (PyDict [("message", PyStr "pick one")]).
Proof. repeat split. Qed.

(** C4 at a 200. *)
Lemma health_returns_body :
  Client._request Ref.lib sample_client "GET" "/health" PyNone PyNone 0
    [Responds health_ok]
  = ([Request (Client.request_call Ref.lib sample_client "GET" "/health" PyNone PyNone)],
     Return (PyDict [("status", PyStr "ok")])).
Proof.
  apply (proj1 (ok_status_returns_body Ref.lib sample_client sample_async_client
                  "GET" "/health" PyNone PyNone 0 health_ok
                  (PyDict [("status", PyStr "ok")]) []
                  ltac:(vm_compute; easy) eq_refl)).
  left. vm_compute. reflexivity.
Defined.



(** C5 on the stream [data: {"type":"error","error":"boom"}] followed by a
    text line: the error chunk is not the last one, [done] follows it. *)
Theorem error_chunk_is_followed_by_done
    (self : Client.InfinityAssistantClient Z)
    (aself : AsyncClient.AsyncInfinityAssistantClient Z)
    (kwargs : list (string * pyval)) :
  chunks (Client.chat_stream Ref.lib self kwargs
            (Responds (stream_response [error_line; hi_line])))
  = [chunk_error (PyStr "boom"); chunk_done]
  /\ chunks (AsyncClient.chat_stream Ref.lib aself kwargs
               (Responds (stream_response [error_line; hi_line])))
     = [chunk_error (PyStr "boom"); chunk_done].
Proof. split; reflexivity. Qed.

(** C6 on the stream of the three lines [data: {"content":"Hi"}],
    [data: {"content":" there"}], [data: [DONE]]: [done] is yielded twice. *)
Theorem done_sentinel_yields_done_twice
    (self : Client.InfinityAssistantClient Z)
    (aself : AsyncClient.AsyncInfinityAssistantClient Z)
    (kwargs : list (string * pyval)) :
  chunks (Client.chat_stream Ref.lib self kwargs
            (Responds (stream_response [hi_line; there_line; done_line])))
  = [chunk_text (PyStr "Hi"); chunk_text (PyStr " there"); chunk_done; chunk_done]
  /\ chunks (AsyncClient.chat_stream Ref.lib aself kwargs
               (Responds (stream_response [hi_line; there_line; done_line])))
     = [chunk_text (PyStr "Hi"); chunk_text (PyStr " there"); chunk_done; chunk_done].
Proof. split; reflexivity. Qed.




(** A line that [bytes.decode] rejects raises [UnicodeDecodeError] in both
    loops, whatever the line holds otherwise; only the blocking loop, and only
    on an empty line, does not get as far as decoding. *)
Lemma undecodable_bytes_raise {N : Type} `{PyNumber N} (lib : PyLib) (line : string) :
  bytes_decode lib line = None ->
  AsyncClient.on_line (N := N) lib line = raise (Lib UnicodeDecodeError "invalid utf-8")
  /\ (line <> EmptyString ->
      Client.on_line (N := N) lib line = raise (Lib UnicodeDecodeError "invalid utf-8")).
Proof.
  intros Hdec.
  assert (Ha : AsyncClient.on_line (N := N) lib line
               = raise (Lib UnicodeDecodeError "invalid utf-8"))
    by (unfold AsyncClient.on_line; rewrite Hdec; reflexivity).
  split; [exact Ha |].
  intros Hne. rewrite (on_line_sync_async lib line Hne). exact Ha.
Qed.


(** C10 on the line [data: 5] after a text line. *)
Lemma number_payload_raises_attribute_error :
  payload Ref.lib number_line (PyInt 5)
  /\ Client.chat_stream Ref.lib sample_client []
       (Responds (stream_response [hi_line; number_line; there_line]))
     = (Request (Client.stream_call sample_client [])
          :: trace_lines (Client.on_line Ref.lib) [hi_line],
        Raise (Lib AttributeError "object has no attribute 'get'")).
Proof.
  assert (Hp : payload Ref.lib number_line (PyInt 5)).
  { split; [discriminate |]. exists number_line. repeat split. discriminate. }
  split; [exact Hp |].
  apply (proj1 (proj2 (nonobject_payload_raises (N := Z) Ref.lib number_line (PyInt 5)
                         Hp eq_refl))
           sample_client [] (stream_response [hi_line; number_line; there_line])
           [hi_line] [there_line]);
    [reflexivity | reflexivity | repeat constructor].
Defined.

(** C9 on one streamed body, three lines that each end with LF, the last one
    [data: [DONE]].  The blocking client iterates the lines without their
    terminators, matches the sentinel and yields [done] twice; the
    non-blocking client iterates them with their LF, never matches the
    sentinel and yields [done] once. *)
Theorem stream_chunks_differ_between_clients :
  iter_lines sse_body
  = [hi_line; EmptyString; there_line; EmptyString; done_line; EmptyString]
  /\ content_lines sse_body
     = [hi_line ++ newline; newline; there_line ++ newline; newline;
        done_line ++ newline; newline]%string
  /\ chunks (Client.chat_stream Ref.lib sample_client [("message", PyStr "Hello")]
               (Responds (sync_stream sse_body)))
     = [chunk_text (PyStr "Hi"); chunk_text (PyStr " there"); chunk_done; chunk_done]
  /\ chunks (AsyncClient.chat_stream Ref.lib sample_async_client
               [("message", PyStr "Hello")] (Responds (async_stream sse_body)))
     = [chunk_text (PyStr "Hi"); chunk_text (PyStr " there"); chunk_done].
Proof. repeat split. Qed.

(** A status from 600 up is [ok] for [requests] and not for [aiohttp]: the
    blocking client returns the body, the non-blocking one raises. *)
Lemma status_600_is_classified_differently :
  let r := json_response 600 [] (PyDict [("error", PyStr "custom")]) in
  outcome_of (Client._request Ref.lib sample_client "GET" "/health" PyNone PyNone 0
                [Responds r])
  = Return (PyDict [("error", PyStr "custom")])
  /\ outcome_of (AsyncClient._request Ref.lib sample_async_client "GET" "/health" PyNone
                   PyNone 0 [Responds r])
     = Raise (Sdk (InfinityAssistantError (PyStr "custom") PyNone (PyInt 600)
                     (PyDict [("error", PyStr "custom")]))).
Proof. split; reflexivity. Qed.

(** The default delay is the float [1.0]: the two sleeps before the third
    attempt are [1.0] and [2.0]. *)
Lemma default_delay_backoff :
  sleeps (trace_of (Client.health Ref.lib default_client
                      [Fails (Lib TransportExc "connection refused");
                       Fails (Lib TransportExc "connection refused");
                       Responds health_ok]))
  = [1%float; 2%float].
Proof. reflexivity. Qed.


(** Four replies of 429 without [Retry-After], with the default
    [max_retries = 3]: four requests, three sleeps of the configured delay,
    then the rate-limit error. *)
Lemma rate_limited_four_times :
  let run := Client.health Ref.lib sample_client (repeat (Responds rate_limited) 4) in
  sleeps (trace_of run) = [1; 1; 1]
  /\ List.length (requests (trace_of run)) = 4%nat
  /\ outcome_of run = Raise rate_limit_error.
Proof. repeat split. Qed.

(** The payloads ["x"] and [[1]] decode to a string and a list: the same
    [AttributeError]. *)
Lemma string_and_list_payloads_raise :
  Client.on_line (N := Z) Ref.lib ("data: " ++ Ref.q "x")
  = raise (Lib AttributeError "object has no attribute 'get'")
  /\ Client.on_line (N := Z) Ref.lib "data: [1]"
     = raise (Lib AttributeError "object has no attribute 'get'")
  /\ AsyncClient.on_line (N := Z) Ref.lib ("data: " ++ Ref.q "x")
     = raise (Lib AttributeError "object has no attribute 'get'")
  /\ AsyncClient.on_line (N := Z) Ref.lib "data: [1]"
     = raise (Lib AttributeError "object has no attribute 'get'").
Proof. repeat split. Qed.

(** ** The executor, attempt by attempt *)

Section Steps.
Context {N : Type} `{PyNumber N} (lib : PyLib).

Lemma uncaught_sdk (e : sdk_error) : forall c text, Sdk e = Lib c text -> caught c = false.
Proof. intros c text He. discriminate He. Qed.

Lemma raise_api_error_raises_sync {A} (r : Response) :
  exists e, Client.raise_api_error (N := N) (A := A) r = raise e
            /\ forall c text, e = Lib c text -> caught c = false.
Proof.
  unfold Client.raise_api_error.
  destruct (Client.error_body r) as [| b | n | x | s | items | d];
    try (eexists; split; [reflexivity | intros c text He; injection He as <- _; reflexivity]).
  rewrite !field_get, bind_ret.
  destruct (truthy (field d "message")); rewrite ?bind_ret, ?field_get, ?bind_ret;
    eexists; (split; [reflexivity | apply uncaught_sdk]).
Qed.

Lemma raise_api_error_raises_async {A} (r : Response) :
  exists e, AsyncClient.raise_api_error (N := N) (A := A) r = raise e
            /\ forall c text, e = Lib c text -> caught c = false.
Proof.
  unfold AsyncClient.raise_api_error.
  destruct (AsyncClient.error_body r) as [| b | n | x | s | items | d];
    try (eexists; split; [reflexivity | intros c text He; injection He as <- _; reflexivity]).
  rewrite !field_get, bind_ret.
  destruct (truthy (field d "message")); rewrite ?bind_ret, ?field_get, ?bind_ret;
    eexists; (split; [reflexivity | apply uncaught_sdk]).
Qed.

(** The two clients compute the error of an error response and the delay of
    a 429 with the same code. *)
Lemma raise_api_error_same {A} (r : Response) :
  Client.raise_api_error (N := N) (A := A) r = AsyncClient.raise_api_error r.
Proof. reflexivity. Qed.


Lemma retry_after_delay_cases_async (self : AsyncClient.AsyncInfinityAssistantClient N)
    (r : Response) :
  (exists delay, AsyncClient.retry_after_delay lib self r = ret delay)
  \/ AsyncClient.retry_after_delay lib self r
     = raise (Lib ValueError "invalid literal for int()").
Proof.
  unfold AsyncClient.retry_after_delay.
  destruct (headers_get _ _) as [text |]; [| left; eexists; reflexivity].
  destruct (nonempty text); [| left; eexists; reflexivity].
  destruct (int_of_str lib text); [left; eexists; reflexivity | right; reflexivity].
Qed.

Lemma retry_after_delay_cases_sync (self : Client.InfinityAssistantClient N)
    (r : Response) :
  (exists delay, Client.retry_after_delay lib self r = ret delay)
  \/ Client.retry_after_delay lib self r
     = raise (Lib ValueError "invalid literal for int()").
Proof.
  unfold Client.retry_after_delay.
  destruct (headers_get _ _) as [text |]; [| left; eexists; reflexivity].
  destruct (nonempty text); [| left; eexists; reflexivity].
  destruct (int_of_str lib text); [left; eexists; reflexivity | right; reflexivity].
Qed.

(** What the [except] clauses make of an exception: an outcome, or a sleep
    and the next attempt. *)
Lemma except_clauses_cases_sync (self : Client.InfinityAssistantClient N) retry_count
    again (e : exn) :
  (exists out, out <> Starved /\ Client.except_clauses self retry_count again e = ([], out))
  \/ (retry_count < Client.max_retries self
      /\ exists text, e = Lib TransportExc text
      /\ Client.except_clauses self retry_count again e
         = after [Sleep (mul_int (Client.retry_delay self) (retry_count + 1))] again).
Proof.
  destruct e as [s | c text]; [left; eexists; split; [| reflexivity]; discriminate |].
  destruct c; try (left; eexists; split; [| reflexivity]; discriminate).
  cbn [Client.except_clauses].
  destruct (retry_count <? Client.max_retries self) eqn:Hlt.
  - unfold Client.time_sleep. destruct (is_negative _).
    + left. eexists. split; [| reflexivity]. discriminate.
    + right. split; [apply Z.ltb_lt, Hlt |]. exists text. split; [reflexivity |].
      apply bind_tell.
  - left. eexists. split; [| reflexivity]. discriminate.
Qed.

Lemma except_clauses_cases_async (self : AsyncClient.AsyncInfinityAssistantClient N)
    retry_count again (e : exn) :
  (exists out, out <> Starved
               /\ AsyncClient.except_clauses self retry_count again e = ([], out))
  \/ (retry_count < AsyncClient.max_retries self
      /\ exists text, e = Lib TransportExc text
      /\ AsyncClient.except_clauses self retry_count again e
         = after [Sleep (mul_int (AsyncClient.retry_delay self) (retry_count + 1))] again).
Proof.
  destruct e as [s | c text]; [left; eexists; split; [| reflexivity]; discriminate |].
  destruct c; try (left; eexists; split; [| reflexivity]; discriminate).
  cbn [AsyncClient.except_clauses].
  destruct (retry_count <? AsyncClient.max_retries self) eqn:Hlt.
  - right. split; [apply Z.ltb_lt, Hlt |]. exists text. split; [reflexivity |].
    apply bind_tell.
  - left. eexists. split; [| reflexivity]. discriminate.
Qed.

(** One attempt, written as its call followed by the rest. *)
Lemma attempt_responds_sync (self : Client.InfinityAssistantClient N) method endpoint
    params data retry_count (r : Response) again :
  Client.attempt lib self method endpoint params data retry_count (Responds r) again
  = after [Request (Client.request_call lib self method endpoint params data)]
      (try_except
         (if status_code r =? 429 then
            delay <- Client.retry_after_delay lib self r ;;
            if retry_count <? Client.max_retries self then
              Client.time_sleep delay ;; again
            else
              raise (Sdk (InfinityAssistantRateLimitError
                            "Rate limit exceeded. Please try again later."))
          else if negb (Client.ok r) then Client.raise_api_error r
          else Client.response_json r)
         (Client.except_clauses self retry_count again)).
Proof.
  unfold Client.attempt.
  rewrite session_request_responds_sync, bind_after, bind_ret, try_after. reflexivity.
Qed.

Lemma attempt_responds_async (self : AsyncClient.AsyncInfinityAssistantClient N) method
    endpoint params data retry_count (r : Response) again :
  AsyncClient.attempt lib self method endpoint params data retry_count (Responds r) again
  = after [Request (AsyncClient.request_call self method endpoint params data)]
      (try_except
         (if status_code r =? 429 then
            delay <- AsyncClient.retry_after_delay lib self r ;;
            if retry_count <? AsyncClient.max_retries self then
              AsyncClient.asyncio_sleep delay ;; again
            else
              raise (Sdk (InfinityAssistantRateLimitError
                            "Rate limit exceeded. Please try again later."))
          else if negb (AsyncClient.ok r) then AsyncClient.raise_api_error r
          else AsyncClient.response_json r)
         (AsyncClient.except_clauses self retry_count again)).
Proof.
  unfold AsyncClient.attempt.
  rewrite session_request_responds_async, bind_after, bind_ret, try_after. reflexivity.
Qed.

Lemma attempt_fails_sync (self : Client.InfinityAssistantClient N) method endpoint
    params data retry_count (e : exn) again :
  Client.attempt lib self method endpoint params data retry_count (Fails e) again
  = after [Request (Client.request_call lib self method endpoint params data)]
      (Client.except_clauses self retry_count again e).
Proof.
  unfold Client.attempt.
  rewrite session_request_fails_sync, bind_after, bind_raise, try_after, try_raise.
  reflexivity.
Qed.

Lemma attempt_fails_async (self : AsyncClient.AsyncInfinityAssistantClient N) method
    endpoint params data retry_count (e : exn) again :
  AsyncClient.attempt lib self method endpoint params data retry_count (Fails e) again
  = after [Request (AsyncClient.request_call self method endpoint params data)]
      (AsyncClient.except_clauses self retry_count again e).
Proof.
  unfold AsyncClient.attempt.
  rewrite session_request_fails_async, bind_after, bind_raise, try_after, try_raise.
  reflexivity.
Qed.

Lemma step_of_except (call : http_call) (retries_left : Prop) (again m : M N pyval) :
  (exists out, out <> Starved /\ m = ([], out))
  \/ (retries_left /\ exists delay, m = after [Sleep delay] again) ->
  step_result call retries_left again (after [Request call] m).
Proof.
  intros [[out [Hout ->]] | [Hleft [delay ->]]].
  - apply step_final. exact Hout.
  - rewrite after_after. apply step_retry. exact Hleft.
Qed.

(** Every attempt of the blocking executor ends the run after its call, or
    sleeps and hands over to the next attempt. *)
Lemma attempt_step_sync (self : Client.InfinityAssistantClient N) method endpoint
    params data retry_count (o : reply) again :
  settled again ->
  step_result (Client.request_call lib self method endpoint params data)
    (retry_count < Client.max_retries self) again
    (Client.attempt lib self method endpoint params data retry_count o again).
Proof.
  intros Hset. destruct o as [r | e].
  - rewrite attempt_responds_sync. apply step_of_except.
    destruct (status_code r =? 429).
    + destruct (retry_after_delay_cases_sync self r) as [[delay ->] | ->].
      * rewrite bind_ret. destruct (retry_count <? Client.max_retries self) eqn:Hlt.
        -- unfold Client.time_sleep. destruct (is_negative delay).
           ++ left. eexists. split; [| reflexivity]. discriminate.
           ++ right. split; [apply Z.ltb_lt, Hlt |]. exists delay.
              rewrite bind_tell, try_after.
              rewrite try_settled; [reflexivity | exact Hset |].
              intros e He. apply except_clauses_pass_sync, He.
        -- left. eexists. split; [| reflexivity]. discriminate.
      * left. eexists. split; [| reflexivity]. discriminate.
    + destruct (negb (Client.ok r)).
      * destruct (raise_api_error_raises_sync (A := pyval) r) as [e [-> He]].
        rewrite try_raise, except_clauses_pass_sync by exact He.
        left. eexists. split; [| reflexivity]. discriminate.
      * unfold Client.response_json. destruct (json r) as [v | e].
        -- left. eexists. split; [| reflexivity]. discriminate.
        -- rewrite try_raise.
           destruct (except_clauses_cases_sync self retry_count again e)
             as [Hfinal | [Hlt [text [_ Hretry]]]]; [left; exact Hfinal |].
           right. split; [exact Hlt |]. eexists. exact Hretry.
  - rewrite attempt_fails_sync. apply step_of_except.
    destruct (except_clauses_cases_sync self retry_count again e)
      as [Hfinal | [Hlt [text [_ Hretry]]]]; [left; exact Hfinal |].
    right. split; [exact Hlt |]. eexists. exact Hretry.
Qed.

Lemma attempt_step_async (self : AsyncClient.AsyncInfinityAssistantClient N) method
    endpoint params data retry_count (o : reply) again :
  settled again ->
  step_result (AsyncClient.request_call self method endpoint params data)
    (retry_count < AsyncClient.max_retries self) again
    (AsyncClient.attempt lib self method endpoint params data retry_count o again).
Proof.
  intros Hset. destruct o as [r | e].
  - rewrite attempt_responds_async. apply step_of_except.
    destruct (status_code r =? 429).
    + destruct (retry_after_delay_cases_async self r) as [[delay ->] | ->].
      * rewrite bind_ret. destruct (retry_count <? AsyncClient.max_retries self) eqn:Hlt.
        -- right. split; [apply Z.ltb_lt, Hlt |]. exists delay.
           unfold AsyncClient.asyncio_sleep.
           rewrite bind_tell, try_after.
           rewrite try_settled; [reflexivity | exact Hset |].
           intros e He. apply except_clauses_pass_async, He.
        -- left. eexists. split; [| reflexivity]. discriminate.
      * left. eexists. split; [| reflexivity]. discriminate.
    + destruct (negb (AsyncClient.ok r)).
      * destruct (raise_api_error_raises_async (A := pyval) r) as [e [-> He]].
        rewrite try_raise, except_clauses_pass_async by exact He.
        left. eexists. split; [| reflexivity]. discriminate.
      * unfold AsyncClient.response_json. destruct (json r) as [v | e].
        -- left. eexists. split; [| reflexivity]. discriminate.
        -- rewrite try_raise.
           destruct (except_clauses_cases_async self retry_count again e)
             as [Hfinal | [Hlt [text [_ Hretry]]]]; [left; exact Hfinal |].
           right. split; [exact Hlt |]. eexists. exact Hretry.
  - rewrite attempt_fails_async. apply step_of_except.
    destruct (except_clauses_cases_async self retry_count again e)
      as [Hfinal | [Hlt [text [_ Hretry]]]]; [left; exact Hfinal |].
    right. split; [exact Hlt |]. eexists. exact Hretry.
Qed.

End Steps.

(** ** Whole runs of the executor *)

Section Runs.
Context {N : Type} `{PyNumber N} (lib : PyLib).

Lemma request_step_sync (self : Client.InfinityAssistantClient N) method endpoint
    params data retry_count (o : reply) (net : list reply) :
  step_result (Client.request_call lib self method endpoint params data)
    (retry_count < Client.max_retries self)
    (Client._request lib self method endpoint params data (retry_count + 1) net)
    (Client._request lib self method endpoint params data retry_count (o :: net)).
Proof. cbn [Client._request]. apply attempt_step_sync, request_settled_sync. Qed.

Lemma request_step_async (self : AsyncClient.AsyncInfinityAssistantClient N) method
    endpoint params data retry_count (o : reply) (net : list reply) :
  step_result (AsyncClient.request_call self method endpoint params data)
    (retry_count < AsyncClient.max_retries self)
    (AsyncClient._request lib self method endpoint params data (retry_count + 1) net)
    (AsyncClient._request lib self method endpoint params data retry_count (o :: net)).
Proof. cbn [AsyncClient._request]. apply attempt_step_async, request_settled_async. Qed.

(** A run is its call, then a sleep and the same call for every retry. *)
Lemma request_trace_sync (self : Client.InfinityAssistantClient N) method endpoint
    params data (net : list reply) :
  forall retry_count,
    let run := Client._request lib self method endpoint params data retry_count net in
    requests (trace_of run)
    = repeat (Client.request_call lib self method endpoint params data)
        (List.length (requests (trace_of run)))
    /\ Z.of_nat (List.length (requests (trace_of run)))
       <= 1 + Z.max 0 (Client.max_retries self - retry_count)
    /\ (List.length (sleeps (trace_of run)) <= List.length (requests (trace_of run)))%nat
    /\ (answers run ->
        List.length (requests (trace_of run)) = S (List.length (sleeps (trace_of run)))).
Proof.
  induction net as [| o net IH]; intros retry_count run; subst run.
  - unfold answers, starved, trace_of, outcome_of. cbn [Client._request].
    unfold starved. cbn [fst snd requests sleeps List.length repeat].
    split; [reflexivity |]. split; [lia |]. split; [lia |].
    intros Ha. exfalso. apply Ha. reflexivity.
  - pose proof (request_step_sync self method endpoint params data retry_count o net)
      as Hstep.
    cbn [Client._request] in *.
    inversion Hstep as [out Hout Heq | delay Hlt Heq]; clear Heq Hstep.
    + unfold trace_of, outcome_of. cbn [fst snd requests sleeps List.length repeat].
      split; [reflexivity |]. split; [lia |]. split; [lia |]. reflexivity.
    + destruct (IH (retry_count + 1)) as (Hcalls & Hbound & Hsleeps & Hans).
      unfold after, trace_of, outcome_of, answers in *.
      cbn [fst snd app requests sleeps List.length repeat].
      split; [f_equal; exact Hcalls |]. split; [lia |]. split; [lia |].
      intros Ha. rewrite (Hans Ha). reflexivity.
Qed.

Lemma request_trace_async (self : AsyncClient.AsyncInfinityAssistantClient N) method
    endpoint params data (net : list reply) :
  forall retry_count,
    let run := AsyncClient._request lib self method endpoint params data retry_count net in
    requests (trace_of run)
    = repeat (AsyncClient.request_call self method endpoint params data)
        (List.length (requests (trace_of run)))
    /\ Z.of_nat (List.length (requests (trace_of run)))
       <= 1 + Z.max 0 (AsyncClient.max_retries self - retry_count)
    /\ (List.length (sleeps (trace_of run)) <= List.length (requests (trace_of run)))%nat
    /\ (answers run ->
        List.length (requests (trace_of run)) = S (List.length (sleeps (trace_of run)))).
Proof.
  induction net as [| o net IH]; intros retry_count run; subst run.
  - unfold answers, starved, trace_of, outcome_of. cbn [AsyncClient._request].
    unfold starved. cbn [fst snd requests sleeps List.length repeat].
    split; [reflexivity |]. split; [lia |]. split; [lia |].
    intros Ha. exfalso. apply Ha. reflexivity.
  - pose proof (request_step_async self method endpoint params data retry_count o net)
      as Hstep.
    cbn [AsyncClient._request] in *.
    inversion Hstep as [out Hout Heq | delay Hlt Heq]; clear Heq Hstep.
    + unfold trace_of, outcome_of. cbn [fst snd requests sleeps List.length repeat].
      split; [reflexivity |]. split; [lia |]. split; [lia |]. reflexivity.
    + destruct (IH (retry_count + 1)) as (Hcalls & Hbound & Hsleeps & Hans).
      unfold after, trace_of, outcome_of, answers in *.
      cbn [fst snd app requests sleeps List.length repeat].
      split; [f_equal; exact Hcalls |]. split; [lia |]. split; [lia |].
      intros Ha. rewrite (Hans Ha). reflexivity.
Qed.

Lemma settled_leaks {A} (m : M N A) : settled m -> leaks (outcome_of m) = false.
Proof.
  intros Hm. destruct m as [t [a | [s | c text] | ]]; try reflexivity.
  apply (Hm c text). reflexivity.
Qed.

Lemma chat_stream_settled_sync (self : Client.InfinityAssistantClient N) kwargs o :
  settled (Client.chat_stream lib self kwargs o).
Proof.
  unfold Client.chat_stream. apply try_except_settled.
  intros [s | c text]; [| destruct c]; intros c' text' Hr; try discriminate Hr;
    cbn in Hr; injection Hr as <- _; reflexivity.
Qed.

Lemma chat_stream_settled_async (self : AsyncClient.AsyncInfinityAssistantClient N)
    kwargs o :
  settled (AsyncClient.chat_stream lib self kwargs o).
Proof.
  unfold AsyncClient.chat_stream. apply try_except_settled.
  intros [s | c text]; [| destruct c]; intros c' text' Hr; try discriminate Hr;
    cbn in Hr; injection Hr as <- _; reflexivity.
Qed.

End Runs.

(** X1.  Whatever the network does, a call of [_request] made with retry count
    [retry_count] calls the session at most [max_retries - retry_count + 1]
    times (once when no retry is left), never sleeps more often than it calls,
    answers (returns or raises) as soon as that many replies are available,
    and, when it answers, has slept exactly once before each call but the
    first.  (What the session does inside one call, such as the retries of the
    adapter mounted by the blocking client, is not counted.) *)
Theorem request_attempts_are_bounded
    {N : Type} `{PyNumber N} (lib : PyLib)
    (self : Client.InfinityAssistantClient N)
    (aself : AsyncClient.AsyncInfinityAssistantClient N)
    (method endpoint : string) (params data : pyval) (retry_count : Z)
    (net : list reply) :
  let sync := Client._request lib self method endpoint params data retry_count net in
  let async := AsyncClient._request lib aself method endpoint params data retry_count net in
  (Z.of_nat (List.length (requests (trace_of sync)))
   <= 1 + Z.max 0 (Client.max_retries self - retry_count)
   /\ (List.length (sleeps (trace_of sync)) <= List.length (requests (trace_of sync)))%nat
   /\ (Z.max 0 (Client.max_retries self - retry_count) < Z.of_nat (List.length net) ->
       answers sync)
   /\ (answers sync ->
       List.length (requests (trace_of sync)) = S (List.length (sleeps (trace_of sync)))))
  /\ (Z.of_nat (List.length (requests (trace_of async)))
      <= 1 + Z.max 0 (AsyncClient.max_retries aself - retry_count)
      /\ (List.length (sleeps (trace_of async))
          <= List.length (requests (trace_of async)))%nat
      /\ (Z.max 0 (AsyncClient.max_retries aself - retry_count)
          < Z.of_nat (List.length net) ->
          answers async)
      /\ (answers async ->
          List.length (requests (trace_of async))
          = S (List.length (sleeps (trace_of async))))).
Proof.
  intros sync async. subst sync async. split.
  - destruct (request_trace_sync lib self method endpoint params data net retry_count)
      as (_ & Hbound & Hsleeps & Hans).
    repeat split; try assumption. apply request_answers_sync.
  - destruct (request_trace_async lib aself method endpoint params data net retry_count)
      as (_ & Hbound & Hsleeps & Hans).
    repeat split; try assumption. apply request_answers_async.
Qed.

(** X2.  Every request of a run of [_request], the first one and each retry,
    is the same call: same method, URL, headers, parameters, body and
    timeout. *)
Theorem retries_repeat_the_same_call
    {N : Type} `{PyNumber N} (lib : PyLib)
    (self : Client.InfinityAssistantClient N)
    (aself : AsyncClient.AsyncInfinityAssistantClient N)
    (method endpoint : string) (params data : pyval) (retry_count : Z)
    (net : list reply) :
  let sync := Client._request lib self method endpoint params data retry_count net in
  let async := AsyncClient._request lib aself method endpoint params data retry_count net in
  requests (trace_of sync)
  = repeat (Client.request_call lib self method endpoint params data)
      (List.length (requests (trace_of sync)))
  /\ requests (trace_of async)
     = repeat (AsyncClient.request_call aself method endpoint params data)
         (List.length (requests (trace_of async))).
Proof.
  intros sync async. subst sync async. split.
  - apply (request_trace_sync lib self method endpoint params data net retry_count).
  - apply (request_trace_async lib aself method endpoint params data net retry_count).
Qed.

(** X3.  No timeout and no transport failure of the HTTP library ever comes
    out of [_request] or [chat_stream]: whatever the network does, what they
    raise of those two classes is an error of the SDK. *)
Theorem transport_errors_never_escape
    {N : Type} `{PyNumber N} (lib : PyLib)
    (self : Client.InfinityAssistantClient N)
    (aself : AsyncClient.AsyncInfinityAssistantClient N)
    (method endpoint : string) (params data : pyval) (retry_count : Z)
    (net : list reply) (kwargs : list (string * pyval)) (o : reply) :
  leaks (outcome_of (Client._request lib self method endpoint params data retry_count net))
  = false
  /\ leaks (outcome_of (AsyncClient._request lib aself method endpoint params data
                          retry_count net)) = false
  /\ leaks (outcome_of (Client.chat_stream lib self kwargs o)) = false
  /\ leaks (outcome_of (AsyncClient.chat_stream lib aself kwargs o)) = false.
Proof.
  repeat split; apply settled_leaks.
  - apply request_settled_sync.
  - apply request_settled_async.
  - apply chat_stream_settled_sync.
  - apply chat_stream_settled_async.
Qed.

(** X4.  A timeout is never retried: at any attempt, whatever retries are
    left and whatever the network would answer next, it ends the run after
    that one call with the timeout error of the SDK (code [TIMEOUT], status
    408); the text of the library's exception is dropped.  The same holds when
    the timeout comes while the body of a successful response is read, and
    for the call of [chat_stream]. *)
Theorem timeout_is_never_retried
    {N : Type} `{PyNumber N} (lib : PyLib)
    (self : Client.InfinityAssistantClient N)
    (aself : AsyncClient.AsyncInfinityAssistantClient N)
    (method endpoint : string) (params data : pyval) (retry_count : Z)
    (text : string) (net : list reply) (r : Response) (kwargs : list (string * pyval)) :
  let timed_out := Raise (Sdk (mk_error TimeoutError (PyStr "Request timeout")
                                 (PyStr "TIMEOUT") (PyInt 408) PyNone)) in
  let sync := Client._request lib self method endpoint params data retry_count in
  let async := AsyncClient._request lib aself method endpoint params data retry_count in
  sync (Fails (Lib TimeoutExc text) :: net)
  = ([Request (Client.request_call lib self method endpoint params data)], timed_out)
  /\ async (Fails (Lib TimeoutExc text) :: net)
     = ([Request (AsyncClient.request_call aself method endpoint params data)], timed_out)
  /\ (status_code r < 400 -> json r = JsonFails (Lib TimeoutExc text) ->
      sync (Responds r :: net)
      = ([Request (Client.request_call lib self method endpoint params data)], timed_out)
      /\ async (Responds r :: net)
         = ([Request (AsyncClient.request_call aself method endpoint params data)],
            timed_out))
  /\ Client.chat_stream lib self kwargs (Fails (Lib TimeoutExc text))
     = ([Request (Client.stream_call self kwargs)],
        Raise (Sdk (mk_error TimeoutError (PyStr "Request timeout")
                      (PyStr "TIMEOUT") (PyInt 408) PyNone)))
  /\ AsyncClient.chat_stream lib aself kwargs (Fails (Lib TimeoutExc text))
     = ([Request (AsyncClient.stream_call aself kwargs)],
        Raise (Sdk (mk_error TimeoutError (PyStr "Request timeout")
                      (PyStr "TIMEOUT") (PyInt 408) PyNone))).
Proof.
  intros timed_out sync async. subst timed_out sync async.
  repeat apply conj; try reflexivity.
  intros Hs Hj.
  assert (H429 : (status_code r =? 429) = false) by (apply Z.eqb_neq; lia).
  split.
  - cbn [Client._request]. rewrite attempt_responds_sync, H429.
    assert (Hok : Client.ok r = true).
    { unfold Client.ok. apply negb_true_iff, andb_false_iff. left. apply Z.leb_gt. lia. }
    rewrite Hok. cbn [negb]. unfold Client.response_json. rewrite Hj. reflexivity.
  - cbn [AsyncClient._request]. rewrite attempt_responds_async, H429.
    assert (Hok : AsyncClient.ok r = true) by (apply Z.ltb_lt; lia).
    rewrite Hok. cbn [negb]. unfold AsyncClient.response_json. rewrite Hj. reflexivity.
Qed.



(** X6.  An error response (status from 400 up, below 600 for the blocking
    client, not 429) whose body is JSON but not an object does not raise an
    error of the SDK: [error_data.get] raises [AttributeError], which comes
    out of [_request] after that one call, with no retry. *)
Theorem nonobject_error_body_raises_attribute_error
    {N : Type} `{PyNumber N} (lib : PyLib)
    (self : Client.InfinityAssistantClient N)
    (aself : AsyncClient.AsyncInfinityAssistantClient N)
    (method endpoint : string) (params data : pyval) (retry_count : Z)
    (r : Response) (v : pyval) (net : list reply) :
  400 <= status_code r ->
  status_code r <> 429 ->
  json r = JsonValue v ->
  is_dict v = false ->
  (status_code r < 600 ->
   Client._request lib self method endpoint params data retry_count (Responds r :: net)
   = ([Request (Client.request_call lib self method endpoint params data)],
      Raise (Lib AttributeError "object has no attribute 'get'")))
  /\ AsyncClient._request lib aself method endpoint params data retry_count
       (Responds r :: net)
     = ([Request (AsyncClient.request_call aself method endpoint params data)],
        Raise (Lib AttributeError "object has no attribute 'get'")).
Proof.
  intros Hlo H429 Hj Hv. apply Z.eqb_neq in H429. split.
  - intros Hhi. cbn [Client._request]. rewrite attempt_responds_sync, H429.
    assert (Hok : Client.ok r = false).
    { unfold Client.ok. apply negb_false_iff, andb_true_iff.
      split; [apply Z.leb_le | apply Z.ltb_lt]; assumption. }
    rewrite Hok. cbn [negb]. unfold Client.raise_api_error, Client.error_body.
    rewrite Hj. destruct v; try discriminate Hv; reflexivity.
  - cbn [AsyncClient._request]. rewrite attempt_responds_async, H429.
    assert (Hok : AsyncClient.ok r = false) by (apply Z.ltb_ge; exact Hlo).
    rewrite Hok. cbn [negb]. unfold AsyncClient.raise_api_error, AsyncClient.error_body.
    rewrite Hj. destruct v; try discriminate Hv; reflexivity.
Qed.

(** X6 on a 422 whose body is a JSON list of messages. *)
Lemma validation_errors_raise_attribute_error :
  Client._request Ref.lib sample_client "POST" "/api-keys" PyNone
    (PyDict [("name", PyStr EmptyString)]) 0 [Responds validation_errors]
  = ([Request (Client.request_call Ref.lib sample_client "POST" "/api-keys" PyNone
                 (PyDict [("name", PyStr EmptyString)]))],
     Raise (Lib AttributeError "object has no attribute 'get'")).
Proof.
  apply (proj1 (nonobject_error_body_raises_attribute_error Ref.lib sample_client
                  sample_async_client "POST" "/api-keys" PyNone
                  (PyDict [("name", PyStr EmptyString)]) 0 validation_errors
                  (PyList [PyStr "name is required"]) []
                  ltac:(vm_compute; easy) ltac:(vm_compute; easy) eq_refl eq_refl)).
  vm_compute. reflexivity.
Defined.

(** ** The two executors side by side *)

Section Agreement.
Context {N : Type} `{PyNumber N} (lib : PyLib).
Variable self : Client.InfinityAssistantClient N.
Variable aself : AsyncClient.AsyncInfinityAssistantClient N.
Hypothesis same_retries : Client.max_retries self = AsyncClient.max_retries aself.
Hypothesis same_delay : Client.retry_delay self = AsyncClient.retry_delay aself.

Lemma ok_agree (r : Response) : status_code r < 600 -> Client.ok r = AsyncClient.ok r.
Proof.
  intros Hs. unfold Client.ok, AsyncClient.ok.
  destruct (status_code r <? 400) eqn:Hlt.
  - apply Z.ltb_lt in Hlt. apply negb_true_iff, andb_false_iff. left. apply Z.leb_gt, Hlt.
  - apply Z.ltb_ge in Hlt. apply negb_false_iff, andb_true_iff.
    split; [apply Z.leb_le, Hlt | apply Z.ltb_lt, Hs].
Qed.





End Agreement.



(** ** The decoder on any line and any stream *)

Section Decoder.
Context {N : Type} `{PyNumber N} (lib : PyLib).

Lemma requests_map_yield (cs : list pyval) : requests (N := N) (map Yield cs) = [].
Proof. induction cs as [| c cs IH]; [reflexivity | exact IH]. Qed.

Lemma sleeps_map_yield (cs : list pyval) : sleeps (N := N) (map Yield cs) = [].
Proof. induction cs as [| c cs IH]; [reflexivity | exact IH]. Qed.

(** Whatever the line and whatever the libraries make of it, one iteration
    of the loop yields at most a text and a metadata chunk and goes on, or
    yields [done] or an error chunk and leaves the loop, or raises before it
    has yielded anything. *)
Lemma on_line_cases_async (line : string) : line_result (AsyncClient.on_line (N := N) lib line).
Proof.
  unfold AsyncClient.on_line.
  destruct (bytes_decode lib line) as [s |]; [rewrite bind_ret | apply line_raises].
  destruct (startswith s "data: "); [| apply (line_data []); [constructor | cbn; lia]].
  destruct (String.eqb (drop 6 s) "[DONE]").
  { apply line_closes. left. reflexivity. }
  destruct (json_loads lib (drop 6 s)) as [v |];
    [rewrite bind_ret | apply (line_data []); [constructor | cbn; lia]].
  destruct v as [| b | n | x | text | items | d]; try apply line_raises.
  rewrite field_get, bind_ret.
  destruct (eq_str (field d "type") "error").
  { apply line_closes. right. eexists. reflexivity. }
  rewrite field_get, bind_ret.
  destruct (truthy (field d "content")) eqn:Hc;
    rewrite ?(getitem_truthy d "content" Hc), ?bind_ret, ?bind_tell, field_get, bind_ret;
    destruct (truthy (field d "metadata")) eqn:Hm;
    rewrite ?(getitem_truthy d "metadata" Hm), ?bind_ret, ?bind_tell.
  - apply (line_data [chunk_text (field d "content"); chunk_metadata (field d "metadata")]).
    + constructor; [| constructor; [| constructor]].
      * exists (field d "content"). split; [exact Hc | left; reflexivity].
      * exists (field d "metadata"). split; [exact Hm | right; reflexivity].
    + cbn. lia.
  - apply (line_data [chunk_text (field d "content")]).
    + constructor; [| constructor].
      exists (field d "content"). split; [exact Hc | left; reflexivity].
    + cbn. lia.
  - apply (line_data [chunk_metadata (field d "metadata")]).
    + constructor; [| constructor].
      exists (field d "metadata"). split; [exact Hm | right; reflexivity].
    + cbn. lia.
  - apply (line_data []); [constructor | cbn; lia].
Qed.

Lemma on_line_cases_sync (line : string) : line_result (Client.on_line (N := N) lib line).
Proof.
  destruct (string_dec line EmptyString) as [-> | Hne].
  - apply (line_data []); [constructor | cbn; lia].
  - rewrite (on_line_sync_async lib line Hne). apply on_line_cases_async.
Qed.

Lemma loop_step (first : M N flow) (rest : M N unit) :
  line_result first -> loop_result rest ->
  loop_result (f <- first ;; match f with Next => rest | Break => ret tt end).
Proof.
  intros [cs Hcs _ | c Hc | e] Hrest.
  - destruct Hrest as [cs' Hcs' | cs' c Hcs' Hc | cs' e Hcs'];
      unfold bind; cbn [fst snd]; rewrite <- map_app.
    + apply loop_exhausted, Forall_app. split; assumption.
    + rewrite app_assoc. apply loop_closed; [apply Forall_app; split |]; assumption.
    + apply loop_raised, Forall_app. split; assumption.
  - apply (loop_closed [] c); [constructor | exact Hc].
  - apply (loop_raised [] e). constructor.
Qed.

Lemma for_lines_cases_sync (ls : list string) (finish : option exn) :
  loop_result (Client.for_lines (N := N) lib ls finish).
Proof.
  induction ls as [| line ls IH]; cbn [Client.for_lines].
  - destruct finish as [e |]; [apply (loop_raised [] e) | apply (loop_exhausted [])];
      constructor.
  - apply loop_step; [apply on_line_cases_sync | exact IH].
Qed.

Lemma for_lines_cases_async (ls : list string) (finish : option exn) :
  loop_result (AsyncClient.for_lines (N := N) lib ls finish).
Proof.
  induction ls as [| line ls IH]; cbn [AsyncClient.for_lines].
  - destruct finish as [e |]; [apply (loop_raised [] e) | apply (loop_exhausted [])];
      constructor.
  - apply loop_step; [apply on_line_cases_async | exact IH].
Qed.

Lemma shape_raised (call : http_call) (e : exn) :
  stream_shape (N := N) call ([Request call], Raise e).
Proof. split; [reflexivity | apply (grammar_raised [] e); constructor]. Qed.

Lemma shape_of_loop (call : http_call) (loop : M N unit) (handler : exn -> M N unit) :
  loop_result loop ->
  (forall e, exists e', handler e = raise e') ->
  stream_shape call
    (after [Request call] (try_except (loop ;; tell (Yield chunk_done)) handler)).
Proof.
  intros [cs Hcs | cs c Hcs Hc | cs e Hcs] Hh.
  - unfold stream_shape, chunks, after, bind, try_except, trace_of, outcome_of.
    cbn [fst snd tell app yields].
    rewrite yields_app, yields_map. cbn [yields].
    split; [rewrite map_app; reflexivity | apply grammar_exhausted, Hcs].
  - unfold stream_shape, chunks, after, bind, try_except, trace_of, outcome_of.
    cbn [fst snd tell app yields].
    rewrite yields_app, yields_map. cbn [yields]. rewrite <- app_assoc. cbn [app].
    split.
    + rewrite !map_app. cbn [map]. rewrite <- app_assoc. reflexivity.
    + apply grammar_closed; assumption.
  - destruct (Hh e) as [e' He'].
    unfold stream_shape, chunks, after, bind, try_except, trace_of, outcome_of.
    rewrite He'. unfold raise. cbn [fst snd app yields].
    rewrite app_nil_r, yields_map.
    split; [reflexivity | apply grammar_raised, Hcs].
Qed.

Lemma chat_stream_shape_sync (self : Client.InfinityAssistantClient N) kwargs (o : reply) :
  stream_shape (Client.stream_call self kwargs) (Client.chat_stream lib self kwargs o).
Proof.
  unfold Client.chat_stream. destruct o as [r | e].
  - rewrite session_request_responds_sync, bind_after, bind_ret, try_after.
    destruct (negb (Client.ok r)).
    + destruct (raise_api_error_raises_sync (N := N) (A := unit) r) as [e [-> He]].
      rewrite try_raise.
      destruct (stream_except_clauses_raise_sync (N := N) e) as [e' ->].
      apply shape_raised.
    + apply shape_of_loop; [apply for_lines_cases_sync |].
      apply stream_except_clauses_raise_sync.
  - rewrite session_request_fails_sync, bind_after, bind_raise, try_after, try_raise.
    destruct (stream_except_clauses_raise_sync (N := N) e) as [e' ->].
    apply shape_raised.
Qed.

Lemma chat_stream_shape_async (self : AsyncClient.AsyncInfinityAssistantClient N) kwargs
    (o : reply) :
  stream_shape (AsyncClient.stream_call self kwargs)
    (AsyncClient.chat_stream lib self kwargs o).
Proof.
  unfold AsyncClient.chat_stream. destruct o as [r | e].
  - rewrite session_request_responds_async, bind_after, bind_ret, try_after.
    destruct (negb (AsyncClient.ok r)).
    + destruct (raise_api_error_raises_async (N := N) (A := unit) r) as [e [-> He]].
      rewrite try_raise.
      destruct (stream_except_clauses_raise_async (N := N) e) as [e' ->].
      apply shape_raised.
    + apply shape_of_loop; [apply for_lines_cases_async |].
      apply stream_except_clauses_raise_async.
  - rewrite session_request_fails_async, bind_after, bind_raise, try_after, try_raise.
    destruct (stream_except_clauses_raise_async (N := N) e) as [e' ->].
    apply shape_raised.
Qed.

Lemma grammar_answers (o : outcome unit) (cs : list pyval) :
  stream_grammar o cs -> o <> Starved.
Proof. intros [? ? | ? ? ? ? | ? ? ?]; discriminate. Qed.

End Decoder.

(** X8.  [chat_stream] calls the session exactly once and never sleeps,
    whatever the network does: the SDK makes no retry on a 429, on an error
    status or on a transport failure.  The call comes before every chunk, and
    a run of the generator always ends, by exhaustion or by raising. *)
Theorem stream_makes_one_request
    {N : Type} `{PyNumber N} (lib : PyLib)
    (self : Client.InfinityAssistantClient N)
    (aself : AsyncClient.AsyncInfinityAssistantClient N)
    (kwargs : list (string * pyval)) (o : reply) :
  let sync := Client.chat_stream lib self kwargs o in
  let async := AsyncClient.chat_stream lib aself kwargs o in
  (trace_of sync = Request (Client.stream_call self kwargs) :: map Yield (chunks sync)
   /\ requests (trace_of sync) = [Client.stream_call self kwargs]
   /\ sleeps (trace_of sync) = []
   /\ answers sync)
  /\ (trace_of async
      = Request (AsyncClient.stream_call aself kwargs) :: map Yield (chunks async)
      /\ requests (trace_of async) = [AsyncClient.stream_call aself kwargs]
      /\ sleeps (trace_of async) = []
      /\ answers async).
Proof.
  intros sync async. subst sync async. split.
  - destruct (chat_stream_shape_sync lib self kwargs o) as [Ht Hg].
    split; [exact Ht |]. rewrite Ht. cbn [requests sleeps].
    rewrite requests_map_yield, sleeps_map_yield.
    repeat split. exact (grammar_answers _ _ Hg).
  - destruct (chat_stream_shape_async lib aself kwargs o) as [Ht Hg].
    split; [exact Ht |]. rewrite Ht. cbn [requests sleeps].
    rewrite requests_map_yield, sleeps_map_yield.
    repeat split. exact (grammar_answers _ _ Hg).
Qed.

(** X9.  The chunks of every run of [chat_stream], whatever the reply and
    whatever the lines: text and metadata chunks whose content is truthy,
    then at most one [done] or error chunk that closed the loop, then the
    [done] after the loop, when the generator is exhausted; text and metadata
    chunks only, and no [done], when it raises.  So every chunk has one of the
    four types, and a run that ends without raising ends with [done]. *)
Theorem stream_chunks_follow_the_grammar
    {N : Type} `{PyNumber N} (lib : PyLib)
    (self : Client.InfinityAssistantClient N)
    (aself : AsyncClient.AsyncInfinityAssistantClient N)
    (kwargs : list (string * pyval)) (o : reply) :
  let sync := Client.chat_stream lib self kwargs o in
  let async := AsyncClient.chat_stream lib aself kwargs o in
  stream_grammar (outcome_of sync) (chunks sync)
  /\ stream_grammar (outcome_of async) (chunks async).
Proof.
  split.
  - apply (chat_stream_shape_sync lib self kwargs o).
  - apply (chat_stream_shape_async lib aself kwargs o).
Qed.

(** X10.  [chat_stream] treats every error status alike, 429 included: for a
    status from 400 up (below 600 for the blocking client) whose body is a
    JSON object or not JSON at all, the generator raises the error of the
    response before it yields anything and without reading a line; on a 429
    that is the plain [InfinityAssistantError] with status 429, not the
    rate-limit error, and nothing is slept or retried. *)
Theorem stream_error_status_raises_before_any_chunk
    {N : Type} `{PyNumber N} (lib : PyLib)
    (self : Client.InfinityAssistantClient N)
    (aself : AsyncClient.AsyncInfinityAssistantClient N)
    (kwargs : list (string * pyval)) (r : Response) (d : list (string * pyval)) :
  400 <= status_code r ->
  error_object r d ->
  let error :=
    mk_error BaseError
      (py_or (field d "message") (py_or (field d "error") (PyStr "Request failed")))
      (field d "code") (PyInt (status_code r)) (PyDict d) in
  (status_code r < 600 ->
   Client.chat_stream lib self kwargs (Responds r)
   = ([Request (Client.stream_call self kwargs)], Raise (Sdk error)))
  /\ AsyncClient.chat_stream lib aself kwargs (Responds r)
     = ([Request (AsyncClient.stream_call aself kwargs)], Raise (Sdk error)).
Proof.
  intros Hlo Hd error. subst error. split.
  - intros Hhi. unfold Client.chat_stream.
    rewrite session_request_responds_sync, bind_after, bind_ret, try_after.
    assert (Hok : Client.ok r = false).
    { unfold Client.ok. apply negb_false_iff, andb_true_iff.
      split; [apply Z.leb_le | apply Z.ltb_lt]; assumption. }
    rewrite Hok. cbn [negb]. rewrite (raise_api_error_sync r d Hd). reflexivity.
  - unfold AsyncClient.chat_stream.
    rewrite session_request_responds_async, bind_after, bind_ret, try_after.
    assert (Hok : AsyncClient.ok r = false) by (apply Z.ltb_ge; exact Hlo).
    rewrite Hok. cbn [negb]. rewrite (raise_api_error_async r d Hd). reflexivity.
Qed.

(** X10 on a 429 that asks for seven seconds. *)
Lemma rate_limited_stream_raises_plain_error :
  Client.chat_stream Ref.lib sample_client [("message", PyStr "Hello")]
    (Responds rate_limited_seven)
  = ([Request (Client.stream_call sample_client [("message", PyStr "Hello")])],
     Raise (Sdk (mk_error BaseError (PyStr "Too many requests") PyNone (PyInt 429)
                   (PyDict [("error", PyStr "Too many requests")])))).
Proof.
  apply (proj1 (stream_error_status_raises_before_any_chunk Ref.lib sample_client
                  sample_async_client [("message", PyStr "Hello")] rate_limited_seven
                  [("error", PyStr "Too many requests")]
                  ltac:(vm_compute; easy) (or_introl eq_refl))).
  vm_compute. reflexivity.
Defined.

(** X11.  A transport failure of [chat_stream] is never retried.  When the
    call itself fails, the generator raises the network error, with the
    failure's text, before any chunk.  When the body breaks off after lines
    the loop got through, the generator has yielded the chunks of those lines
    and then raises the network error; no [done] follows.  *)
Theorem stream_transport_failure_raises_network_error
    {N : Type} `{PyNumber N} (lib : PyLib)
    (self : Client.InfinityAssistantClient N)
    (aself : AsyncClient.AsyncInfinityAssistantClient N)
    (kwargs : list (string * pyval)) (text : string) (r : Response) :
  let error := Raise (Sdk (mk_error NetworkError (PyStr ("Network error: " ++ text))
                             (PyStr "NETWORK_ERROR") (PyInt 0) PyNone)) in
  Client.chat_stream lib self kwargs (Fails (Lib TransportExc text))
  = ([Request (Client.stream_call self kwargs)], error)
  /\ AsyncClient.chat_stream lib aself kwargs (Fails (Lib TransportExc text))
     = ([Request (AsyncClient.stream_call aself kwargs)], error)
  /\ (Client.ok r = true -> lines_end r = Some (Lib TransportExc text) ->
      passes (Client.on_line (N := N) lib) (lines r) ->
      Client.chat_stream lib self kwargs (Responds r)
      = (Request (Client.stream_call self kwargs)
           :: trace_lines (Client.on_line lib) (lines r), error))
  /\ (AsyncClient.ok r = true -> lines_end r = Some (Lib TransportExc text) ->
      passes (AsyncClient.on_line (N := N) lib) (lines r) ->
      AsyncClient.chat_stream lib aself kwargs (Responds r)
      = (Request (AsyncClient.stream_call aself kwargs)
           :: trace_lines (AsyncClient.on_line lib) (lines r), error)).
Proof.
  intros error. subst error. repeat apply conj; try reflexivity.
  - intros Hok Hend Hpass.
    rewrite (chat_stream_ok_sync lib self kwargs r Hok), Hend.
    rewrite <- (app_nil_r (lines r)) at 1.
    rewrite (for_lines_passes_sync lib (lines r) [] _ Hpass).
    cbn [Client.for_lines]. unfold after, bind, try_except, raise. cbn.
    rewrite !app_nil_r. reflexivity.
  - intros Hok Hend Hpass.
    rewrite (chat_stream_ok_async lib aself kwargs r Hok), Hend.
    rewrite <- (app_nil_r (lines r)) at 1.
    rewrite (for_lines_passes_async lib (lines r) [] _ Hpass).
    cbn [AsyncClient.for_lines]. unfold after, bind, try_except, raise. cbn.
    rewrite !app_nil_r. reflexivity.
Qed.

Section Closing.
Context {N : Type} `{PyNumber N} (lib : PyLib).

Lemma on_line_closing_sync (line : string) :
  closing lib line -> exists t, Client.on_line (N := N) lib line = (t, Return Break).
Proof.
  intros [Hs | [d [Hp Hty]]]; eexists.
  - apply on_line_sentinel_sync, Hs.
  - apply on_line_error_sync; eassumption.
Qed.

Lemma on_line_closing_async (line : string) :
  closing lib line -> exists t, AsyncClient.on_line (N := N) lib line = (t, Return Break).
Proof.
  intros [Hs | [d [Hp Hty]]]; eexists.
  - apply on_line_sentinel_async, Hs.
  - apply on_line_error_async; eassumption.
Qed.

(** Once a line leaves the loop, what follows it is never reached. *)
Lemma for_lines_cut_sync (line : string) (pre rest : list string) finish t :
  Client.on_line (N := N) lib line = (t, Return Break) ->
  Client.for_lines (N := N) lib (pre ++ line :: rest) finish
  = Client.for_lines lib (pre ++ [line]) None.
Proof.
  intros Hl. induction pre as [| l pre IH]; cbn [app].
  - rewrite !(for_lines_break_sync lib line _ _ t Hl). reflexivity.
  - cbn [Client.for_lines]. rewrite IH. reflexivity.
Qed.

Lemma for_lines_cut_async (line : string) (pre rest : list string) finish t :
  AsyncClient.on_line (N := N) lib line = (t, Return Break) ->
  AsyncClient.for_lines (N := N) lib (pre ++ line :: rest) finish
  = AsyncClient.for_lines lib (pre ++ [line]) None.
Proof.
  intros Hl. induction pre as [| l pre IH]; cbn [app].
  - rewrite !(for_lines_break_async lib line _ _ t Hl). reflexivity.
  - cbn [AsyncClient.for_lines]. rewrite IH. reflexivity.
Qed.

(** With one way of decoding empty input, the two loops run the same code on
    every line. *)
Lemma on_line_same (line : string) :
  bytes_decode lib EmptyString = Some EmptyString ->
  Client.on_line (N := N) lib line = AsyncClient.on_line lib line.
Proof.
  intros Hempty. destruct (string_dec line EmptyString) as [-> | Hne].
  - unfold Client.on_line, AsyncClient.on_line. rewrite Hempty. reflexivity.
  - apply on_line_sync_async, Hne.
Qed.

Lemma for_lines_same (ls : list string) finish :
  bytes_decode lib EmptyString = Some EmptyString ->
  Client.for_lines (N := N) lib ls finish = AsyncClient.for_lines lib ls finish.
Proof.
  intros Hempty. induction ls as [| line ls IH]; [reflexivity |].
  cbn [Client.for_lines AsyncClient.for_lines].
  rewrite (on_line_same line Hempty), IH. reflexivity.
Qed.

Lemma stream_except_clauses_same (e : exn) :
  Client.stream_except_clauses (N := N) e = AsyncClient.stream_except_clauses e.
Proof. reflexivity. Qed.

End Closing.

(** X12.  The decoder stops reading at the first line that is the sentinel
    or an error object: whatever comes after that line, further lines or a
    failure of the transport, has no effect on the run. *)
Theorem closing_line_ends_the_stream
    {N : Type} `{PyNumber N} (lib : PyLib) (line : string) :
  closing lib line ->
  (forall (self : Client.InfinityAssistantClient N) kwargs status hs j pre rest finish,
      Client.chat_stream lib self kwargs
        (Responds (mk_response status hs j (pre ++ line :: rest) finish))
      = Client.chat_stream lib self kwargs
          (Responds (mk_response status hs j (pre ++ [line]) None)))
  /\ (forall (aself : AsyncClient.AsyncInfinityAssistantClient N) kwargs status hs j
             pre rest finish,
        AsyncClient.chat_stream lib aself kwargs
          (Responds (mk_response status hs j (pre ++ line :: rest) finish))
        = AsyncClient.chat_stream lib aself kwargs
            (Responds (mk_response status hs j (pre ++ [line]) None))).
Proof.
  intros Hc. split.
  - intros self kwargs status hs j pre rest finish.
    destruct (on_line_closing_sync (N := N) lib line Hc) as [t Hl].
    unfold Client.chat_stream.
    rewrite !session_request_responds_sync, !bind_after, !bind_ret.
    rewrite (ok_status_sync (mk_response status hs j (pre ++ line :: rest) finish)
               (mk_response status hs j (pre ++ [line]) None) eq_refl).
    destruct (negb (Client.ok _)); [reflexivity |].
    cbn [lines lines_end]. rewrite (for_lines_cut_sync lib line pre rest finish t Hl).
    reflexivity.
  - intros aself kwargs status hs j pre rest finish.
    destruct (on_line_closing_async (N := N) lib line Hc) as [t Hl].
    unfold AsyncClient.chat_stream.
    rewrite !session_request_responds_async, !bind_after, !bind_ret.
    rewrite (ok_status_async (mk_response status hs j (pre ++ line :: rest) finish)
               (mk_response status hs j (pre ++ [line]) None) eq_refl).
    destruct (negb (AsyncClient.ok _)); [reflexivity |].
    cbn [lines lines_end]. rewrite (for_lines_cut_async lib line pre rest finish t Hl).
    reflexivity.
Qed.

(** X12 on an error object followed by a text line and a broken
    connection. *)
Lemma lines_after_an_error_are_not_read :
  closing Ref.lib error_line
  /\ Client.chat_stream Ref.lib sample_client []
       (Responds (mk_response 200 [] (JsonValue PyNone)
                    ([hi_line] ++ error_line :: [there_line])
                    (Some (Lib TransportExc "connection reset"))))
     = Client.chat_stream Ref.lib sample_client []
         (Responds (mk_response 200 [] (JsonValue PyNone) ([hi_line] ++ [error_line])
                      None)).
Proof.
  assert (Hc : closing Ref.lib error_line).
  { right. exists [("type", PyStr "error"); ("error", PyStr "boom")].
    split; [| reflexivity].
    split; [discriminate |]. exists error_line. repeat split. discriminate. }
  split; [exact Hc |].
  apply (proj1 (closing_line_ends_the_stream (N := Z) Ref.lib error_line Hc)).
Defined.

(** X13.  Given the same lines, the two decoders yield the same chunks and
    end the same way: for a response with a status below 600, and a
    [bytes.decode] that turns empty input into the empty string, the runs of
    the two [chat_stream] differ only in how each client writes its call.
    What sets the clients apart on a stream is how their libraries cut the
    body into lines. *)
Theorem decoders_agree_on_the_same_lines
    {N : Type} `{PyNumber N} (lib : PyLib)
    (self : Client.InfinityAssistantClient N)
    (aself : AsyncClient.AsyncInfinityAssistantClient N)
    (kwargs : list (string * pyval)) (r : Response) :
  bytes_decode lib EmptyString = Some EmptyString ->
  status_code r < 600 ->
  let sync := Client.chat_stream lib self kwargs (Responds r) in
  let async := AsyncClient.chat_stream lib aself kwargs (Responds r) in
  trace_of sync = with_call (Client.stream_call self kwargs) (trace_of async)
  /\ chunks sync = chunks async
  /\ outcome_of sync = outcome_of async.
Proof.
  intros Hempty Hs sync async. subst sync async.
  assert (Hrest : exists rest,
            Client.chat_stream lib self kwargs (Responds r)
            = after [Request (Client.stream_call self kwargs)] rest
            /\ AsyncClient.chat_stream lib aself kwargs (Responds r)
               = after [Request (AsyncClient.stream_call aself kwargs)] rest).
  { unfold Client.chat_stream, AsyncClient.chat_stream.
    rewrite session_request_responds_sync, session_request_responds_async.
    rewrite !bind_after, !bind_ret, !try_after, (ok_agree r Hs).
    rewrite raise_api_error_same, (for_lines_same lib _ _ Hempty).
    eexists. split; reflexivity. }
  destruct Hrest as [rest [Hsync Hasync]].
  destruct (chat_stream_shape_sync lib self kwargs (Responds r)) as [Ht _].
  rewrite Hsync in Ht |- *. rewrite Hasync.
  unfold chunks, after, trace_of, outcome_of in *. cbn [fst snd app yields] in *.
  injection Ht as Ht.
  split; [| split; reflexivity].
  unfold with_call. cbn [map]. f_equal.
  rewrite Ht, map_map. reflexivity.
Qed.

(** X13 on three lines, the last one the sentinel. *)
Lemma same_lines_same_chunks :
  chunks (Client.chat_stream Ref.lib sample_client []
            (Responds (stream_response [hi_line; there_line; done_line])))
  = chunks (AsyncClient.chat_stream Ref.lib sample_async_client []
              (Responds (stream_response [hi_line; there_line; done_line]))).
Proof.
  apply (decoders_agree_on_the_same_lines Ref.lib sample_client sample_async_client []
           (stream_response [hi_line; there_line; done_line]) eq_refl
           ltac:(vm_compute; reflexivity)).
Defined.



(** ** The body of a streamed chat *)

Lemma lookup_dict_set (key : string) (v : pyval) (kwargs : list (string * pyval)) :
  lookup key (dict_set key v kwargs) = Some v.
Proof.
  induction kwargs as [| [k w] kwargs IH]; cbn [dict_set lookup].
  - rewrite String.eqb_refl. reflexivity.
  - destruct (String.eqb key k) eqn:Hk; cbn [lookup]; rewrite Hk; [reflexivity | exact IH].
Qed.

Lemma lookup_dict_set_other (key other : string) (v : pyval)
    (kwargs : list (string * pyval)) :
  other <> key -> lookup other (dict_set key v kwargs) = lookup other kwargs.
Proof.
  intros Hne. apply String.eqb_neq in Hne.
  induction kwargs as [| [k w] kwargs IH]; cbn [dict_set lookup].
  - rewrite Hne. reflexivity.
  - destruct (String.eqb key k) eqn:Hk; cbn [lookup].
    + apply String.eqb_eq in Hk. subst k. rewrite Hne. reflexivity.
    + destruct (String.eqb other k); [reflexivity | exact IH].
Qed.

Lemma keys_dict_set (key : string) (v : pyval) (kwargs : list (string * pyval)) :
  map fst (dict_set key v kwargs)
  = match lookup key kwargs with
    | Some _ => map fst kwargs
    | None => map fst kwargs ++ [key]
    end.
Proof.
  induction kwargs as [| [k w] kwargs IH]; cbn [dict_set lookup map fst app].
  - reflexivity.
  - destruct (String.eqb key k); cbn [map fst]; [reflexivity |].
    rewrite IH. destruct (lookup key kwargs); reflexivity.
Qed.

(** X15.  The body [chat_stream] sends is the caller's keyword arguments with
    [stream] set to [True]: a [stream] the caller passed is overwritten in
    its place, otherwise the key is added at the end, and every other key
    keeps its value and its position.  The call is a POST to [base_url/chat]
    with the headers of the client. *)
Theorem stream_flag_is_forced
    {N : Type} (self : Client.InfinityAssistantClient N)
    (aself : AsyncClient.AsyncInfinityAssistantClient N)
    (kwargs : list (string * pyval)) :
  let body := dict_set "stream" (PyBool true) kwargs in
  (Client.stream_call self kwargs
   = mk_call "POST" (Client.base_url self ++ "/chat") (Client._get_headers self) PyNone
       (PyDict body) (Some (Client.timeout self)) true
   /\ AsyncClient.stream_call aself kwargs
      = mk_call "POST" (AsyncClient.base_url aself ++ "/chat")
          (AsyncClient._get_headers aself) PyNone (PyDict body) None false)
  /\ lookup "stream" body = Some (PyBool true)
  /\ (forall key, key <> "stream" -> lookup key body = lookup key kwargs)
  /\ map fst body
     = match lookup "stream" kwargs with
       | Some _ => map fst kwargs
       | None => map fst kwargs ++ ["stream"]
       end.
Proof.
  intros body. subst body. repeat apply conj; try reflexivity.
  - apply lookup_dict_set.
  - intros key Hne. apply lookup_dict_set_other, Hne.
  - apply keys_dict_set.
Qed.

(** ** Base URL and headers *)

Lemma rstrip_slash_slashes (s : string) :
  exists k, s = (rstrip_slash s ++ slashes k)%string.
Proof.
  induction s as [| c rest [k IH]]; [exists O; reflexivity |].
  cbn [rstrip_slash]. destruct (rstrip_slash rest) as [| a kept] eqn:Hrest.
  - destruct (Ascii.eqb c "/") eqn:Hc.
    + apply Ascii.eqb_eq in Hc. subst c. exists (S k). cbn. f_equal. exact IH.
    + exists k. cbn. f_equal. exact IH.
  - exists k. cbn. f_equal. exact IH.
Qed.

Lemma rstrip_slash_ends (s : string) : ends_with_slash (rstrip_slash s) = false.
Proof.
  induction s as [| c rest IH]; [reflexivity |].
  cbn [rstrip_slash]. destruct (rstrip_slash rest) as [| a kept] eqn:Hrest.
  - destruct (Ascii.eqb c "/") eqn:Hc; [reflexivity | exact Hc].
  - exact IH.
Qed.

Lemma rstrip_slash_fixed (s : string) : ends_with_slash s = false -> rstrip_slash s = s.
Proof.
  induction s as [| c rest IH]; [reflexivity |].
  intros Hend. cbn [rstrip_slash]. destruct rest as [| a rest'].
  - cbn in Hend |- *. rewrite Hend. reflexivity.
  - rewrite IH by exact Hend. reflexivity.
Qed.

(** X16.  [__init__] strips the base URL of its trailing slashes and of
    nothing else: what the client keeps does not end with a slash, the given
    URL is what it keeps followed by slashes only, and a URL that does not
    end with a slash is kept as it is.  Both clients keep the same base URL,
    and every call goes to that base followed by the endpoint. *)
Theorem base_url_loses_its_trailing_slashes
    {N : Type} `{PyNumber N} (lib : PyLib) (api_key : option string) (base_url : string)
    (timeout max_retries : Z) (retry_delay : N)
    (method endpoint : string) (data : pyval) (kwargs : list (string * pyval)) :
  let self := Client.__init__ api_key base_url timeout max_retries retry_delay in
  let aself := AsyncClient.__init__ api_key base_url timeout max_retries retry_delay in
  Client.base_url self = AsyncClient.base_url aself
  /\ ends_with_slash (Client.base_url self) = false
  /\ (exists k, base_url = (Client.base_url self ++ slashes k)%string)
  /\ (ends_with_slash base_url = false -> Client.base_url self = base_url)
  /\ call_url (Client.request_call lib self method endpoint PyNone data)
     = (Client.base_url self ++ endpoint)%string
  /\ call_url (AsyncClient.request_call aself method endpoint PyNone data)
     = (Client.base_url self ++ endpoint)%string
  /\ call_url (Client.stream_call self kwargs) = (Client.base_url self ++ "/chat")%string
  /\ call_url (AsyncClient.stream_call aself kwargs)
     = (Client.base_url self ++ "/chat")%string.
Proof.
  intros self aself. subst self aself. cbn [Client.__init__ Client.base_url
    AsyncClient.__init__ AsyncClient.base_url].
  repeat apply conj; try reflexivity.
  - apply rstrip_slash_ends.
  - apply rstrip_slash_slashes.
  - apply rstrip_slash_fixed.
Qed.

(** X17.  [set_api_key] changes the key and nothing else.  [get_api_key]
    returns the key that was set; every call made afterwards is the call the
    client would have made before, with the headers [Content-Type:
    application/json] and, when the key is not empty, [X-API-Key: key]; with an
    empty key no [X-API-Key] header is sent. *)
Theorem api_key_travels_in_its_header
    {N : Type} `{PyNumber N} (lib : PyLib)
    (self : Client.InfinityAssistantClient N)
    (aself : AsyncClient.AsyncInfinityAssistantClient N)
    (key method endpoint : string) (params data : pyval) :
  let headers :=
    ("Content-Type", "application/json")
      :: (if String.eqb key EmptyString then [] else [("X-API-Key", key)]) in
  let before := Client.request_call lib self method endpoint params data in
  let abefore := AsyncClient.request_call aself method endpoint params data in
  (Client.get_api_key (Client.set_api_key self key) = Some key
   /\ Client.request_call lib (Client.set_api_key self key) method endpoint params data
      = mk_call (call_method before) (call_url before) headers (call_params before)
          (call_json before) (call_timeout before) (call_stream before))
  /\ (AsyncClient.get_api_key (AsyncClient.set_api_key aself key) = Some key
      /\ AsyncClient.request_call (AsyncClient.set_api_key aself key) method endpoint
           params data
         = mk_call (call_method abefore) (call_url abefore) headers (call_params abefore)
             (call_json abefore) (call_timeout abefore) (call_stream abefore)).
Proof.
  intros headers before abefore. subst headers before abefore.
  unfold Client.request_call, AsyncClient.request_call, Client._get_headers,
    AsyncClient._get_headers, nonempty.
  cbn. destruct (String.eqb key EmptyString); repeat split.
Qed.

(** ** The session of the non-blocking client *)

Section Sessions.
Context {N : Type} (self : AsyncClient.AsyncInfinityAssistantClient N).

Lemma nth_error_held (before : list AsyncClient.ClientSession) held :
  nth_error (before ++ [held]) (List.length before) = Some held.
Proof. induction before as [| x before IH]; [reflexivity | exact IH]. Qed.

Lemma nth_error_close_at (sessions : list AsyncClient.ClientSession) :
  forall s session,
    nth_error sessions s = Some session ->
    nth_error (AsyncClient.close_at s sessions) s
    = Some (AsyncClient.mk_session (AsyncClient.session_timeout session) true).
Proof.
  induction sessions as [| x sessions IH]; intros [| s] session Hs; try discriminate Hs.
  - injection Hs as <-. reflexivity.
  - cbn [AsyncClient.close_at nth_error]. apply IH. exact Hs.
Qed.

Lemma close_at_held (before : list AsyncClient.ClientSession) held :
  AsyncClient.close_at (List.length before) (before ++ [held])
  = before ++ [AsyncClient.mk_session (AsyncClient.session_timeout held) true].
Proof.
  induction before as [| x before IH]; [reflexivity |].
  cbn [List.length app AsyncClient.close_at]. rewrite IH. reflexivity.
Qed.

Lemma open_from_closed (before rest : list AsyncClient.ClientSession) :
  Forall (fun session => AsyncClient.closed session = true) before ->
  forall s,
    AsyncClient.open_from s (before ++ rest)
    = AsyncClient.open_from (s + List.length before) rest.
Proof.
  induction 1 as [| x before Hx _ IH]; intros s; cbn [app List.length].
  - rewrite Nat.add_0_r. reflexivity.
  - cbn [AsyncClient.open_from]. rewrite Hx, IH. f_equal. lia.
Qed.

(** The sessions of a tidy store that are open: the one the client holds,
    when it is open. *)
Lemma open_sessions_tidy (st : AsyncClient.session_state) :
  tidy self st ->
  AsyncClient.open_sessions st
  = match AsyncClient._session st with
    | Some s => if AsyncClient.session_closed st s then [] else [s]
    | None => []
    end.
Proof.
  intros [_ [[Hstore Hnone] | [before [held [Hstore [Hclosed Hheld]]]]]];
    unfold AsyncClient.open_sessions, AsyncClient.session_closed.
  - rewrite Hstore, Hnone. reflexivity.
  - rewrite Hheld, Hstore, (open_from_closed before [held] Hclosed), nth_error_held.
    cbn [AsyncClient.open_from]. destruct (AsyncClient.closed held); reflexivity.
Qed.

Lemma tidy_no_session : tidy self AsyncClient.no_session.
Proof. split; [constructor | left; split; reflexivity]. Qed.

Lemma tidy_new_session (st : AsyncClient.session_state) :
  Forall (fun session => AsyncClient.session_timeout session = AsyncClient.timeout self)
    (AsyncClient.store st) ->
  Forall (fun session => AsyncClient.closed session = true) (AsyncClient.store st) ->
  tidy self (snd (AsyncClient.new_session self st)).
Proof.
  intros Htimeout Hclosed. split; cbn [AsyncClient.new_session snd AsyncClient.store].
  - apply Forall_app. split; [exact Htimeout | constructor; [reflexivity | constructor]].
  - right. exists (AsyncClient.store st), (AsyncClient.mk_session (AsyncClient.timeout self) false).
    repeat split. exact Hclosed.
Qed.

Lemma tidy_get_session (st : AsyncClient.session_state) :
  tidy self st -> tidy self (snd (AsyncClient._get_session self st)).
Proof.
  intros Htidy.
  pose proof Htidy
    as [Htimeout [[Hstore Hnone] | [before [held [Hstore [Hclosed Hheld]]]]]];
    unfold AsyncClient._get_session.
  - rewrite Hnone. apply tidy_new_session; [exact Htimeout |]. rewrite Hstore. constructor.
  - rewrite Hheld. unfold AsyncClient.session_closed. rewrite Hstore, nth_error_held.
    destruct (AsyncClient.closed held) eqn:Hc; [| exact Htidy].
    apply tidy_new_session; [exact Htimeout |].
    rewrite Hstore. apply Forall_app. split; [exact Hclosed |].
    constructor; [exact Hc | constructor].
Qed.

Lemma tidy_close (st : AsyncClient.session_state) :
  tidy self st -> tidy self (AsyncClient.close st).
Proof.
  intros Htidy.
  pose proof Htidy
    as [Htimeout [[Hstore Hnone] | [before [held [Hstore [Hclosed Hheld]]]]]];
    unfold AsyncClient.close.
  - rewrite Hnone. exact Htidy.
  - rewrite Hheld. unfold AsyncClient.session_closed. rewrite Hstore, nth_error_held.
    destruct (AsyncClient.closed held) eqn:Hc; cbn [negb]; [exact Htidy |].
    rewrite close_at_held. split; cbn [AsyncClient.store AsyncClient._session].
    + rewrite Hstore in Htimeout. apply Forall_app in Htimeout as [Hbefore Hlast].
      apply Forall_app. split; [exact Hbefore |].
      constructor; [| constructor]. inversion Hlast as [| x l Hx _]. exact Hx.
    + right. exists before, (AsyncClient.mk_session (AsyncClient.session_timeout held) true).
      repeat split. exact Hclosed.
Qed.

Lemma tidy_run (uses : list AsyncClient.session_use) :
  forall st, tidy self st -> tidy self (AsyncClient.session_run self uses st).
Proof.
  induction uses as [| [|] uses IH]; intros st Htidy; cbn [AsyncClient.session_run].
  - exact Htidy.
  - apply IH, tidy_get_session, Htidy.
  - apply IH, tidy_close, Htidy.
Qed.

Lemma close_closes (st : AsyncClient.session_state) :
  match AsyncClient._session (AsyncClient.close st) with
  | Some s => AsyncClient.session_closed (AsyncClient.close st) s = true
  | None => True
  end
  /\ AsyncClient._session (AsyncClient.close st) = AsyncClient._session st.
Proof.
  unfold AsyncClient.close.
  destruct (AsyncClient._session st) as [s |] eqn:Hs;
    [| rewrite Hs; split; [exact I | reflexivity]].
  destruct (AsyncClient.session_closed st s) eqn:Hc; cbn [negb].
  - rewrite Hs, Hc. split; reflexivity.
  - cbn [AsyncClient._session]. split; [| reflexivity].
    unfold AsyncClient.session_closed in *. cbn [AsyncClient.store].
    destruct (nth_error (AsyncClient.store st) s) as [session |] eqn:Hn; [| discriminate Hc].
    rewrite (nth_error_close_at _ s session Hn). reflexivity.
Qed.

Lemma close_twice (st : AsyncClient.session_state) :
  AsyncClient.close (AsyncClient.close st) = AsyncClient.close st.
Proof.
  destruct (close_closes st) as [Hclosed Hsame].
  unfold AsyncClient.close at 1.
  destruct (AsyncClient._session (AsyncClient.close st)) as [s |]; [| reflexivity].
  rewrite Hclosed. reflexivity.
Qed.

End Sessions.

(** X18.  [_get_session] never hands out a closed session, and makes a new
    one only when the client holds none or a closed one: the session it
    returns is open and is the one the client holds from then on; a second
    call returns the same session and changes nothing; and the store is left
    as it was or grows by one open session with the client's timeout. *)
Theorem get_session_returns_an_open_session
    {N : Type} (self : AsyncClient.AsyncInfinityAssistantClient N)
    (st : AsyncClient.session_state) :
  let got := AsyncClient._get_session self st in
  AsyncClient.session_closed (snd got) (fst got) = false
  /\ AsyncClient._session (snd got) = Some (fst got)
  /\ AsyncClient._get_session self (snd got) = got
  /\ (snd got = st
      \/ AsyncClient.store (snd got)
         = AsyncClient.store st
           ++ [AsyncClient.mk_session (AsyncClient.timeout self) false]).
Proof.
  assert (Hnew : let got := AsyncClient.new_session self st in
                 AsyncClient.session_closed (snd got) (fst got) = false
                 /\ AsyncClient._session (snd got) = Some (fst got)
                 /\ AsyncClient._get_session self (snd got) = got).
  { assert (Hopen : AsyncClient.session_closed (snd (AsyncClient.new_session self st))
                      (fst (AsyncClient.new_session self st)) = false).
    { unfold AsyncClient.session_closed, AsyncClient.new_session.
      cbn [fst snd AsyncClient.store]. rewrite nth_error_held. reflexivity. }
    split; [exact Hopen |]. split; [reflexivity |].
    unfold AsyncClient._get_session at 1.
    change (AsyncClient._session (snd (AsyncClient.new_session self st)))
      with (Some (fst (AsyncClient.new_session self st))).
    cbv beta iota. rewrite Hopen. reflexivity. }
  intros got. subst got.
  assert (Hcases : AsyncClient._get_session self st = AsyncClient.new_session self st
                   \/ exists s, AsyncClient._session st = Some s
                                /\ AsyncClient.session_closed st s = false
                                /\ AsyncClient._get_session self st = (s, st)).
  { unfold AsyncClient._get_session.
    destruct (AsyncClient._session st) as [s |] eqn:Hs; [| left; reflexivity].
    destruct (AsyncClient.session_closed st s) eqn:Hc; [left; reflexivity |].
    right. exists s. repeat split. exact Hc. }
  destruct Hcases as [-> | [s [Hs [Hc Hget]]]].
  - destruct Hnew as (H1 & H2 & H3). repeat split; try assumption. right. reflexivity.
  - rewrite Hget. cbn [fst snd]. repeat split; try assumption. left. reflexivity.
Qed.

(** X19.  The non-blocking client never leaks a session.  After any sequence
    of request attempts and [close()] calls on a new client, the only session
    that can be open is the one the client holds, and every session it made
    has the client's timeout; after [close()], and so on leaving an
    [async with] block whatever happened inside, no session is open.
    Closing twice is closing once, and closing a client that never made a
    request makes no session. *)
Theorem sessions_do_not_leak
    {N : Type} (self : AsyncClient.AsyncInfinityAssistantClient N)
    (uses : list AsyncClient.session_use) (exc : option exn) :
  let st := AsyncClient.session_run self uses AsyncClient.no_session in
  AsyncClient.open_sessions st
  = match AsyncClient._session st with
    | Some s => if AsyncClient.session_closed st s then [] else [s]
    | None => []
    end
  /\ Forall (fun session => AsyncClient.session_timeout session = AsyncClient.timeout self)
       (AsyncClient.store st)
  /\ AsyncClient.open_sessions (AsyncClient.close st) = []
  /\ AsyncClient.open_sessions
       (AsyncClient.__aexit__ exc
          (AsyncClient.session_run self uses
             (AsyncClient.__aenter__ AsyncClient.no_session))) = []
  /\ AsyncClient.close (AsyncClient.close st) = AsyncClient.close st
  /\ AsyncClient.close AsyncClient.no_session = AsyncClient.no_session.
Proof.
  intros st.
  assert (Htidy : tidy self st) by apply tidy_run, tidy_no_session.
  assert (Hclosed : AsyncClient.open_sessions (AsyncClient.close st) = []).
  { rewrite (open_sessions_tidy self _ (tidy_close self st Htidy)).
    destruct (close_closes st) as [Hc _].
    destruct (AsyncClient._session (AsyncClient.close st)) as [s |]; [| reflexivity].
    rewrite Hc. reflexivity. }
  repeat apply conj.
  - apply (open_sessions_tidy self), Htidy.
  - apply Htidy.
  - exact Hclosed.
  - exact Hclosed.
  - apply close_twice.
  - reflexivity.
Qed.

(** ** The text of an error *)

(** X20.  [str(e)] of the errors of the SDK whose message is a string, for a
    [format] that leaves a [str] as it is.  The three subclasses print their
    code before their message: [RATE_LIMIT: ...], [TIMEOUT: ...],
    [NETWORK_ERROR: ...].  The message of the error of an error response is
    the body's [message] when truthy, else its [error] when truthy, else
    [Request failed]; that error prints [code: message] when the body's code is
    truthy (the code formatted; the code itself when it is a string) and the
    message alone when the body has no truthy code.  So a body that is not
    JSON prints [Unknown error], and an object with neither a truthy message
    nor a truthy error prints [Request failed], after its code when it has
    one. *)
Theorem errors_print_code_and_message
    (format : pyval -> string) (message : string) (status : Z) :
  (forall s, format (PyStr s) = s) ->
  let message_of d :=
    py_or (field d "message") (py_or (field d "error") (PyStr "Request failed")) in
  (__str__ format (InfinityAssistantRateLimitError message)
   = inl ("RATE_LIMIT: " ++ message)%string
   /\ __str__ format (InfinityAssistantTimeoutError message)
      = inl ("TIMEOUT: " ++ message)%string
   /\ __str__ format (InfinityAssistantNetworkError message)
      = inl ("NETWORK_ERROR: " ++ message)%string)
  /\ (forall d,
        Exceptions.message (api_error status d) = message_of d
        /\ (truthy (field d "message") = true -> message_of d = field d "message")
        /\ (truthy (field d "message") = false -> truthy (field d "error") = true ->
            message_of d = field d "error")
        /\ (truthy (field d "message") = false -> truthy (field d "error") = false ->
            message_of d = PyStr "Request failed"))
  /\ (forall d,
        message_of d = PyStr message -> truthy (field d "code") = true ->
        __str__ format (api_error status d)
        = inl (format (field d "code") ++ ": " ++ message)%string)
  /\ (forall d code,
        message_of d = PyStr message -> field d "code" = PyStr code ->
        code <> EmptyString ->
        __str__ format (api_error status d) = inl (code ++ ": " ++ message)%string)
  /\ (forall d,
        message_of d = PyStr message -> truthy (field d "code") = false ->
        __str__ format (api_error status d) = inl message)
  /\ (forall (r : Response) d,
        (exists e, json r = JsonFails e) -> error_object r d ->
        __str__ format (api_error status d) = inl "Unknown error").
Proof.
  intros Hformat message_of. subst message_of.
  assert (Hcode : forall d,
            py_or (field d "message") (py_or (field d "error") (PyStr "Request failed"))
            = PyStr message ->
            truthy (field d "code") = true ->
            __str__ format (api_error status d)
            = inl (format (field d "code") ++ ": " ++ message)%string).
  { intros d Hmsg Hc. unfold __str__, api_error, InfinityAssistantError.
    cbn [Exceptions.code Exceptions.message]. rewrite Hc, Hmsg, Hformat. reflexivity. }
  repeat apply conj.
  - unfold __str__. cbn. rewrite !Hformat. reflexivity.
  - unfold __str__. cbn. rewrite !Hformat. reflexivity.
  - unfold __str__. cbn. rewrite !Hformat. reflexivity.
  - intros d. unfold py_or. repeat apply conj.
    + reflexivity.
    + intros ->. reflexivity.
    + intros -> ->. reflexivity.
    + intros -> ->. reflexivity.
  - exact Hcode.
  - intros d code Hmsg Hc Hne. rewrite (Hcode d Hmsg).
    + rewrite Hc, Hformat. reflexivity.
    + rewrite Hc. cbn [truthy]. apply String.eqb_neq in Hne. rewrite Hne. reflexivity.
  - intros d Hmsg Hc. unfold __str__, api_error, InfinityAssistantError.
    cbn [Exceptions.code Exceptions.message]. rewrite Hc, Hmsg. reflexivity.
  - intros r d [e He] [Hj | [_ ->]]; [rewrite He in Hj; discriminate Hj | reflexivity].
Qed.

(** X20 with the reference [str]: the three subclasses with the message
    [try again]; a 404 whose body has that message and the code [E404]; and
    bodies with the code [E404] and no message, [{"code": "E404"}] and
    [{"error": "try again", "code": "E404"}]. *)
Lemma errors_print_with_the_reference_str :
  (__str__ Ref.str_of (InfinityAssistantRateLimitError "try again")
   = inl "RATE_LIMIT: try again"
   /\ __str__ Ref.str_of (InfinityAssistantTimeoutError "try again")
      = inl "TIMEOUT: try again"
   /\ __str__ Ref.str_of (InfinityAssistantNetworkError "try again")
      = inl "NETWORK_ERROR: try again")
  /\ __str__ Ref.str_of
       (api_error 404 [("message", PyStr "try again"); ("code", PyStr "E404")])
     = inl "E404: try again"
  /\ __str__ Ref.str_of (api_error 404 [("error", PyStr "try again"); ("code", PyStr "E404")])
     = inl "E404: try again"
  /\ __str__ Ref.str_of (api_error 404 [("code", PyStr "E404")])
     = inl "E404: Request failed"
  /\ __str__ Ref.str_of (api_error 404 []) = inl "Request failed".
Proof.
  destruct (errors_print_code_and_message Ref.str_of "try again" 404 (fun s => eq_refl))
    as (Hsub & _ & _ & Hcode & _).
  destruct (errors_print_code_and_message Ref.str_of "Request failed" 404
              (fun s => eq_refl))
    as (_ & _ & _ & Hfailed & Hplain & _).
  split; [exact Hsub |]. repeat apply conj.
  - apply (Hcode [("message", PyStr "try again"); ("code", PyStr "E404")] "E404");
      [reflexivity | reflexivity | discriminate].
  - apply (Hcode [("error", PyStr "try again"); ("code", PyStr "E404")] "E404");
      [reflexivity | reflexivity | discriminate].
  - apply (Hfailed [("code", PyStr "E404")] "E404");
      [reflexivity | reflexivity | discriminate].
  - apply (Hplain []); reflexivity.
Defined.

(** X21.  [str(e)] can itself raise.  The message of the error of an error
    response is never falsy, but it is whatever the body holds: when the
    body's [message] (or, without one, its [error]) is truthy and not a string
    and the body has no truthy code, [__str__] returns a value that is not a
    [str], and [str(e)], an f-string or [print(e)] raise [TypeError]. *)
Theorem error_text_raises_for_a_message_that_is_no_string
    (format : pyval -> string) (status : Z) (d : list (string * pyval)) :
  truthy (field d "code") = false ->
  is_str (py_or (field d "message") (py_or (field d "error") (PyStr "Request failed")))
  = false ->
  truthy (message (api_error status d)) = true
  /\ __str__ format (api_error status d)
     = inr (Lib OtherExc "TypeError: __str__ returned non-string").
Proof.
  intros Hcode Hstr. unfold __str__, api_error, InfinityAssistantError.
  cbn [Exceptions.code Exceptions.message]. rewrite Hcode. split.
  - unfold py_or. destruct (truthy (field d "message")) eqn:Hm; [exact Hm |].
    destruct (truthy (field d "error")) eqn:He; [exact He | reflexivity].
  - destruct (py_or _ _); try reflexivity. discriminate Hstr.
Qed.

(** X21 on a 400 whose body is
    [{"error": {"message": "Invalid key", "type": "auth"}}]: the executor raises
    the error of the response, and the text of that error cannot be
    taken. *)
Lemma nested_error_has_no_text :
  exists e,
    outcome_of (Client._request Ref.lib sample_client "POST" "/chat" PyNone
                  (PyDict [("message", PyStr "Hello")]) 0 [Responds nested_error])
    = Raise (Sdk e)
    /\ __str__ Ref.str_of e = inr (Lib OtherExc "TypeError: __str__ returned non-string").
Proof.
  eexists. split; [reflexivity |].
  apply (error_text_raises_for_a_message_that_is_no_string Ref.str_of 400
           [("error", PyDict [("message", PyStr "Invalid key"); ("type", PyStr "auth")])]
           eq_refl eq_refl).
Defined.

(** ** The operations *)

Section Operations.
Context {N : Type} `{PyNumber N} (lib : PyLib).




End Operations.


(** X23 on the default clients and [retrieve_memory("a b")]: the blocking
    client sends the key in the URL, the non-blocking one as [params]. *)
Lemma retrieve_memory_calls_correspond :
  let params := PyDict [("key", PyStr "a b")] in
  call_url (Client.request_call Ref.lib sample_client "GET" "/memory/retrieve" params
              PyNone)
  = "https://infinityassistant.io/api/memory/retrieve?key=a+b"
  /\ call_url (AsyncClient.request_call sample_async_client "GET" "/memory/retrieve"
                 params PyNone)
     = "https://infinityassistant.io/api/memory/retrieve"
  /\ call_params (AsyncClient.request_call sample_async_client "GET" "/memory/retrieve"
                    params PyNone) = params.
Proof.
  intros params.
  destruct (request_calls_correspond Ref.lib sample_client sample_async_client "GET"
              "/memory/retrieve" params PyNone eq_refl eq_refl)
    as (_ & _ & _ & Hurl & _ & Hparams & _).
  split; [rewrite Hurl; reflexivity |]. split; [reflexivity | exact Hparams].
Defined.

(** ** The chunks of one payload *)

(** X24.  A line [data: <payload>] whose payload decodes to an object that is
    not of type ["error"] yields the object's [content] as a text chunk when it
    is truthy, then its [metadata] as a metadata chunk when it is truthy,
    and nothing else: an empty or missing [content] gives no text chunk, every
    other key of the object is ignored, and the loop goes on with the next
    line. *)
Theorem payload_yields_content_then_metadata
    {N : Type} `{PyNumber N} (lib : PyLib) (line : string) (d : list (string * pyval)) :
  payload lib line (PyDict d) ->
  eq_str (field d "type") "error" = false ->
  let yielded :=
    (if truthy (field d "content") then [chunk_text (field d "content")] else [])
    ++ (if truthy (field d "metadata") then [chunk_metadata (field d "metadata")] else [])
  in
  Client.on_line (N := N) lib line = (map Yield yielded, Return Next)
  /\ AsyncClient.on_line (N := N) lib line = (map Yield yielded, Return Next).
Proof.
  intros Hp Hty yielded. subst yielded. split.
  - apply (on_line_data_sync lib line d Hp Hty).
  - apply (on_line_data_async lib line d Hp Hty).
Qed.

(** X24 on [data: {"content":"Hi","metadata":{"tokens":3},"id":7}]. *)
Lemma full_line_yields_text_then_metadata :
  Client.on_line (N := Z) Ref.lib full_line
  = ([Yield (chunk_text (PyStr "Hi"));
      Yield (chunk_metadata (PyDict [("tokens", PyInt 3)]))],
     Return Next).
Proof.
  apply (proj1 (payload_yields_content_then_metadata (N := Z) Ref.lib full_line
                  [("content", PyStr "Hi"); ("metadata", PyDict [("tokens", PyInt 3)]);
                   ("id", PyInt 7)]
                  ltac:(split; [discriminate |]; exists full_line; repeat split;
                        discriminate)
                  eq_refl)).
Defined.
